(** * Grid1: the multi-model risk-scoring pipeline of [src/ai_engine]

    A shallow embedding of the preprocessing stage, the five scoring models,
    the fusion engine and the pipeline orchestrator, followed by the
    properties of the specification that are stated about them.

    Conventions of the embedding.
    - Python numbers ([int], [float], [bool]) are real numbers ([R]); the
      arithmetic is exact, so rounding error, NaN, infinities and the
      [OverflowError] of numbers beyond the range of a float are outside
      the model.  [math.sqrt] is [sqrt], [abs] is [Rabs], [min]/[max] are
      [Rmin]/[Rmax], [round(x, 3)] is [round3] (nearest multiple of 1/1000,
      ties to even).  The properties are stated so as not to depend on
      exact arithmetic where the code's results are sensitive to rounding;
      the one place where rounding moves a score out of its documented
      range, the cosine similarity of the memory model, is also embedded
      in binary64 arithmetic ([MemoryModel_binary64]).
    - A class is a [Module]; its instance attributes are a record [t]; a
      method takes the record and returns the result together with the new
      record.  An exception is the [Raise] case of [result].
    - An f-string is the list of its segments ([Text]): literal text and the
      formatted values with their format.
    - A timestamp string is represented by what
      [datetime.fromisoformat(s.replace('Z', '+00:00'))] makes of it; the
      wall clock read by [datetime.now()] is an argument [now]. *)

From Stdlib Require Import Floats.
From Stdlib Require Import Reals Lra Lia ZArith List String Bool.
From stdpp Require Import base option list gmap strings.

Open Scope R_scope.

(* ===================================================================== *)
(** ** Numbers *)
(* ===================================================================== *)

Definition Rltb (x y : R) : bool := if Rlt_dec x y then true else false.
Definition Rgtb (x y : R) : bool := Rltb y x.
Definition Reqb (x y : R) : bool := if Req_dec_T x y then true else false.

#[global] Instance Rlt_decision (x y : R) : Decision (x < y) := Rlt_dec x y.

(** [sum(xs)] *)
Definition Rsum (xs : list R) : R := fold_left Rplus xs 0.

(** [max(xs)] on a non-empty list: the first maximal element. *)
Fixpoint max_from (best : R) (xs : list R) : R :=
  match xs with
  | [] => best
  | x :: xs' => max_from (if Rltb best x then x else best) xs'
  end.

Definition py_max (xs : list R) : R :=
  match xs with
  | [] => 0
  | x :: xs' => max_from x xs'
  end.

(** [l[-n:]] for a positive [n]: the last [n] elements, or all of [l]. *)
Definition last_n {A} (n : nat) (l : list A) : list A :=
  skipn (length l - n) l.

(** [l.append(x); if len(l) > cap: l.pop(0)] *)
Definition append_bounded {A} (cap : nat) (l : list A) (x : A) : list A :=
  let l' := l ++ [x] in
  if Nat.ltb cap (length l') then tl l' else l'.

(** Nearest integer, ties to the even one. *)
Definition round_half_even (y : R) : Z :=
  let n := Int_part y in
  let f := y - IZR n in
  if Rltb f (1/2) then n
  else if Rltb (1/2) f then (n + 1)%Z
  else if Z.even n then n else (n + 1)%Z.

(** [round(x, 3)] *)
Definition round3 (x : R) : R := IZR (round_half_even (x * 1000)) / 1000.

(** [max(0.0, min(1.0, x))] *)
Definition clamp01 (x : R) : R := Rmax 0 (Rmin 1 x).

(* ===================================================================== *)
(** ** Text, exceptions *)
(* ===================================================================== *)

(** A segment of an f-string: literal text, a float printed with a fixed
    number of decimals ([{x:.2f}]), a float printed as it is ([{x}]), or an
    integer ([{n}]). *)
Inductive Seg : Type :=
| Lit (s : string)
| Fixed (decimals : nat) (x : R)
| Num (x : R)
| Int (n : Z).

Definition Text : Type := list Seg.

(** [msg in text]: the segments of [msg] occur in [text]. *)
Definition contains (text msg : Text) : Prop :=
  exists pre post, text = pre ++ msg ++ post.

Record Exc : Type := mkExc {
  exc_type : string;   (* type(error).__name__ *)
  exc_msg : Text       (* str(error) *)
}.

Inductive result (A : Type) : Type :=
| Ok (a : A)
| Raise (e : Exc).
Arguments Ok {A} a.
Arguments Raise {A} e.

(** The error monad, with stdpp's [x ← m; k] notation. *)
#[global] Instance result_ret : MRet result := fun _ a => Ok a.
#[global] Instance result_bind : MBind result := fun _ _ k r =>
  match r with
  | Ok a => k a
  | Raise e => Raise e
  end.

(* ===================================================================== *)
(** ** ai_config.py *)
(* ===================================================================== *)

Inductive DecisionCategory : Type := SAFE | WARNING | CRITICAL | ERROR.

Module AIEngineConfig.

Definition FUSION_WEIGHTS : gmap string R :=
  <["anomaly" := 15/100]> (<["fdia" := 35/100]> (<["physics" := 25/100]>
  (<["behavior" := 10/100]> (<["memory" := 15/100]> ∅)))).

Definition threshold_safe : R := 30/100.
Definition threshold_warning : R := 60/100.

(* ANOMALY_CONFIG *)
Definition rolling_window : nat := 20.
Definition z_score_threshold : R := 25/10.
Definition deviation_threshold : R := 15/100.

(* FDIA_CONFIG *)
Definition correlation_threshold : R := 3/10.
Definition normal_correlation : R := 85/100.
Definition temporal_window : nat := 5.

(* PHYSICS_CONFIG *)
Definition voltage_min : R := 95/100.
Definition voltage_max : R := 105/100.
Definition frequency_min : R := 495/10.
Definition frequency_max : R := 505/10.
Definition breaker_off_power_tolerance : R := 1/100.

(* BEHAVIOR_CONFIG *)
Definition max_switches_per_hour : nat := 10.
Definition command_interval_min : R := 5.
Definition pattern_memory_size : nat := 50.
Definition replay_time_tolerance : R := 1/10.

(* MEMORY_CONFIG *)
Definition history_size : nat := 100.
Definition similarity_threshold : R := 85/100.
Definition feature_weight_voltage : R := 3/10.
Definition feature_weight_frequency : R := 3/10.
Definition feature_weight_power_flow : R := 4/10.

(* PREPROCESSING_CONFIG *)
Definition normalization_ranges : list (string * (R * R)) :=
  [("voltage", (8/10, 12/10)); ("frequency", (49, 51)); ("power_flow", (0, 200))].
Definition default_voltage : R := 1.
Definition default_frequency : R := 50.
Definition default_power_flow : R := 0.

Definition get_decision (risk_score : R) : DecisionCategory :=
  if Rltb risk_score threshold_safe then SAFE
  else if Rltb risk_score threshold_warning then WARNING
  else CRITICAL.

End AIEngineConfig.

(* ===================================================================== *)
(** ** Data model *)
(* ===================================================================== *)

Inductive Breaker : Type := ON | OFF.

Definition Breaker_eqb (a b : Breaker) : bool :=
  match a, b with
  | ON, ON | OFF, OFF => true
  | _, _ => false
  end.

(** A [datetime] value, by what the code reads of it: [.hour],
    [.weekday()], whether it carries a UTC offset, its position in seconds
    on its own time line (what subtraction works on) and [.timestamp()]. *)
Record datetime : Type := mkDatetime {
  dt_hour : Z;
  dt_weekday : Z;
  dt_aware : bool;
  dt_seconds : R;
  dt_timestamp : R
}.

(** [(a - b).total_seconds()]; Python raises [TypeError] when one operand
    carries an offset and the other does not. *)
Definition datetime_sub (a b : datetime) : result R :=
  if Bool.eqb (dt_aware a) (dt_aware b) then Ok (dt_seconds a - dt_seconds b)
  else Raise (mkExc "TypeError"
                [Lit "can't subtract offset-naive and offset-aware datetimes"]).

(** A value of a raw input field.  A number is taken with its exact
    value; an int beyond the range of a float, on which Python's mixed
    arithmetic raises [OverflowError], is outside the embedding. *)
Inductive PyVal : Type :=
| PyNum (x : R)        (* an int, a float or a bool *)
| PyStr (s : string)
| PyNone.

(** The [timestamp] field: [TsIso dt] is a string that
    [datetime.fromisoformat(s.replace('Z', '+00:00'))] parses to [dt];
    [TsOther v] is any value on which that expression raises [ValueError]
    or [AttributeError], the two exceptions the code catches: a string
    that is not an ISO date, a number, [None].  The embedding covers these
    two kinds of timestamp.  Outside it are the values on which the
    expression raises another exception (a [bytes] or [datetime] object:
    [TypeError]) and the strings that parse to a datetime whose
    [.timestamp()] is out of range; on those [preprocess] raises before it
    has stored anything, and [analyze] returns the ERROR record. *)
Inductive TsVal : Type :=
| TsIso (dt : datetime)
| TsOther (v : PyVal).

(** [key in d], for a key read as an option. *)
Definition present {A} (o : option A) : bool :=
  match o with
  | Some _ => true
  | None => false
  end.

(** [bool(v)], as [if v:] reads a value. *)
Definition truthy (v : PyVal) : bool :=
  match v with
  | PyNum x => negb (Reqb x 0)
  | PyStr s => Nat.ltb 0 (String.length s)
  | PyNone => false
  end.

(** The raw input dictionary: the five keys of the documented input format
    and [breaker_changed], the one other key of the input that the models
    can read ([_handle_missing_fields] copies every key of the input, and
    the merge of [preprocess] overrides all the other keys the models read).
    [None] is an absent key. *)
Record RawInput : Type := mkRawInput {
  raw_voltage : option PyVal;
  raw_frequency : option PyVal;
  raw_power_flow : option PyVal;
  raw_breaker_status : option PyVal;
  raw_timestamp : option TsVal;
  raw_breaker_changed : option PyVal
}.

Inductive InputData : Type :=
| NotADict (v : PyVal)
| Dict (d : RawInput).

(** The validated dictionary, with the types validation has established. *)
Record Validated : Type := mkValidated {
  v_voltage : option R;
  v_frequency : option R;
  v_power_flow : option R;
  v_breaker_status : option Breaker;
  v_timestamp : option TsVal;
  v_breaker_changed : option PyVal
}.

(** [complete_data], by the five fields that are read from it and from the
    stored [last_telemetry]: the input with every field present. *)
Record Telemetry : Type := mkTelemetry {
  t_voltage : R;
  t_frequency : R;
  t_power_flow : R;
  t_breaker_status : Breaker;
  t_timestamp : TsVal
}.

(** An entry of [telemetry_history]. *)
Record HistoryEntry : Type := mkHistoryEntry {
  h_voltage : R;
  h_frequency : R;
  h_power_flow : R;
  h_timestamp : TsVal
}.

(** [preprocessed_data]: complete data, normalized values, temporal
    features and delta features.  [breaker_changed] is [None] when the key
    is absent; the models read the key only for its truth value
    ([if breaker_changed:]), which is what [Some b] holds. *)
Record Preprocessed : Type := mkPreprocessed {
  voltage : R;
  frequency : R;
  power_flow : R;
  breaker_status : Breaker;
  timestamp : TsVal;
  voltage_norm : R;
  frequency_norm : R;
  power_flow_norm : R;
  hour : Z;
  day_of_week : Z;
  is_weekend : bool;
  is_night : bool;
  timestamp_unix : R;
  delta_voltage : R;
  delta_frequency : R;
  delta_power_flow : R;
  delta_time : R;
  breaker_changed : option bool
}.

(** Dictionaries read through the keys [voltage], [frequency] and
    [power_flow]. *)
Class HasVFP (A : Type) : Type := {
  get_voltage : A -> R;
  get_frequency : A -> R;
  get_power_flow : A -> R
}.

#[global] Instance Preprocessed_VFP : HasVFP Preprocessed :=
  {| get_voltage := voltage; get_frequency := frequency;
     get_power_flow := power_flow |}.
#[global] Instance HistoryEntry_VFP : HasVFP HistoryEntry :=
  {| get_voltage := h_voltage; get_frequency := h_frequency;
     get_power_flow := h_power_flow |}.

Inductive Field : Type := Fvoltage | Ffrequency | Fpower_flow.

Definition field_of (f : Field) (h : HistoryEntry) : R :=
  match f with
  | Fvoltage => h_voltage h
  | Ffrequency => h_frequency h
  | Fpower_flow => h_power_flow h
  end.

(** What a model returns: score, confidence and reason (the diagnostic
    [details] dictionary of a model is not read by the pipeline). *)
Record ModelOutput : Type := mkModelOutput {
  score : R;
  confidence : R;
  reason : Text
}.

(* ===================================================================== *)
(** ** preprocessing.py *)
(* ===================================================================== *)

Module DataPreprocessor.

Record t : Type := mk {
  last_telemetry : option Telemetry;
  telemetry_history : list HistoryEntry
}.

Definition init : t := mk None [].

Definition PreprocessingError (msg : string) : Exc :=
  mkExc "PreprocessingError" [Lit msg].

(** The check of one numeric field: absent, numeric, or an error. *)
Definition numeric_field (v : option PyVal) (msg : string) : result (option R) :=
  match v with
  | None => Ok None
  | Some (PyNum x) => Ok (Some x)
  | Some _ => Raise (PreprocessingError msg)
  end.

Definition breaker_field (v : option PyVal) : result (option Breaker) :=
  match v with
  | None => Ok None
  | Some (PyStr s) =>
      if String.eqb s "ON" then Ok (Some ON)
      else if String.eqb s "OFF" then Ok (Some OFF)
      else Raise (PreprocessingError "Breaker status must be 'ON' or 'OFF'")
  | Some _ => Raise (PreprocessingError "Breaker status must be 'ON' or 'OFF'")
  end.

Definition _validate_input (input_data : InputData) : result Validated :=
  match input_data with
  | NotADict _ => Raise (PreprocessingError "Input must be a dictionary")
  | Dict d =>
      let has_telemetry :=
        present (raw_voltage d) || present (raw_frequency d)
        || present (raw_power_flow d) in
      if negb has_telemetry then
        Raise (PreprocessingError
          "At least one telemetry field required: ['voltage', 'frequency', 'power_flow']")
      else
        v ← numeric_field (raw_voltage d) "Voltage must be numeric";
        f ← numeric_field (raw_frequency d) "Frequency must be numeric";
        p ← numeric_field (raw_power_flow d) "Power flow must be numeric";
        b ← breaker_field (raw_breaker_status d);
        Ok (mkValidated v f p b (raw_timestamp d) (raw_breaker_changed d))
  end.

(** [now] is the reading of [datetime.now()]; its [isoformat()] parses
    back to the same value. *)
Definition _handle_missing_fields (now : datetime) (data : Validated) : Telemetry :=
  mkTelemetry
    (default AIEngineConfig.default_voltage (v_voltage data))
    (default AIEngineConfig.default_frequency (v_frequency data))
    (default AIEngineConfig.default_power_flow (v_power_flow data))
    (default OFF (v_breaker_status data))
    (default (TsIso now) (v_timestamp data)).

Definition normalize_value (value min_val max_val : R) : R :=
  let value := Rmax min_val (Rmin max_val value) in
  (value - min_val) / (max_val - min_val).

(** The three normalized values, in the order of [normalization_ranges]. *)
Definition _normalize_values (data : Telemetry) : R * R * R :=
  (normalize_value (t_voltage data) (8/10) (12/10),
   normalize_value (t_frequency data) 49 51,
   normalize_value (t_power_flow data) 0 200).

Record Temporal : Type := mkTemporal {
  tf_hour : Z;
  tf_day_of_week : Z;
  tf_is_weekend : bool;
  tf_is_night : bool;
  tf_timestamp_unix : R
}.

Definition _extract_temporal_features (now : datetime) (data : Telemetry) : Temporal :=
  let timestamp :=
    match t_timestamp data with
    | TsIso dt => dt
    | TsOther _ => now      (* fall back to the current time *)
    end in
  mkTemporal (dt_hour timestamp) (dt_weekday timestamp)
    (Z.leb 5 (dt_weekday timestamp))
    (Z.ltb (dt_hour timestamp) 6 || Z.leb 22 (dt_hour timestamp))
    (dt_timestamp timestamp).

Record Deltas : Type := mkDeltas {
  d_voltage : R;
  d_frequency : R;
  d_power_flow : R;
  d_time : R;
  d_breaker_changed : option bool
}.

Definition _compute_deltas (self : t) (data : Telemetry) : result (Deltas * t) :=
  match last_telemetry self with
  | None =>
      Ok (mkDeltas 0 0 0 0 None, mk (Some data) (telemetry_history self))
  | Some last =>
      dt ← match t_timestamp data, t_timestamp last with
           | TsIso current_time, TsIso last_time =>
               datetime_sub current_time last_time
           | _, _ => Ok 0
           end;
      Ok (mkDeltas (t_voltage data - t_voltage last)
            (t_frequency data - t_frequency last)
            (t_power_flow data - t_power_flow last)
            dt
            (Some (negb (Breaker_eqb (t_breaker_status data) (t_breaker_status last)))),
          mk (Some data) (telemetry_history self))
  end.

Definition _update_history (self : t) (data : Telemetry) : t :=
  mk (last_telemetry self)
     (append_bounded AIEngineConfig.history_size (telemetry_history self)
        (mkHistoryEntry (t_voltage data) (t_frequency data) (t_power_flow data)
           (t_timestamp data))).

(** [{**complete_data, ..., **delta_features}]: the delta features come
    last, so their [breaker_changed] replaces one of the input; on the first
    call they hold none, and the key of the input, if there is one, stays. *)
Definition merged_breaker_changed (validated_data : Validated) (deltas : Deltas)
  : option bool :=
  match d_breaker_changed deltas with
  | Some b => Some b
  | None => option_map truthy (v_breaker_changed validated_data)
  end.

Definition preprocess (now : datetime) (self : t) (input_data : InputData)
  : result (Preprocessed * t) :=
  validated_data ← _validate_input input_data;
  let complete_data := _handle_missing_fields now validated_data in
  let '(vn, fn, pn) := _normalize_values complete_data in
  let temporal := _extract_temporal_features now complete_data in
  '(deltas, self) ← _compute_deltas self complete_data;
  let preprocessed_data :=
    mkPreprocessed (t_voltage complete_data) (t_frequency complete_data)
      (t_power_flow complete_data) (t_breaker_status complete_data)
      (t_timestamp complete_data) vn fn pn
      (tf_hour temporal) (tf_day_of_week temporal) (tf_is_weekend temporal)
      (tf_is_night temporal) (tf_timestamp_unix temporal)
      (d_voltage deltas) (d_frequency deltas) (d_power_flow deltas)
      (d_time deltas) (merged_breaker_changed validated_data deltas) in
  Ok (preprocessed_data, _update_history self complete_data).

Definition get_rolling_statistics (self : t) (field : Field) (window : nat) : R * R :=
  if Nat.ltb (length (telemetry_history self)) 2 then (0, 0)
  else
    let samples := map (field_of field) (last_n window (telemetry_history self)) in
    let n := INR (length samples) in
    let mean := Rsum samples / n in
    let variance := Rsum (map (fun x => (x - mean) ^ 2) samples) / n in
    (mean, sqrt variance).

Definition get_history (self : t) : list HistoryEntry := telemetry_history self.

Definition reset (self : t) : t := mk None [].

End DataPreprocessor.

(** A dictionary with the keys [voltage], [frequency], [power_flow]: an
    entry of the FDIA history and of the telemetry memory. *)
Record VFP : Type := mkVFP {
  vfp_voltage : R;
  vfp_frequency : R;
  vfp_power_flow : R
}.

#[global] Instance VFP_VFP : HasVFP VFP :=
  {| get_voltage := vfp_voltage; get_frequency := vfp_frequency;
     get_power_flow := vfp_power_flow |}.

(** The checks of a model as the list of those that fired
    ([if score > 0: scores.append(score); reasons.append(reason)]). *)
Definition fired (checks : list (R * Text)) : list (R * Text) :=
  filter (fun c => Rgtb (fst c) 0 = true) checks.

(* ===================================================================== *)
(** ** models/anomaly_model.py *)
(* ===================================================================== *)

Module AnomalyDetectionModel.

Definition _compute_z_score (value mean std_dev : R) : R :=
  if Reqb std_dev 0 then 0 else Rabs (value - mean) / std_dev.

Definition _compute_deviation_percentage (value mean : R) : R :=
  if Reqb mean 0 then 0 else Rabs (value - mean) / Rabs mean.

(** [field.capitalize()] *)
Definition capitalize (field : Field) : string :=
  match field with
  | Fvoltage => "Voltage"
  | Ffrequency => "Frequency"
  | Fpower_flow => "Power_flow"
  end.

Definition _evaluate_anomaly (field : Field) (value z_score deviation_pct mean std_dev : R)
  : bool * R * Text :=
  let z_threshold := AIEngineConfig.z_score_threshold in
  let dev_threshold := AIEngineConfig.deviation_threshold in
  if Rgtb z_score z_threshold then
    (true, Rmin 1 (z_score / (z_threshold * 2)),
     [Lit (capitalize field); Lit " deviation "; Fixed 1 z_score;
      Lit "σ from rolling mean"])
  else if Rgtb deviation_pct dev_threshold then
    (true, Rmin 1 (deviation_pct / (dev_threshold * 2)),
     [Lit (capitalize field); Lit " deviated "; Fixed 1 (deviation_pct * 100);
      Lit "% from expected"])
  else (false, 0, []).

Definition value_of (field : Field) (data : Preprocessed) : R :=
  match field with
  | Fvoltage => voltage data
  | Ffrequency => frequency data
  | Fpower_flow => power_flow data
  end.

(** The loop body for one field: the anomaly found, if any. *)
Definition check_field (preprocessed_data : Preprocessed)
    (rolling_stats : Field -> R * R) (field : Field) : list (R * Text) :=
  let value := value_of field preprocessed_data in
  let '(mean, std_dev) := rolling_stats field in
  let z_score := _compute_z_score value mean std_dev in
  let deviation_pct := _compute_deviation_percentage value mean in
  let '(is_anomalous, score, reason) :=
    _evaluate_anomaly field value z_score deviation_pct mean std_dev in
  if is_anomalous then [(score, reason)] else [].

Definition analyze (preprocessed_data : Preprocessed)
    (rolling_stats : Field -> R * R) : ModelOutput :=
  let anomalies :=
    flat_map (check_field preprocessed_data rolling_stats)
      [Fvoltage; Ffrequency; Fpower_flow] in
  let anomaly_scores := map fst anomalies in
  let anomaly_details := map snd anomalies in
  match anomaly_details with
  | [] => mkModelOutput 0 (95/100)
            [Lit "All parameters within normal statistical range"]
  | first :: others =>
      let final_score := py_max anomaly_scores in
      let confidence :=
        Rmin (95/100) (6/10 + INR (length anomaly_scores) * (15/100)) in
      let primary_reason :=
        match others with
        | [] => first
        | _ => first ++ [Lit " ("; Int (Z.of_nat (length anomaly_details));
                         Lit " anomalies total)"]
        end in
      mkModelOutput final_score confidence primary_reason
  end.

End AnomalyDetectionModel.

(* ===================================================================== *)
(** ** models/fdia_model.py *)
(* ===================================================================== *)

Module FDIADetectionModel.

Record t : Type := mk { history : list VFP }.

Definition init : t := mk [].

Definition _compute_correlation (x y : list R) : R :=
  if negb (Nat.eqb (length x) (length y)) || Nat.ltb (length x) 2 then 0
  else
    let n := INR (length x) in
    let mean_x := Rsum x / n in
    let mean_y := Rsum y / n in
    let numerator :=
      Rsum (map (fun xy => (fst xy - mean_x) * (snd xy - mean_y)) (combine x y)) in
    let sum_sq_x := Rsum (map (fun xi => (xi - mean_x) ^ 2) x) in
    let sum_sq_y := Rsum (map (fun yi => (yi - mean_y) ^ 2) y) in
    let denominator := sqrt (sum_sq_x * sum_sq_y) in
    if Reqb denominator 0 then 0
    else Rabs (numerator / denominator).

Definition _check_correlation_mismatch (current_data : Preprocessed)
    (history : list HistoryEntry) : R * Text :=
  if Nat.ltb (length history) 5 then (0, [])
  else
    let recent_window := last_n AIEngineConfig.temporal_window history in
    let voltages := map h_voltage recent_window in
    let frequencies := map h_frequency recent_window in
    let correlation := _compute_correlation voltages frequencies in
    let expected_corr := AIEngineConfig.normal_correlation in
    let threshold := AIEngineConfig.correlation_threshold in
    if Rltb correlation threshold then
      (1 - correlation / threshold,
       [Lit "V-f correlation breakdown ("; Fixed 2 correlation;
        Lit " vs expected "; Fixed 2 expected_corr; Lit ")"])
    else (0, []).

Definition _check_temporal_consistency (current_data : Preprocessed) : R * Text :=
  let delta_voltage := Rabs (delta_voltage current_data) in
  let delta_frequency := Rabs (delta_frequency current_data) in
  let delta_power := Rabs (delta_power_flow current_data) in
  let v_threshold := 5/100 in
  let f_threshold := 2/10 in
  let p_threshold := 10 in
  let significant_changes :=
    ((if Rgtb delta_voltage v_threshold then 1 else 0)
     + (if Rgtb delta_frequency f_threshold then 1 else 0)
     + (if Rgtb delta_power p_threshold then 1 else 0))%nat in
  if Nat.leb 2 significant_changes then
    (Rmin 1 (INR significant_changes / 3 + 3/10),
     [Lit "Coordinated parameter changes detected (";
      Int (Z.of_nat significant_changes); Lit " simultaneous)"])
  else (0, []).

Definition _check_multi_signal_coordination (self : t) (current_data : Preprocessed)
  : R * Text :=
  if Nat.ltb (length (history self)) 3 then (0, [])
  else
    let delta_v := delta_voltage current_data in
    let delta_p := delta_power_flow current_data in
    if Rgtb (Rabs delta_v) (3/100) && Rgtb (Rabs delta_p) 5 then
      if (Rgtb delta_v 0 && Rltb delta_p 0) || (Rltb delta_v 0 && Rgtb delta_p 0) then
        (7/10, [Lit "Power-voltage coordination anomaly (opposite directions)"])
      else
        let expected_ratio := 2 in
        let actual_ratio :=
          if negb (Reqb delta_v 0) then Rabs (delta_p / delta_v) else 0 in
        if Rgtb actual_ratio (expected_ratio * 3)
           || Rltb actual_ratio (expected_ratio / 3) then
          (6/10, [Lit "Suspicious power-voltage magnitude coordination"])
        else (0, [])
    else (0, []).

Definition _update_history (self : t) (data : Preprocessed) : t :=
  mk (append_bounded 50 (history self)
        (mkVFP (voltage data) (frequency data) (power_flow data))).

Definition analyze (self : t) (preprocessed_data : Preprocessed)
    (telemetry_history : list HistoryEntry) : ModelOutput * t :=
  let self := _update_history self preprocessed_data in
  let indicators :=
    fired [ _check_correlation_mismatch preprocessed_data telemetry_history;
            _check_temporal_consistency preprocessed_data;
            _check_multi_signal_coordination self preprocessed_data ] in
  let fdia_scores := map fst indicators in
  let fdia_indicators := map snd indicators in
  match fdia_indicators with
  | [] => (mkModelOutput 0 (85/100) [Lit "No FDIA indicators detected"], self)
  | first :: others =>
      let final_score := Rsum fdia_scores / INR (length fdia_scores) in
      let confidence :=
        Rmin (95/100) (7/10 + INR (length fdia_indicators) * (1/10)) in
      let primary_reason :=
        match others with
        | [] => first
        | _ => [Lit "Coordinated false data injection detected"]
        end in
      (mkModelOutput final_score confidence primary_reason, self)
  end.

End FDIADetectionModel.

(* ===================================================================== *)
(** ** models/physics_model.py *)
(* ===================================================================== *)

Module PhysicsValidationModel.

Definition _check_breaker_power_consistency (data : Preprocessed) : R * Text :=
  let tolerance := AIEngineConfig.breaker_off_power_tolerance in
  if Breaker_eqb (breaker_status data) OFF && Rgtb (Rabs (power_flow data)) tolerance then
    (1, [Lit "CRITICAL: Power flow "; Fixed 2 (power_flow data);
         Lit " MW with breaker OFF"])
  else (0, []).

Definition _check_voltage_bounds (data : Preprocessed) : R * Text :=
  let voltage := voltage data in
  let v_min := AIEngineConfig.voltage_min in
  let v_max := AIEngineConfig.voltage_max in
  if Rltb voltage v_min then
    let deviation := (v_min - voltage) / v_min in
    (Rmin 1 (deviation * 5),
     [Lit "Voltage "; Fixed 3 voltage; Lit " p.u. below physical minimum 0.95"])
  else if Rgtb voltage v_max then
    let deviation := (voltage - v_max) / v_max in
    (Rmin 1 (deviation * 5),
     [Lit "Voltage "; Fixed 3 voltage; Lit " p.u. exceeds physical maximum 1.05"])
  else (0, []).

Definition _check_frequency_bounds (data : Preprocessed) : R * Text :=
  let frequency := frequency data in
  let f_min := AIEngineConfig.frequency_min in
  let f_max := AIEngineConfig.frequency_max in
  if Rltb frequency f_min then
    let deviation := (f_min - frequency) / f_min in
    (Rmin 1 (deviation * 10),
     [Lit "Frequency "; Fixed 2 frequency; Lit " Hz below physical minimum 49.5"])
  else if Rgtb frequency f_max then
    let deviation := (frequency - f_max) / f_max in
    (Rmin 1 (deviation * 10),
     [Lit "Frequency "; Fixed 2 frequency; Lit " Hz exceeds physical maximum 50.5"])
  else (0, []).

Definition _check_power_voltage_causality (data : Preprocessed) : R * Text :=
  let delta_v := delta_voltage data in
  let delta_p := delta_power_flow data in
  if Rgtb (Rabs delta_v) (2/100) && Rgtb (Rabs delta_p) 3 then
    if (Rgtb delta_v 0 && Rltb delta_p 0) || (Rltb delta_v 0 && Rgtb delta_p 0) then
      (6/10, [Lit "Power-voltage causality violation (opposite trends)"])
    else (0, [])
  else (0, []).

Definition _check_physical_impossibilities (data : Preprocessed) : R * Text :=
  let voltage := voltage data in
  let frequency := frequency data in
  let power_flow := power_flow data in
  if Rltb voltage (1/100) && Rgtb frequency 1 then
    (1, [Lit "CRITICAL: Frequency exists without voltage (impossible)"])
  else if Rltb voltage (1/100) && Rgtb (Rabs power_flow) 1 then
    (1, [Lit "CRITICAL: Power flow without voltage (impossible)"])
  else
    let delta_f := Rabs (delta_frequency data) in
    let delta_time := delta_time data in
    if Rgtb delta_time 0 then
      let freq_rate := delta_f / delta_time in
      if Rgtb freq_rate 2 then
        (8/10, [Lit "Physically impossible frequency rate of change: ";
                Fixed 2 freq_rate; Lit " Hz/s"])
      else (0, [])
    else (0, []).

Definition analyze (preprocessed_data : Preprocessed) : ModelOutput :=
  let found :=
    fired [ _check_breaker_power_consistency preprocessed_data;
            _check_voltage_bounds preprocessed_data;
            _check_frequency_bounds preprocessed_data;
            _check_power_voltage_causality preprocessed_data;
            _check_physical_impossibilities preprocessed_data ] in
  let violation_scores := map fst found in
  let violations := map snd found in
  match violations with
  | [] => mkModelOutput 0 (98/100) [Lit "All physics constraints satisfied"]
  | first :: others =>
      let final_score := py_max violation_scores in
      let confidence := 95/100 in
      let primary_reason :=
        match others with
        | [] => first
        | _ => first ++ [Lit " (+"; Int (Z.of_nat (length violations) - 1);
                         Lit " more violations)"]
        end in
      mkModelOutput final_score confidence primary_reason
  end.

End PhysicsValidationModel.

(* ===================================================================== *)
(** ** models/behavior_model.py *)
(* ===================================================================== *)

Module BehaviorLearningModel.

(** An entry of [command_history]. *)
Record Command : Type := mkCommand {
  c_timestamp : R;
  c_hour : Z;
  c_breaker_status : Breaker;
  c_breaker_changed : bool
}.

Record t : Type := mk {
  command_history : list Command;
  timestamp_history : list R;
  switch_count : nat;
  switch_timestamps : list R
}.

Definition init : t := mk [] [] 0 [].

(** [data.get('breaker_changed', False)] *)
Definition get_breaker_changed (data : Preprocessed) : bool :=
  default false (breaker_changed data).

Definition _check_replay_attack (self : t) (data : Preprocessed) : R * Text :=
  let current_timestamp := timestamp_unix data in
  let tolerance := AIEngineConfig.replay_time_tolerance in
  if existsb (fun past_timestamp =>
                Rltb (Rabs (current_timestamp - past_timestamp)) tolerance)
       (timestamp_history self)
  then (9/10, [Lit "Replay attack detected (repeated timestamp)"])
  else (0, []).

Definition _check_off_hours_operation (data : Preprocessed) : R * Text :=
  if get_breaker_changed data then
    if is_night data then
      (5/10, [Lit "Breaker operation during night hours ("; Int (hour data);
              Lit ":00)"])
    else if is_weekend data then
      (4/10, [Lit "Breaker operation during weekend"])
    else (0, [])
  else (0, []).

(** Returns the check's result and the model with its pruned
    [switch_timestamps]. *)
Definition _check_excessive_switching (self : t) (data : Preprocessed)
  : (R * Text) * t :=
  let current_time := timestamp_unix data in
  let appended :=
    if get_breaker_changed data then switch_timestamps self ++ [current_time]
    else switch_timestamps self in
  let one_hour_ago := current_time - 3600 in
  let recent_switches := filter (fun ts => Rgtb ts one_hour_ago = true) appended in
  let self :=
    mk (command_history self) (timestamp_history self) (switch_count self)
       recent_switches in
  let max_switches := AIEngineConfig.max_switches_per_hour in
  if Nat.ltb max_switches (length recent_switches) then
    ((Rmin 1 (INR (length recent_switches) / INR (max_switches * 2)),
      [Lit "Excessive breaker toggling ("; Int (Z.of_nat (length recent_switches));
       Lit " switches in 1 hour)"]), self)
  else ((0, []), self).

Definition _check_rapid_commands (data : Preprocessed) : R * Text :=
  let delta_time := delta_time data in
  let min_interval := AIEngineConfig.command_interval_min in
  if get_breaker_changed data && Rltb delta_time min_interval then
    (6/10, [Lit "Rapid command sequence ("; Fixed 1 delta_time;
            Lit "s interval, min 5s)"])
  else (0, []).

Definition _update_history (self : t) (data : Preprocessed) : t :=
  let max_history := AIEngineConfig.pattern_memory_size in
  mk (append_bounded max_history (command_history self)
        (mkCommand (timestamp_unix data) (hour data) (breaker_status data)
           (get_breaker_changed data)))
     (append_bounded max_history (timestamp_history self) (timestamp_unix data))
     (switch_count self)
     (switch_timestamps self).

Definition analyze (self : t) (preprocessed_data : Preprocessed) : ModelOutput * t :=
  let replay := _check_replay_attack self preprocessed_data in
  let off_hours := _check_off_hours_operation preprocessed_data in
  let '(switching, self) := _check_excessive_switching self preprocessed_data in
  let rapid := _check_rapid_commands preprocessed_data in
  let found := fired [replay; off_hours; switching; rapid] in
  let self := _update_history self preprocessed_data in
  let behavior_scores := map fst found in
  let behavior_reasons := map snd found in
  match behavior_reasons with
  | [] => (mkModelOutput 0 (75/100) [Lit "Normal operator behavior pattern"], self)
  | first :: others =>
      let final_score := py_max behavior_scores in
      let confidence :=
        Rmin (90/100) (65/100 + INR (length behavior_scores) * (1/10)) in
      let primary_reason :=
        match others with
        | [] => first
        | _ => first ++ [Lit " (+"; Int (Z.of_nat (length behavior_reasons) - 1);
                         Lit " more anomalies)"]
        end in
      (mkModelOutput final_score confidence primary_reason, self)
  end.

Record Profile : Type := mkProfile {
  total_commands : nat;
  total_switches : nat
}.

(** [get_behavior_profile], its two counters. *)
Definition get_behavior_profile (self : t) : Profile :=
  mkProfile (length (command_history self))
    (length (filter (fun c => c_breaker_changed c = true) (command_history self))).

End BehaviorLearningModel.

(* ===================================================================== *)
(** ** models/memory_model.py *)
(* ===================================================================== *)

Module MemoryModel.

Record Signature : Type := mkSignature {
  sig_name : string;
  sig_vector : list R;
  sig_description : string
}.

Record t : Type := mk {
  telemetry_memory : list VFP;
  attack_signatures : list Signature
}.

Definition _initialize_attack_signatures : list Signature :=
  [ mkSignature "FDIA coordinated injection" [35/100; 105/100; 45/100]
      "Coordinated false data injection attack";
    mkSignature "Voltage manipulation" [45/100; 1; 3/10]
      "Isolated voltage data manipulation";
    mkSignature "Zero-day pattern" [25/100; 95/100; 5/10]
      "Previously observed zero-day attack" ].

Definition init : t := mk [] _initialize_attack_signatures.

Definition _create_feature_vector {A} `{HasVFP A} (data : A) : list R :=
  let voltage := get_voltage data * AIEngineConfig.feature_weight_voltage in
  let frequency := get_frequency data / 50 * AIEngineConfig.feature_weight_frequency in
  let power := get_power_flow data / 100 * AIEngineConfig.feature_weight_power_flow in
  [voltage; frequency; power].

Definition _cosine_similarity (vec1 vec2 : list R) : R :=
  if negb (Nat.eqb (length vec1) (length vec2)) then 0
  else
    let dot_product := Rsum (map (fun ab => fst ab * snd ab) (combine vec1 vec2)) in
    let magnitude1 := sqrt (Rsum (map (fun a => a * a) vec1)) in
    let magnitude2 := sqrt (Rsum (map (fun b => b * b) vec2)) in
    if Reqb magnitude1 0 || Reqb magnitude2 0 then 0
    else dot_product / (magnitude1 * magnitude2).

Definition _euclidean_distance (vec1 vec2 : list R) : R :=
  if negb (Nat.eqb (length vec1) (length vec2)) then 0
  else sqrt (Rsum (map (fun ab => (fst ab - snd ab) ^ 2) (combine vec1 vec2))).

(** The loop over the signatures: the first one above the threshold. *)
Fixpoint first_match (current_vector : list R) (signatures : list Signature)
  : R * Text :=
  match signatures with
  | [] => (0, [])
  | signature :: rest =>
      let similarity := _cosine_similarity current_vector (sig_vector signature) in
      if Rgtb similarity AIEngineConfig.similarity_threshold then
        (similarity,
         [Lit "High similarity to "; Lit (sig_name signature); Lit " (";
          Fixed 2 similarity; Lit ")"])
      else first_match current_vector rest
  end.

Definition _check_attack_signatures (self : t) (data : Preprocessed) : R * Text :=
  first_match (_create_feature_vector data) (attack_signatures self).

Definition _check_pattern_repetition (data : Preprocessed)
    (history : list HistoryEntry) : R * Text :=
  if Nat.ltb (length history) 10 then (0, [])
  else
    let current_vector := _create_feature_vector data in
    let high_similarity_count :=
      length (filter (fun historical_data =>
                        Rgtb (_cosine_similarity current_vector
                                (_create_feature_vector historical_data))
                             (98/100) = true)
                (last_n 20 history)) in
    if Nat.ltb 3 high_similarity_count then
      (Rmin 1 (INR high_similarity_count / 10),
       [Lit "Suspicious pattern repetition detected (";
        Int (Z.of_nat high_similarity_count); Lit " matches)"])
    else (0, []).

(** Component-wise sum of two vectors of the same length. *)
Definition vec_add (u v : list R) : list R :=
  map (fun ab => fst ab + snd ab) (combine u v).

Definition _compute_baseline (self : t) : list R :=
  match telemetry_memory self with
  | [] => [3/10; 1; 0]
  | _ =>
      let n := INR (length (telemetry_memory self)) in
      let baseline :=
        fold_left (fun baseline mem => vec_add baseline (_create_feature_vector mem))
          (telemetry_memory self) [0; 0; 0] in
      map (fun b => b / n) baseline
  end.

Definition _check_baseline_deviation (self : t) (data : Preprocessed) : R * Text :=
  if Nat.ltb (length (telemetry_memory self)) 20 then (0, [])
  else
    let baseline := _compute_baseline self in
    let current_vector := _create_feature_vector data in
    let distance := _euclidean_distance current_vector baseline in
    let normalized_distance := Rmin 1 (distance / (5/10)) in
    if Rgtb normalized_distance (6/10) then
      (normalized_distance,
       [Lit "Significant deviation from learned baseline ("; Fixed 3 distance;
        Lit ")"])
    else (0, []).

Definition _update_memory (self : t) (data : Preprocessed) : t :=
  mk (append_bounded AIEngineConfig.history_size (telemetry_memory self)
        (mkVFP (voltage data) (frequency data) (power_flow data)))
     (attack_signatures self).

Definition analyze (self : t) (preprocessed_data : Preprocessed)
    (telemetry_history : list HistoryEntry) : ModelOutput * t :=
  let self := _update_memory self preprocessed_data in
  let found :=
    fired [ _check_attack_signatures self preprocessed_data;
            _check_pattern_repetition preprocessed_data telemetry_history;
            _check_baseline_deviation self preprocessed_data ] in
  let memory_scores := map fst found in
  let memory_reasons := map snd found in
  match memory_reasons with
  | [] => (mkModelOutput 0 (80/100) [Lit "No similarity to known attack patterns"],
           self)
  | first :: _ =>
      let final_score := py_max memory_scores in
      let confidence :=
        Rmin (95/100)
          (70/100 + INR (length (telemetry_memory self)) / 100 * (2/10)) in
      (mkModelOutput final_score confidence first, self)
  end.

Definition add_attack_signature (self : t) (name : string)
    (voltage frequency power_flow : R) (description : string) : t :=
  let vector := _create_feature_vector (mkVFP voltage frequency power_flow) in
  mk (telemetry_memory self)
     (attack_signatures self ++ [mkSignature name vector description]).

(** [get_memory_stats]: memory size and number of signatures. *)
Definition get_memory_stats (self : t) : nat * nat :=
  (length (telemetry_memory self), length (attack_signatures self)).

End MemoryModel.

(** *** The attack-signature check in double precision

    The same functions over IEEE 754 binary64 numbers, with the operations
    in the order Python performs them; a division by zero raises.  The
    constants are the doubles nearest to the decimal literals of the
    source.  The built-in [sum] is a parameter: CPython before 3.12 adds
    the items from the left ([sum_left]); from 3.12 on it adds floats with
    Neumaier's compensation ([sum_neumaier]). *)
Module MemoryModel_binary64.

Definition sum_left (xs : list float) : float := fold_left PrimFloat.add xs 0%float.

(** The running sum [hi] and the compensation [lo]; the compensation is
    added at the end if it is neither zero nor infinite nor NaN. *)
Definition sum_neumaier (xs : list float) : float :=
  let '(hi, lo) :=
    fold_left
      (fun (acc : float * float) x =>
         let '(hi, lo) := acc in
         let t := (hi + x)%float in
         (t, if PrimFloat.leb (PrimFloat.abs x) (PrimFloat.abs hi)
             then (lo + ((hi - t) + x))%float
             else (lo + ((x - t) + hi))%float))
      xs (0%float, 0%float) in
  if negb (PrimFloat.eqb lo 0) && is_finite lo then (hi + lo)%float else hi.

(** [feature_weights]: 0.3, 0.3 and 0.4. *)
Definition feature_weight_voltage : float := 0x1.3333333333333p-2%float.
Definition feature_weight_frequency : float := 0x1.3333333333333p-2%float.
Definition feature_weight_power_flow : float := 0x1.999999999999ap-2%float.

(** [similarity_threshold]: 0.85. *)
Definition similarity_threshold : float := 0x1.b333333333333p-1%float.

Record Signature : Type := mkSignature {
  sig_name : string;
  sig_vector : list float
}.

(** The vectors [0.35, 1.05, 0.45], [0.45, 1.0, 0.3] and [0.25, 0.95, 0.5]. *)
Definition _initialize_attack_signatures : list Signature :=
  [ mkSignature "FDIA coordinated injection"
      [0x1.6666666666666p-2; 0x1.0cccccccccccdp+0; 0x1.ccccccccccccdp-2]%float;
    mkSignature "Voltage manipulation"
      [0x1.ccccccccccccdp-2; 1; 0x1.3333333333333p-2]%float;
    mkSignature "Zero-day pattern"
      [0.25; 0x1.e666666666666p-1; 0.5]%float ].

Definition _create_feature_vector (voltage frequency power_flow : float) : list float :=
  [ (voltage * feature_weight_voltage)%float;
    (frequency / 50 * feature_weight_frequency)%float;
    (power_flow / 100 * feature_weight_power_flow)%float ].

Definition _cosine_similarity (sum : list float -> float) (vec1 vec2 : list float)
  : result float :=
  if negb (Nat.eqb (length vec1) (length vec2)) then Ok 0%float
  else
    let dot_product := sum (map (fun ab => (fst ab * snd ab)%float) (combine vec1 vec2)) in
    let magnitude1 := PrimFloat.sqrt (sum (map (fun a => (a * a)%float) vec1)) in
    let magnitude2 := PrimFloat.sqrt (sum (map (fun b => (b * b)%float) vec2)) in
    if PrimFloat.eqb magnitude1 0 || PrimFloat.eqb magnitude2 0 then Ok 0%float
    else if PrimFloat.eqb (magnitude1 * magnitude2) 0 then
      Raise (mkExc "ZeroDivisionError" [Lit "float division by zero"])
    else Ok (dot_product / (magnitude1 * magnitude2))%float.

(** The loop over the signatures: the similarity to the first signature
    above the threshold, with its name. *)
Fixpoint first_match (sum : list float -> float) (current_vector : list float)
    (signatures : list Signature) : result (float * option string) :=
  match signatures with
  | [] => Ok (0%float, None)
  | signature :: rest =>
      similarity ← _cosine_similarity sum current_vector (sig_vector signature);
      if PrimFloat.ltb similarity_threshold similarity then
        Ok (similarity, Some (sig_name signature))
      else first_match sum current_vector rest
  end.

(** [_check_attack_signatures] of a new memory model, for the readings of
    a sample. *)
Definition _check_attack_signatures (sum : list float -> float)
    (voltage frequency power_flow : float) : result (float * option string) :=
  first_match sum (_create_feature_vector voltage frequency power_flow)
    _initialize_attack_signatures.

End MemoryModel_binary64.

(* ===================================================================== *)
(** ** fusion_engine.py *)
(* ===================================================================== *)

(** The dictionary of the five model outputs. *)
Record ModelOutputs : Type := mkModelOutputs {
  anomaly : ModelOutput;
  fdia : ModelOutput;
  physics : ModelOutput;
  behavior : ModelOutput;
  memory : ModelOutput
}.

(** [model_outputs.get(name)] *)
Definition get_output (model_outputs : ModelOutputs) (name : string) : option ModelOutput :=
  if String.eqb name "anomaly" then Some (anomaly model_outputs)
  else if String.eqb name "fdia" then Some (fdia model_outputs)
  else if String.eqb name "physics" then Some (physics model_outputs)
  else if String.eqb name "behavior" then Some (behavior model_outputs)
  else if String.eqb name "memory" then Some (memory model_outputs)
  else None.

(** The items of a dictionary keyed by the five model names, in insertion
    order. *)
Definition by_model {A} (f : ModelOutput -> A) (model_outputs : ModelOutputs)
  : list (string * A) :=
  [ ("anomaly", f (anomaly model_outputs)); ("fdia", f (fdia model_outputs));
    ("physics", f (physics model_outputs)); ("behavior", f (behavior model_outputs));
    ("memory", f (memory model_outputs)) ].

(** [max(items, key=lambda x: x[1])]: the first item with the largest
    value. *)
Fixpoint max_item_from (best : string * R) (items : list (string * R)) : string * R :=
  match items with
  | [] => best
  | x :: items' => max_item_from (if Rltb (snd best) (snd x) then x else best) items'
  end.

Module FusionEngine.

Record t : Type := mk { weights : gmap string R }.

Definition init : t := mk AIEngineConfig.FUSION_WEIGHTS.

Record FusionResult : Type := mkFusionResult {
  final_risk : R;
  overall_confidence : R;
  decision : DecisionCategory;
  explanation : Text;
  model_contributions : list (string * R);
  primary_threat : string;
  primary_threat_score : R
}.

(** [self.weights.get(model_name, 0.0)] *)
Definition weight (self : t) (model_name : string) : R :=
  default 0 (weights self !! model_name).

(** The accumulation loop shared by risk and confidence. *)
Definition weighted_sum (self : t) (values : list (string * R)) : R :=
  fold_left (fun acc item => acc + weight self (fst item) * snd item) values 0.

Definition _calculate_weighted_risk (self : t) (scores : list (string * R)) : R :=
  clamp01 (weighted_sum self scores).

Definition _calculate_weighted_confidence (self : t) (confidences : list (string * R)) : R :=
  clamp01 (weighted_sum self confidences).

Definition _identify_primary_threat (scores : list (string * R)) : string * R :=
  match scores with
  | [] => ("none", 0)
  | x :: rest => max_item_from x rest
  end.

Definition _calculate_contributions (self : t) (scores : list (string * R))
  : list (string * R) :=
  map (fun item => (fst item, round3 (weight self (fst item) * snd item))) scores.

(** [model_outputs.get(name, {}).get('reason', dflt)] *)
Definition reason_of (model_outputs : ModelOutputs) (name : string) (dflt : Text) : Text :=
  match get_output model_outputs name with
  | Some o => reason o
  | None => dflt
  end.

Definition _generate_safe_explanation (model_outputs : ModelOutputs)
    (scores : list (string * R)) : Text :=
  let minor_concerns :=
    map fst (filter (fun item => Rltb (1/10) (snd item) && Rltb (snd item) (3/10) = true)
               scores) in
  match minor_concerns with
  | concern_name :: _ =>
      [Lit "All systems normal. Minor variance detected: "]
      ++ reason_of model_outputs concern_name []
  | [] => [Lit "All systems normal. No security threats detected."]
  end.

Definition _generate_warning_explanation (primary_threat : string)
    (model_outputs : ModelOutputs) (scores : list (string * R)) : Text :=
  let primary_reason := reason_of model_outputs primary_threat [Lit "Unknown"] in
  let supporting :=
    map fst (filter (fun item => negb (String.eqb (fst item) primary_threat)
                                 && Rgtb (snd item) (2/10) = true) scores) in
  match supporting with
  | support_name :: _ =>
      [Lit "WARNING: "] ++ primary_reason ++ [Lit ". Supporting evidence: "]
      ++ reason_of model_outputs support_name []
  | [] => [Lit "WARNING: "] ++ primary_reason
  end.

Definition _generate_critical_explanation (primary_threat : string)
    (model_outputs : ModelOutputs) (scores : list (string * R)) : Text :=
  let primary_reason := reason_of model_outputs primary_threat [Lit "Unknown threat"] in
  let high_threats :=
    map fst (filter (fun item => Rgtb (snd item) (5/10) = true) scores) in
  if Nat.ltb 1 (length high_threats) then
    [Lit "CRITICAL: "] ++ primary_reason
    ++ [Lit ". Multiple threat indicators detected (";
        Int (Z.of_nat (length high_threats)); Lit " models)"]
  else [Lit "CRITICAL: "] ++ primary_reason.

Definition _generate_explanation (decision : DecisionCategory) (primary_threat : string)
    (model_outputs : ModelOutputs) (scores : list (string * R)) : Text :=
  match decision with
  | SAFE => _generate_safe_explanation model_outputs scores
  | WARNING => _generate_warning_explanation primary_threat model_outputs scores
  | _ => _generate_critical_explanation primary_threat model_outputs scores
  end.

Definition fuse (self : t) (model_outputs : ModelOutputs) : FusionResult :=
  let scores := by_model score model_outputs in
  let final_risk := _calculate_weighted_risk self scores in
  let confidences := by_model confidence model_outputs in
  let overall_confidence := _calculate_weighted_confidence self confidences in
  let decision := AIEngineConfig.get_decision final_risk in
  let '(primary_threat, primary_score) := _identify_primary_threat scores in
  let explanation :=
    _generate_explanation decision primary_threat model_outputs scores in
  let contributions := _calculate_contributions self scores in
  mkFusionResult (round3 final_risk) (round3 overall_confidence) decision
    explanation contributions primary_threat (round3 primary_score).

(** [sum(new_weights.values())] *)
Definition weight_sum (new_weights : gmap string R) : R :=
  map_fold (fun _ w acc => acc + w) 0 new_weights.

(** [self.weights.update(new_weights)] after the check of the sum. *)
Definition update_weights (self : t) (new_weights : gmap string R) : result t :=
  if Rgtb (Rabs (weight_sum new_weights - 1)) (1/100) then
    Raise (mkExc "ValueError"
             [Lit "Weights must sum to 1.0, got "; Num (weight_sum new_weights)])
  else Ok (mk (new_weights ∪ weights self)).

Definition get_weights (self : t) : gmap string R := weights self.

Definition reset_weights (self : t) : t := mk AIEngineConfig.FUSION_WEIGHTS.

End FusionEngine.

(* ===================================================================== *)
(** ** ai_pipeline.py *)
(* ===================================================================== *)

Module AIPipeline.

(** The anomaly and physics models hold no state. *)
Record t : Type := mk {
  preprocessor : DataPreprocessor.t;
  fdia_model : FDIADetectionModel.t;
  behavior_model : BehaviorLearningModel.t;
  memory_model : MemoryModel.t;
  fusion_engine : FusionEngine.t;
  analysis_count : nat
}.

Definition init : t :=
  mk DataPreprocessor.init FDIADetectionModel.init BehaviorLearningModel.init
     MemoryModel.init FusionEngine.init 0.

(** The [details] block of a result. *)
Inductive Details : Type :=
| AnalysisDetails
    (primary_threat : string) (primary_threat_score : R)
    (model_contributions : list (string * R))
    (individual_reasons : list (string * Text))
    (analysis_count : nat)
    (input_voltage input_frequency input_power_flow : R)
    (input_breaker_status : Breaker)
| ErrorDetails (error : Text) (error_type : string) (input_data : InputData).

Record Output : Type := mkOutput {
  model_outputs : list (string * R);
  final_risk : R;
  decision : DecisionCategory;
  confidence : R;
  explanation : Text;
  details : Details
}.

Definition _execute_models (self : t) (preprocessed_data : Preprocessed)
  : ModelOutputs * t :=
  let telemetry_history := DataPreprocessor.get_history (preprocessor self) in
  let window := AIEngineConfig.rolling_window in
  let rolling_stats := fun field =>
    DataPreprocessor.get_rolling_statistics (preprocessor self) field window in
  let anomaly_out := AnomalyDetectionModel.analyze preprocessed_data rolling_stats in
  let '(fdia_out, fdia_model') :=
    FDIADetectionModel.analyze (fdia_model self) preprocessed_data telemetry_history in
  let physics_out := PhysicsValidationModel.analyze preprocessed_data in
  let '(behavior_out, behavior_model') :=
    BehaviorLearningModel.analyze (behavior_model self) preprocessed_data in
  let '(memory_out, memory_model') :=
    MemoryModel.analyze (memory_model self) preprocessed_data telemetry_history in
  (mkModelOutputs anomaly_out fdia_out physics_out behavior_out memory_out,
   mk (preprocessor self) fdia_model' behavior_model' memory_model'
      (fusion_engine self) (analysis_count self)).

Definition _prepare_output (self : t) (model_outputs : ModelOutputs)
    (fusion_result : FusionEngine.FusionResult) (preprocessed_data : Preprocessed)
  : Output :=
  let model_scores := by_model score model_outputs in
  mkOutput model_scores
    (FusionEngine.final_risk fusion_result)
    (FusionEngine.decision fusion_result)
    (FusionEngine.overall_confidence fusion_result)
    (FusionEngine.explanation fusion_result)
    (AnalysisDetails
       (FusionEngine.primary_threat fusion_result)
       (FusionEngine.primary_threat_score fusion_result)
       (FusionEngine.model_contributions fusion_result)
       (by_model reason model_outputs)
       (analysis_count self)
       (voltage preprocessed_data) (frequency preprocessed_data)
       (power_flow preprocessed_data) (breaker_status preprocessed_data)).

Definition _handle_error (error : Exc) (input_data : InputData) : Output :=
  mkOutput
    [("anomaly", 0); ("fdia", 0); ("physics", 0); ("behavior", 0); ("memory", 0)]
    0 ERROR 0
    ([Lit "Analysis error: "] ++ exc_msg error)
    (ErrorDetails (exc_msg error) (exc_type error) input_data).

(** [analyze]: the result and the pipeline after the call.  An exception
    raised by [preprocess] is raised before the preprocessor has changed
    anything.  The steps after [preprocess] are total functions of exact
    numbers.  In Python they can raise on numbers beyond the range of a
    float ([OverflowError]); the handler then returns the same ERROR
    record and does not count the analysis, while the preprocessor and the
    models that ran before the exception keep the sample.  The properties
    of the returned record are therefore stated by its decision (ERROR or
    not), and those of the buffers as bounds that such a partial update
    respects. *)
Definition analyze (now : datetime) (self : t) (input_data : InputData) : Output * t :=
  match DataPreprocessor.preprocess now (preprocessor self) input_data with
  | Ok (preprocessed_data, preprocessor') =>
      let self := mk preprocessor' (fdia_model self) (behavior_model self)
                    (memory_model self) (fusion_engine self) (analysis_count self) in
      let '(model_outputs, self) := _execute_models self preprocessed_data in
      let fusion_result := FusionEngine.fuse (fusion_engine self) model_outputs in
      let final_output :=
        _prepare_output self model_outputs fusion_result preprocessed_data in
      (final_output,
       mk (preprocessor self) (fdia_model self) (behavior_model self)
          (memory_model self) (fusion_engine self) (S (analysis_count self)))
  | Raise e => (_handle_error e input_data, self)
  end.

Record Stats : Type := mkStats {
  stats_analysis_count : nat;
  preprocessor_history_size : nat;
  memory_stats : nat * nat;
  behavior_profile : BehaviorLearningModel.Profile;
  fusion_weights : gmap string R
}.

Definition get_pipeline_stats (self : t) : Stats :=
  mkStats (analysis_count self)
    (length (DataPreprocessor.telemetry_history (preprocessor self)))
    (MemoryModel.get_memory_stats (memory_model self))
    (BehaviorLearningModel.get_behavior_profile (behavior_model self))
    (FusionEngine.get_weights (fusion_engine self)).

Definition reset (self : t) : t :=
  mk (DataPreprocessor.reset (preprocessor self))
     (FDIADetectionModel.mk [])
     (BehaviorLearningModel.mk [] []
        (BehaviorLearningModel.switch_count (behavior_model self))
        (BehaviorLearningModel.switch_timestamps (behavior_model self)))
     (MemoryModel.mk [] (MemoryModel.attack_signatures (memory_model self)))
     (fusion_engine self)
     0.

(** Feeding a sequence of samples, each with the clock reading of its
    call; the outputs in order and the pipeline at the end. *)
Fixpoint run (self : t) (samples : list (datetime * InputData)) : list Output * t :=
  match samples with
  | [] => ([], self)
  | (now, input_data) :: rest =>
      let '(out, self) := analyze now self input_data in
      let '(outs, self) := run self rest in
      (out :: outs, self)
  end.

(** The pipelines a program can hold: a new one, and what [analyze],
    [reset], [update_weights] and [add_attack_signature] make of one.
    [reach_interrupted] is what a call of [analyze] leaves behind when an
    exception is raised after [preprocess] (an [OverflowError] of the
    floating-point arithmetic): the preprocessor has stored the sample,
    each of the three models with a memory has stored it or not, and the
    analysis is not counted. *)
Inductive reachable : t -> Prop :=
| reach_init : reachable init
| reach_analyze now self input_data :
    reachable self -> reachable (snd (analyze now self input_data))
| reach_interrupted now self input_data preprocessed_data preprocessor'
    fdia_model' behavior_model' memory_model' :
    reachable self ->
    DataPreprocessor.preprocess now (preprocessor self) input_data
    = Ok (preprocessed_data, preprocessor') ->
    fdia_model' = fdia_model self
    \/ fdia_model' = FDIADetectionModel._update_history (fdia_model self)
                       preprocessed_data ->
    behavior_model' = behavior_model self
    \/ behavior_model' = snd (BehaviorLearningModel.analyze (behavior_model self)
                                preprocessed_data) ->
    memory_model' = memory_model self
    \/ memory_model' = MemoryModel._update_memory (memory_model self)
                         preprocessed_data ->
    reachable (mk preprocessor' fdia_model' behavior_model' memory_model'
                 (fusion_engine self) (analysis_count self))
| reach_reset self : reachable self -> reachable (reset self)
| reach_update_weights self new_weights fusion_engine' :
    reachable self ->
    FusionEngine.update_weights (fusion_engine self) new_weights = Ok fusion_engine' ->
    reachable (mk (preprocessor self) (fdia_model self) (behavior_model self)
                 (memory_model self) fusion_engine' (analysis_count self))
| reach_add_signature self name v f p description :
    reachable self ->
    reachable (mk (preprocessor self) (fdia_model self) (behavior_model self)
                 (MemoryModel.add_attack_signature (memory_model self) name v f p
                    description)
                 (fusion_engine self) (analysis_count self)).

End AIPipeline.

(* ===================================================================== *)
(** ** Vocabulary of the properties *)
(* ===================================================================== *)

Definition unit_interval (x : R) : Prop := 0 <= x <= 1.

(** The sum of the stored weights of the five models. *)
Definition five_weight_sum (fe : FusionEngine.t) : R :=
  FusionEngine.weight fe "anomaly" + FusionEngine.weight fe "fdia"
  + FusionEngine.weight fe "physics" + FusionEngine.weight fe "behavior"
  + FusionEngine.weight fe "memory".

Definition weights_normalized (fe : FusionEngine.t) : Prop :=
  Rabs (five_weight_sum fe - 1) <= 1/100.

(** [i] is the position of the first maximal value of [items]. *)
Definition first_max_at (items : list (string * R)) (i : nat) (best : string * R) : Prop :=
  items !! i = Some best
  /\ (forall j x, items !! j = Some x -> snd x <= snd best)
  /\ (forall j x, (j < i)%nat -> items !! j = Some x -> snd x < snd best).

(** The shape of the record [analyze] returns for the exception [e]. *)
Definition is_error_record (out : AIPipeline.Output) (input_data : InputData) (e : Exc)
  : Prop :=
  AIPipeline.decision out = ERROR
  /\ AIPipeline.model_outputs out
     = [("anomaly", 0); ("fdia", 0); ("physics", 0); ("behavior", 0); ("memory", 0)]
  /\ AIPipeline.final_risk out = 0
  /\ AIPipeline.confidence out = 0
  /\ contains (AIPipeline.explanation out) (exc_msg e)
  /\ AIPipeline.details out = AIPipeline.ErrorDetails (exc_msg e) (exc_type e) input_data.

(** Sample values: a naive datetime on a Wednesday at noon, and samples
    built from plain numbers. *)
Definition naive (hour weekday : Z) (seconds : R) : datetime :=
  mkDatetime hour weekday false seconds seconds.

Definition noon : datetime := naive 12 2 0.

Definition sample (v f p : R) (b : string) (ts : option TsVal) : InputData :=
  Dict (mkRawInput (Some (PyNum v)) (Some (PyNum f)) (Some (PyNum p))
          (Some (PyStr b)) ts None).

Definition empty_input : InputData :=
  Dict (mkRawInput None None None None None None).

(** A first sample that brings a [breaker_changed] key of its own, at
    three in the night. *)
Definition night : datetime := naive 3 2 0.

Definition flagged_sample : InputData :=
  Dict (mkRawInput (Some (PyNum 1)) (Some (PyNum 50)) (Some (PyNum 100))
          (Some (PyStr "ON")) (Some (TsIso night)) (Some (PyNum 1))).

Definition numeric (v : PyVal) : Prop := exists x, v = PyNum x.

(** The inputs the preprocessor rejects: not a dictionary, no telemetry
    field, a telemetry field that is not a number, or a breaker status that
    is neither 'ON' nor 'OFF'. *)
Definition invalid_input (input_data : InputData) : Prop :=
  match input_data with
  | NotADict _ => True
  | Dict d =>
      (raw_voltage d = None /\ raw_frequency d = None /\ raw_power_flow d = None)
      \/ (exists v, (raw_voltage d = Some v \/ raw_frequency d = Some v
                     \/ raw_power_flow d = Some v) /\ ~ numeric v)
      \/ (exists b, raw_breaker_status d = Some b /\ b <> PyStr "ON" /\ b <> PyStr "OFF")
  end.

Definition accepted (input_data : InputData) : Prop :=
  exists validated, DataPreprocessor._validate_input input_data = Ok validated.

(** The entry [_update_history] stores for a sample. *)
Definition command_of (pd : Preprocessed) : BehaviorLearningModel.Command :=
  BehaviorLearningModel.mkCommand (timestamp_unix pd) (hour pd) (breaker_status pd)
    (BehaviorLearningModel.get_breaker_changed pd).

(** The toggle timestamps after a call: the current one is added only when
    the breaker changed, and only those of the trailing hour are kept. *)
Definition pruned_switch_timestamps (bm : BehaviorLearningModel.t) (pd : Preprocessed)
  : list R :=
  filter (fun ts => timestamp_unix pd - 3600 < ts)
    (if BehaviorLearningModel.get_breaker_changed pd
     then BehaviorLearningModel.switch_timestamps bm ++ [timestamp_unix pd]
     else BehaviorLearningModel.switch_timestamps bm).

(** A behavior model whose two histories are full: fifty samples, one a
    second from [noon], none of which changed the breaker; and a sample,
    a hundred seconds after [noon], that opens the breaker. *)
Definition full_histories : BehaviorLearningModel.t :=
  BehaviorLearningModel.mk
    (map (fun k => BehaviorLearningModel.mkCommand (INR k) 12 ON false) (seq 0 50))
    (map INR (seq 0 50)) 0 [].

Definition opening_sample : Preprocessed :=
  mkPreprocessed 1 50 0 OFF (TsIso (naive 12 2 100)) (1/2) (1/2) 0 12 2 false false 100
    0 0 (0 - 100) 51 (Some true).

(** The preprocessed form of a first sample (1.0 p.u., 50 Hz, 100 MW,
    breaker ON, at [noon]). *)
Definition quiet_sample : Preprocessed :=
  mkPreprocessed 1 50 100 ON (TsIso noon) (1/2) (1/2) (1/2) 12 2 false false 0
    0 0 0 0 None.

(** A model output within the ranges the models promise. *)
Definition output_in_range (o : ModelOutput) : Prop :=
  unit_interval (score o) /\ unit_interval (confidence o).

(** The outputs of the five models for the preprocessed sample [pd], in
    the pipeline [s] whose preprocessor has become [pp']. *)
Definition outputs_of (s : AIPipeline.t) (pd : Preprocessed) (pp' : DataPreprocessor.t)
  : ModelOutputs :=
  mkModelOutputs
    (AnomalyDetectionModel.analyze pd
       (fun field => DataPreprocessor.get_rolling_statistics pp' field
                       AIEngineConfig.rolling_window))
    (fst (FDIADetectionModel.analyze (AIPipeline.fdia_model s) pd
            (DataPreprocessor.telemetry_history pp')))
    (PhysicsValidationModel.analyze pd)
    (fst (BehaviorLearningModel.analyze (AIPipeline.behavior_model s) pd))
    (fst (MemoryModel.analyze (AIPipeline.memory_model s) pd
            (DataPreprocessor.telemetry_history pp'))).

(** The pipeline after a successful analysis. *)
Definition next_state (s : AIPipeline.t) (pd : Preprocessed) (pp' : DataPreprocessor.t)
  : AIPipeline.t :=
  AIPipeline.mk pp'
    (FDIADetectionModel._update_history (AIPipeline.fdia_model s) pd)
    (snd (BehaviorLearningModel.analyze (AIPipeline.behavior_model s) pd))
    (MemoryModel._update_memory (AIPipeline.memory_model s) pd)
    (AIPipeline.fusion_engine s)
    (S (AIPipeline.analysis_count s)).

(** What [preprocess] makes of a sample when no sample is stored. *)
Definition first_preprocessed (now : datetime) (v f p : R) (b : Breaker)
    (ts : option TsVal) : Preprocessed :=
  let stamp := default (TsIso now) ts in
  let temporal :=
    DataPreprocessor._extract_temporal_features now (mkTelemetry v f p b stamp) in
  mkPreprocessed v f p b stamp
    (DataPreprocessor.normalize_value v (8/10) (12/10))
    (DataPreprocessor.normalize_value f 49 51)
    (DataPreprocessor.normalize_value p 0 200)
    (DataPreprocessor.tf_hour temporal) (DataPreprocessor.tf_day_of_week temporal)
    (DataPreprocessor.tf_is_weekend temporal) (DataPreprocessor.tf_is_night temporal)
    (DataPreprocessor.tf_timestamp_unix temporal)
    0 0 0 0 None.

(** The preprocessor after one sample. *)
Definition after_first (now : datetime) (v f p : R) (b : Breaker) (ts : option TsVal)
  : DataPreprocessor.t :=
  DataPreprocessor.mk (Some (mkTelemetry v f p b (default (TsIso now) ts)))
    [mkHistoryEntry v f p (default (TsIso now) ts)].

(** Scenario B: power through an open breaker. *)
Definition scenario_B (ts : option TsVal) : InputData := sample 1 50 50 "OFF" ts.

(** A sample whose weighted risk, sent twice with the same timestamp,
    falls just below the threshold 0.30. *)
Definition edge_voltage : R := 12262/10000.

Definition edge_sample : InputData :=
  sample edge_voltage 50 200 "ON" (Some (TsIso noon)).

(** The preprocessed form of [edge_sample] when it is sent a second time. *)
Definition edge_repeated : Preprocessed :=
  mkPreprocessed edge_voltage 50 200 ON (TsIso noon)
    (DataPreprocessor.normalize_value edge_voltage (8/10) (12/10))
    (DataPreprocessor.normalize_value 50 49 51)
    (DataPreprocessor.normalize_value 200 0 200)
    12 2 false false 0
    (edge_voltage - edge_voltage) (50 - 50) (200 - 200) (0 - 0) (Some false).

(** A clash of timestamps: the timestamp and the stored one both parse,
    and exactly one of them carries a UTC offset. *)
Definition timestamp_clash (pp : DataPreprocessor.t) (stamp : TsVal) : Prop :=
  exists last current_time last_time,
    DataPreprocessor.last_telemetry pp = Some last
    /\ stamp = TsIso current_time
    /\ t_timestamp last = TsIso last_time
    /\ dt_aware current_time <> dt_aware last_time.

(** A datetime with a UTC offset, and a naive one a minute after [noon]. *)
Definition noon_utc : datetime := mkDatetime 12 2 true 0 0.
Definition minute_later : datetime := naive 12 2 60.

(** An operator toggling the breaker once a second from [noon]: the
    [k]-th sample, and the pipeline after the first [n] samples. *)
Definition parity (k : nat) : Breaker := if Nat.even k then ON else OFF.

Definition breaker_name (b : Breaker) : string :=
  match b with
  | ON => "ON"
  | OFF => "OFF"
  end.

Definition toggle_sample (k : nat) : InputData :=
  sample 1 50 100 (breaker_name (parity k)) (Some (TsIso (naive 12 2 (INR k)))).

Fixpoint after_samples (n : nat) : AIPipeline.t :=
  match n with
  | O => AIPipeline.init
  | S k => snd (AIPipeline.analyze noon (after_samples k) (toggle_sample k))
  end.

(** The sample sent after the reset, twelve seconds after [noon]. *)
Definition probe : InputData := sample 1 50 100 "ON" (Some (TsIso (naive 12 2 12))).

(** The order of the decisions: SAFE below WARNING below CRITICAL. *)
Definition decision_rank (d : DecisionCategory) : nat :=
  match d with
  | SAFE => 0
  | WARNING => 1
  | CRITICAL => 2
  | ERROR => 3
  end.

(** A complete set of weights, one per model. *)
Definition complete_weights (a f p b m : R) : gmap string R :=
  <["anomaly" := a]> (<["fdia" := f]> (<["physics" := p]>
  (<["behavior" := b]> (<["memory" := m]> ∅)))).

(** The weighted risk, clamped, before it is rounded. *)
Definition weighted_risk (s : AIPipeline.t) (mo : ModelOutputs) : R :=
  FusionEngine._calculate_weighted_risk (AIPipeline.fusion_engine s) (by_model score mo).

(** What C1 says of a returned record, with the decision read off the risk
    before rounding.  The memory score is a cosine similarity or a clamped
    value; that it is at most 1 rests on the Cauchy-Schwarz inequality,
    which holds of real numbers and not of their rounded products, so only
    its sign is part of the grading. *)
Definition graded (s : AIPipeline.t) (mo : ModelOutputs) (out : AIPipeline.Output) : Prop :=
  let risk := weighted_risk s mo in
  AIPipeline.model_outputs out = by_model score mo
  /\ (output_in_range (anomaly mo) /\ output_in_range (fdia mo)
      /\ output_in_range (physics mo) /\ output_in_range (behavior mo)
      /\ (0 <= score (memory mo) /\ unit_interval (confidence (memory mo))))
  /\ unit_interval (AIPipeline.final_risk out)
  /\ unit_interval (AIPipeline.confidence out)
  /\ (AIPipeline.final_risk out = round3 risk
      /\ Rabs (AIPipeline.final_risk out - risk) <= 1/2000)
  /\ (AIPipeline.decision out = SAFE <-> risk < 30/100)
  /\ (AIPipeline.decision out = WARNING <-> 30/100 <= risk < 60/100)
  /\ (AIPipeline.decision out = CRITICAL <-> 60/100 <= risk)
  /\ (AIPipeline.final_risk out < 30/100 -> AIPipeline.decision out = SAFE)
  /\ (30/100 < AIPipeline.final_risk out < 60/100 -> AIPipeline.decision out = WARNING)
  /\ (60/100 < AIPipeline.final_risk out -> AIPipeline.decision out = CRITICAL).

(* ===================================================================== *)
(** ** Vocabulary of the further properties *)
(* ===================================================================== *)

(** The value a raw field holds, or the default when the key is absent. *)
Definition number_or (dflt : R) (v : option PyVal) : R :=
  match v with
  | Some (PyNum x) => x
  | _ => dflt
  end.

(** The breaker status a raw field holds, or OFF when the key is absent. *)
Definition breaker_or_off (v : option PyVal) : Breaker :=
  match v with
  | Some (PyStr s) => if String.eqb s "ON" then ON else OFF
  | _ => OFF
  end.

(* ===================================================================== *)
(** ** Module-level functions *)
(* ===================================================================== *)

(** [l[start:]] *)
Definition slice_from {A} (start : Z) (l : list A) : list A :=
  let len := Z.of_nat (length l) in
  let start := if (start <? 0)%Z then Z.max (start + len) 0 else Z.min start len in
  drop (Z.to_nat start) l.

(** [DataPreprocessor.get_history(limit)] with its optional argument. *)
Definition get_history_limit (self : DataPreprocessor.t) (limit : option Z)
  : list HistoryEntry :=
  match limit with
  | None => DataPreprocessor.telemetry_history self
  | Some limit => slice_from (- limit) (DataPreprocessor.telemetry_history self)
  end.

Module preprocessing.

(** [validate_telemetry]: a new preprocessor validates the data; only a
    [PreprocessingError] is caught. *)
Definition validate_telemetry (data : InputData) : result bool :=
  match DataPreprocessor._validate_input data with
  | Ok _ => Ok true
  | Raise e =>
      if String.eqb (exc_type e) "PreprocessingError" then Ok false else Raise e
  end.

End preprocessing.

Module anomaly_model.

(** [quick_anomaly_check(value, mean, std_dev, threshold=2.5)] *)
Definition quick_anomaly_check (value mean std_dev : R) (threshold : option R) : bool :=
  let threshold := default (25/10) threshold in
  if Reqb std_dev 0 then false
  else
    let z_score := Rabs (value - mean) / std_dev in
    Rgtb z_score threshold.

End anomaly_model.

Module physics_model.

Definition quick_physics_check (voltage frequency power_flow : R) (breaker_status : string)
  : bool * Text :=
  if String.eqb breaker_status "OFF" && Rgtb (Rabs power_flow) (1/100) then
    (false, [Lit "Power flowing through open breaker"])
  else if Rltb voltage (95/100) || Rgtb voltage (105/100) then
    (false, [Lit "Voltage "; Num voltage; Lit " out of bounds"])
  else if Rltb frequency (495/10) || Rgtb frequency (505/10) then
    (false, [Lit "Frequency "; Num frequency; Lit " out of bounds"])
  else (true, [Lit "Valid"]).

End physics_model.

Module fusion_engine.

(** [weights[key]] *)
Definition getitem (weights : gmap string R) (key : string) : result R :=
  match weights !! key with
  | Some w => Ok w
  | None => Raise (mkExc "KeyError" [Lit key])
  end.

Definition quick_risk_calculation (anomaly fdia physics behavior memory : R) : result R :=
  let weights := AIEngineConfig.FUSION_WEIGHTS in
  w_anomaly ← getitem weights "anomaly";
  w_fdia ← getitem weights "fdia";
  w_physics ← getitem weights "physics";
  w_behavior ← getitem weights "behavior";
  w_memory ← getitem weights "memory";
  let risk :=
    w_anomaly * anomaly + w_fdia * fdia + w_physics * physics
    + w_behavior * behavior + w_memory * memory in
  Ok (clamp01 risk).

End fusion_engine.

Module ai_pipeline.

(** The global [_pipeline_instance] is passed in and out. *)
Definition get_pipeline (_pipeline_instance : option AIPipeline.t)
  : AIPipeline.t * option AIPipeline.t :=
  match _pipeline_instance with
  | None => (AIPipeline.init, Some AIPipeline.init)
  | Some pipeline => (pipeline, Some pipeline)
  end.

Definition analyze (now : datetime) (_pipeline_instance : option AIPipeline.t)
    (input_data : InputData) : AIPipeline.Output * option AIPipeline.t :=
  let '(pipeline, _) := get_pipeline _pipeline_instance in
  let '(result, pipeline) := AIPipeline.analyze now pipeline input_data in
  (result, Some pipeline).

End ai_pipeline.

Module ai_interface.

(** The keys of [grid_data] that [analyze_with_ai] reads. *)
Record GridData : Type := mkGridData {
  grid_voltage : option PyVal;
  grid_frequency : option PyVal;
  grid_power_flow : option PyVal;
  grid_breaker : option PyVal
}.

Record AIResult : Type := mkAIResult {
  decision : DecisionCategory;
  risk_score : R;
  explanation : Text;
  model_outputs : list (string * R);
  confidence : R;
  details : AIPipeline.Details
}.

(** [analyze_with_ai] with the engine imported.  [now] is the reading of
    [datetime.now()] that stamps the sample, [now'] the clock of the
    pipeline; the pipeline's [analyze] raises nothing, so the handler of
    the [try] is never entered. *)
Definition analyze_with_ai (now now' : datetime)
    (_pipeline_instance : option AIPipeline.t) (grid_data : GridData)
  : AIResult * option AIPipeline.t :=
  let ai_input :=
    Dict (mkRawInput
            (Some (default (PyNum 1) (grid_voltage grid_data)))
            (Some (default (PyNum 50) (grid_frequency grid_data)))
            (Some (default (PyNum 0) (grid_power_flow grid_data)))
            (Some (default (PyStr "OFF") (grid_breaker grid_data)))
            (Some (TsIso now))
            None) in
  let '(ai_result, _pipeline_instance) :=
    ai_pipeline.analyze now' _pipeline_instance ai_input in
  (mkAIResult (AIPipeline.decision ai_result) (AIPipeline.final_risk ai_result)
     (AIPipeline.explanation ai_result) (AIPipeline.model_outputs ai_result)
     (AIPipeline.confidence ai_result) (AIPipeline.details ai_result),
   _pipeline_instance).

End ai_interface.

(* ===================================================================== *)
(** ** Vocabulary of the further properties, continued *)
(* ===================================================================== *)

(** Readings of ordinary magnitude: at most a million in absolute value. *)
Definition ordinary_readings {A} `{HasVFP A} (a : A) : Prop :=
  Rabs (get_voltage a) <= 1000000 /\ Rabs (get_frequency a) <= 1000000
  /\ Rabs (get_power_flow a) <= 1000000.

(** The number of models that report a positive score. *)
Definition positive_scores (mo : ModelOutputs) : nat :=
  length (filter (fun item => 0 < snd item) (by_model score mo)).

Definition is_error (d : DecisionCategory) : bool :=
  match d with
  | ERROR => true
  | _ => false
  end.

(** The number of results that are not error records. *)
Definition analysed (outs : list AIPipeline.Output) : nat :=
  length (filter (fun out => is_error (AIPipeline.decision out) = false) outs).

(** The size of a buffer of capacity [cap] in a pipeline that has counted
    [n] analyses: at most [cap], and at least the counted samples up to
    [cap]. *)
Definition holds_the_counted (cap n size : nat) : Prop :=
  (Nat.min n cap <= size <= cap)%nat.

(** Every buffer holds the samples counted since the construction or the
    last reset, within its capacity. *)
Definition sizes_within_capacity (s : AIPipeline.t) : Prop :=
  let n := AIPipeline.analysis_count s in
  holds_the_counted 100 n
    (length (DataPreprocessor.telemetry_history (AIPipeline.preprocessor s)))
  /\ holds_the_counted 50 n
       (length (FDIADetectionModel.history (AIPipeline.fdia_model s)))
  /\ holds_the_counted 50 n
       (length (BehaviorLearningModel.command_history (AIPipeline.behavior_model s)))
  /\ holds_the_counted 50 n
       (length (BehaviorLearningModel.timestamp_history (AIPipeline.behavior_model s)))
  /\ holds_the_counted 100 n
       (length (MemoryModel.telemetry_memory (AIPipeline.memory_model s))).

(** Grid telemetry whose values, where present, have the types the
    preprocessor accepts. *)
Definition grid_valid (grid_data : ai_interface.GridData) : bool :=
  let number v := match v with None | Some (PyNum _) => true | _ => false end in
  number (ai_interface.grid_voltage grid_data)
  && number (ai_interface.grid_frequency grid_data)
  && number (ai_interface.grid_power_flow grid_data)
  && match ai_interface.grid_breaker grid_data with
     | None => true
     | Some (PyStr b) => String.eqb b "ON" || String.eqb b "OFF"
     | _ => false
     end.

(* ===================================================================== *)
(** ** Comparisons, clamping and rounding *)
(* ===================================================================== *)

Lemma Rltb_true x y : x < y -> Rltb x y = true.
Proof. intros H. unfold Rltb. destruct (Rlt_dec x y); [reflexivity | contradiction]. Qed.

Lemma Rltb_false x y : y <= x -> Rltb x y = false.
Proof. intros H. unfold Rltb. destruct (Rlt_dec x y); [lra | reflexivity]. Qed.

Lemma Rltb_lt x y : Rltb x y = true <-> x < y.
Proof. unfold Rltb. destruct (Rlt_dec x y); split; (congruence || tauto). Qed.

Lemma Rltb_ge x y : Rltb x y = false <-> y <= x.
Proof. unfold Rltb. destruct (Rlt_dec x y); split; intros; (congruence || lra). Qed.

Lemma Rgtb_true x y : y < x -> Rgtb x y = true.
Proof. apply Rltb_true. Qed.

Lemma Rgtb_false x y : x <= y -> Rgtb x y = false.
Proof. apply Rltb_false. Qed.

Lemma Rgtb_gt x y : Rgtb x y = true <-> y < x.
Proof. apply Rltb_lt. Qed.

Lemma Reqb_true x y : x = y -> Reqb x y = true.
Proof. intros H. unfold Reqb. destruct (Req_dec_T x y); [reflexivity | contradiction]. Qed.

Lemma Reqb_false x y : x <> y -> Reqb x y = false.
Proof. intros H. unfold Reqb. destruct (Req_dec_T x y); [contradiction | reflexivity]. Qed.

Lemma clamp01_unit x : unit_interval (clamp01 x).
Proof.
  unfold unit_interval, clamp01, Rmax, Rmin.
  destruct (Rle_dec 1 x); destruct (Rle_dec 0 _); lra.
Qed.

Lemma clamp01_id x : unit_interval x -> clamp01 x = x.
Proof.
  unfold unit_interval, clamp01, Rmax, Rmin. intros H.
  destruct (Rle_dec 1 x); destruct (Rle_dec 0 _); lra.
Qed.

Lemma Rmin_1_unit x : 0 <= x -> unit_interval (Rmin 1 x).
Proof. unfold unit_interval, Rmin. intros H. destruct (Rle_dec 1 x); lra. Qed.

(** The rounded integer is within one half of the argument. *)
Lemma round_half_even_near y :
  IZR (round_half_even y) - 1/2 <= y <= IZR (round_half_even y) + 1/2.
Proof.
  unfold round_half_even.
  destruct (base_Int_part y) as [Hlo Hhi].
  set (n := Int_part y) in *.
  destruct (Rltb (y - IZR n) (1/2)) eqn:E1.
  - apply Rltb_lt in E1. lra.
  - apply Rltb_ge in E1. destruct (Rltb (1/2) (y - IZR n)) eqn:E2.
    + rewrite plus_IZR. lra.
    + apply Rltb_ge in E2. destruct (Z.even n); [|rewrite plus_IZR]; lra.
Qed.

(** An integer within less than one half of [y] is the rounding of [y]. *)
Lemma round_half_even_eq y (z : Z) :
  IZR z - 1/2 < y < IZR z + 1/2 -> round_half_even y = z.
Proof.
  intros H. pose proof (round_half_even_near y) as N.
  set (r := round_half_even y) in *.
  destruct (Z.lt_trichotomy r z) as [L | [E | G]]; [ | exact E | ].
  - assert (IZR r + 1 <= IZR z) by (rewrite <- plus_IZR; apply IZR_le; lia). lra.
  - assert (IZR z + 1 <= IZR r) by (rewrite <- plus_IZR; apply IZR_le; lia). lra.
Qed.

Lemma round3_near x : Rabs (round3 x - x) <= 1/2000.
Proof.
  unfold round3. pose proof (round_half_even_near (x * 1000)) as N.
  apply Rabs_le. lra.
Qed.

Lemma round3_eq x (z : Z) :
  IZR z - 1/2 < x * 1000 < IZR z + 1/2 -> round3 x = IZR z / 1000.
Proof. intros H. unfold round3. rewrite (round_half_even_eq _ z H). reflexivity. Qed.

Lemma round_half_even_mono x y : x <= y -> (round_half_even x <= round_half_even y)%Z.
Proof.
  intros H. destruct (Z_le_gt_dec (round_half_even x) (round_half_even y)) as [L | G];
    [exact L | exfalso].
  pose proof (round_half_even_near x) as Nx. pose proof (round_half_even_near y) as Ny.
  assert (IZR (round_half_even y) + 1 <= IZR (round_half_even x)) as D
    by (rewrite <- plus_IZR; apply IZR_le; lia).
  (* both are then at distance one half exactly: a tie on each side *)
  assert (x = y) as -> by lra. lia.
Qed.

Lemma round3_mono x y : x <= y -> round3 x <= round3 y.
Proof.
  intros H. unfold round3.
  assert (IZR (round_half_even (x * 1000)) <= IZR (round_half_even (y * 1000)))
    by (apply IZR_le, round_half_even_mono; lra).
  lra.
Qed.

Lemma round_half_even_IZR (z : Z) : round_half_even (IZR z) = z.
Proof. apply round_half_even_eq. lra. Qed.

Lemma round3_unit x : unit_interval x -> unit_interval (round3 x).
Proof.
  unfold unit_interval. intros [H0 H1].
  assert (round3 0 = 0) as R0.
  { unfold round3. replace (0 * 1000) with (IZR 0) by (simpl; lra).
    rewrite round_half_even_IZR. simpl. lra. }
  assert (round3 1 = 1) as R1'.
  { unfold round3. replace (1 * 1000) with (IZR 1000) by (simpl; lra).
    rewrite round_half_even_IZR. lra. }
  split; [rewrite <- R0 | rewrite <- R1']; apply round3_mono; assumption.
Qed.

(* ===================================================================== *)
(** ** Fusion engine: primary threat *)
(* ===================================================================== *)

(** [max_item_from] returns the first maximal item of [best :: items]. *)
Lemma max_item_from_first_max items : forall best,
  exists i, first_max_at (best :: items) i (max_item_from best items).
Proof.
  induction items as [| x items IH]; intros best; simpl.
  - exists 0%nat. split; [reflexivity | split].
    + intros [| j] y Hy; simpl in Hy; [injection Hy as <-; lra | discriminate].
    + intros j y Hj. lia.
  - destruct (Rltb (snd best) (snd x)) eqn:E.
    + apply Rltb_lt in E. destruct (IH x) as (i & Hi & Hle & Hlt).
      exists (S i). split; [exact Hi | split].
      * intros [| j] y Hy; simpl in Hy.
        -- injection Hy as <-. specialize (Hle 0%nat x eq_refl). lra.
        -- exact (Hle j y Hy).
      * intros [| j] y Hj Hy; simpl in Hy.
        -- injection Hy as <-. specialize (Hle 0%nat x eq_refl). lra.
        -- apply (Hlt j y); [lia | exact Hy].
    + apply Rltb_ge in E. destruct (IH best) as (i & Hi & Hle & Hlt).
      destruct i as [| i].
      * exists 0%nat. simpl in Hi. injection Hi as Hi. rewrite <- Hi in *.
        split; [reflexivity | split].
        -- intros [| [| j]] y Hy; simpl in Hy.
           ++ injection Hy as <-. lra.
           ++ injection Hy as <-. exact E.
           ++ exact (Hle (S j) y Hy).
        -- intros j y Hj. lia.
      * exists (S (S i)). split; [exact Hi | split].
        -- intros [| [| j]] y Hy; simpl in Hy.
           ++ injection Hy as <-. exact (Hle 0%nat best eq_refl).
           ++ injection Hy as <-. specialize (Hlt 0%nat best ltac:(lia) eq_refl). lra.
           ++ exact (Hle (S j) y Hy).
        -- intros [| [| j]] y Hj Hy; simpl in Hy.
           ++ injection Hy as <-. apply (Hlt 0%nat); [lia | reflexivity].
           ++ injection Hy as <-. specialize (Hlt 0%nat best ltac:(lia) eq_refl). lra.
           ++ apply (Hlt (S j) y); [lia | exact Hy].
Qed.

Lemma fuse_primary_threat fe mo :
  (FusionEngine.primary_threat (FusionEngine.fuse fe mo),
   snd (FusionEngine._identify_primary_threat (by_model score mo)))
  = FusionEngine._identify_primary_threat (by_model score mo).
Proof.
  unfold FusionEngine.fuse.
  destruct (FusionEngine._identify_primary_threat (by_model score mo)); reflexivity.
Qed.

(** C8. In [fuse], the primary threat is the first model, in the order
    anomaly, fdia, physics, behavior, memory, whose score is maximal: in the
    list of the five scores written in that order, every score is at most
    its score and every earlier score is strictly smaller.  When all five
    scores are 0 the primary threat is "anomaly"; when fdia, physics and
    memory tie above the two others it is "fdia". *)
Theorem C8_primary_threat_is_first_maximum :
  (forall fe mo, exists i s,
      first_max_at
        [ ("anomaly", score (anomaly mo)); ("fdia", score (fdia mo));
          ("physics", score (physics mo)); ("behavior", score (behavior mo));
          ("memory", score (memory mo)) ]
        i (FusionEngine.primary_threat (FusionEngine.fuse fe mo), s))
  /\ (forall fe c1 c2 c3 c4 c5 r1 r2 r3 r4 r5,
      FusionEngine.primary_threat
        (FusionEngine.fuse fe
           (mkModelOutputs (mkModelOutput 0 c1 r1) (mkModelOutput 0 c2 r2)
              (mkModelOutput 0 c3 r3) (mkModelOutput 0 c4 r4) (mkModelOutput 0 c5 r5)))
      = "anomaly")
  /\ (forall fe c1 c2 c3 c4 c5 r1 r2 r3 r4 r5,
      FusionEngine.primary_threat
        (FusionEngine.fuse fe
           (mkModelOutputs (mkModelOutput 0 c1 r1) (mkModelOutput (1/2) c2 r2)
              (mkModelOutput (1/2) c3 r3) (mkModelOutput 0 c4 r4)
              (mkModelOutput (1/2) c5 r5)))
      = "fdia").
Proof.
  split; [| split].
  - intros fe mo.
    destruct (max_item_from_first_max
                [("fdia", score (fdia mo)); ("physics", score (physics mo));
                 ("behavior", score (behavior mo)); ("memory", score (memory mo))]
                ("anomaly", score (anomaly mo))) as (i & Hi).
    exists i, (snd (FusionEngine._identify_primary_threat (by_model score mo))).
    rewrite fuse_primary_threat. exact Hi.
  - intros. unfold FusionEngine.fuse, by_model, FusionEngine._identify_primary_threat.
    simpl. repeat (rewrite (Rltb_false 0 0) by lra; simpl). reflexivity.
  - intros. unfold FusionEngine.fuse, by_model, FusionEngine._identify_primary_threat.
    simpl. rewrite (Rltb_true 0 (1/2)) by lra. simpl.
    repeat (rewrite (Rltb_false (1/2)) by lra; simpl). reflexivity.
Qed.

(* ===================================================================== *)
(** ** Fusion engine: the weights *)
(* ===================================================================== *)

Lemma initial_five_weight_sum : five_weight_sum FusionEngine.init = 1.
Proof.
  unfold five_weight_sum, FusionEngine.weight, FusionEngine.init,
    AIEngineConfig.FUSION_WEIGHTS; simpl.
  repeat (rewrite lookup_insert_eq || rewrite lookup_insert_ne by done).
  simpl. lra.
Qed.

Lemma initial_weights_normalized : weights_normalized FusionEngine.init.
Proof.
  unfold weights_normalized. rewrite initial_five_weight_sum.
  replace (1 - 1) with 0 by lra. rewrite Rabs_R0. lra.
Qed.

(** A rejected update raises, so the engine keeps the weights it had. *)
Lemma update_weights_rejects fe new_weights :
  1/100 < Rabs (FusionEngine.weight_sum new_weights - 1) ->
  exists e, FusionEngine.update_weights fe new_weights = Raise e.
Proof.
  intros H. unfold FusionEngine.update_weights. rewrite Rgtb_true by exact H.
  eexists. reflexivity.
Qed.

(** An accepted update stores the new weights over the old ones. *)
Lemma update_weights_accepts fe new_weights :
  Rabs (FusionEngine.weight_sum new_weights - 1) <= 1/100 ->
  FusionEngine.update_weights fe new_weights
  = Ok (FusionEngine.mk (new_weights ∪ FusionEngine.weights fe)).
Proof.
  intros H. unfold FusionEngine.update_weights. rewrite Rgtb_false by exact H.
  reflexivity.
Qed.

Lemma partial_update_five_weight_sum :
  five_weight_sum
    (FusionEngine.mk ({["anomaly" := 1]} ∪ FusionEngine.weights FusionEngine.init))
  = 185/100.
Proof.
  unfold five_weight_sum, FusionEngine.weight, FusionEngine.init,
    AIEngineConfig.FUSION_WEIGHTS; simpl.
  rewrite (lookup_union_l' _ _ "anomaly")
    by (rewrite lookup_singleton_eq; eexists; reflexivity).
  rewrite !lookup_union_r by (apply lookup_singleton_ne; done).
  rewrite lookup_singleton_eq.
  repeat (rewrite lookup_insert_eq || rewrite lookup_insert_ne by done).
  simpl. lra.
Qed.

(** C4. The update [{'anomaly': 1.0}] sums to 1.0 and is accepted; it is
    merged into the stored weights, whose sum over the five models is then
    1.85. *)
Theorem C4_partial_update_breaks_weight_sum :
  exists fe',
    FusionEngine.update_weights FusionEngine.init {["anomaly" := 1]} = Ok fe'
    /\ five_weight_sum fe' = 185/100
    /\ ~ weights_normalized fe'.
Proof.
  eexists. split; [| split].
  - apply update_weights_accepts. unfold FusionEngine.weight_sum.
    rewrite map_fold_singleton. replace (0 + 1 - 1) with 0 by lra.
    rewrite Rabs_R0. lra.
  - exact partial_update_five_weight_sum.
  - unfold weights_normalized. rewrite partial_update_five_weight_sum.
    rewrite Rabs_right by lra. lra.
Qed.

Lemma weight_sum_insert k w (m : gmap string R) :
  m !! k = None ->
  FusionEngine.weight_sum (<[k := w]> m) = FusionEngine.weight_sum m + w.
Proof.
  intros H. unfold FusionEngine.weight_sum.
  rewrite map_fold_insert_L; [reflexivity | | exact H].
  intros. lra.
Qed.

Lemma weight_sum_complete a f p b m :
  FusionEngine.weight_sum (complete_weights a f p b m) = a + f + p + b + m.
Proof.
  unfold complete_weights.
  rewrite !weight_sum_insert
    by (repeat (rewrite lookup_insert_ne by done); apply lookup_empty).
  unfold FusionEngine.weight_sum. rewrite map_fold_empty. lra.
Qed.

(** An accepted update whose keys are exactly the five model names
    leaves the stored weights normalized: the five stored weights are the
    new ones, and their sum is within 0.01 of 1.  (An update with fewer
    keys, or with a further key that takes part in the checked sum, does
    not: that is the defect of C4.) *)
Lemma complete_update_keeps_weight_sum fe fe' a f p b m :
  FusionEngine.update_weights fe (complete_weights a f p b m) = Ok fe' ->
  five_weight_sum fe' = a + f + p + b + m /\ weights_normalized fe'.
Proof.
  unfold FusionEngine.update_weights. rewrite weight_sum_complete.
  destruct (Rgtb _ _) eqn:E; [discriminate |]. apply Rltb_ge in E.
  intros [= <-].
  assert (five_weight_sum
            (FusionEngine.mk (complete_weights a f p b m ∪ FusionEngine.weights fe))
          = a + f + p + b + m) as Hsum.
  { unfold five_weight_sum, FusionEngine.weight. cbn [FusionEngine.weights].
    rewrite !(lookup_union_l' (complete_weights a f p b m))
      by (unfold complete_weights;
          repeat (rewrite lookup_insert_eq || rewrite lookup_insert_ne by done);
          eexists; reflexivity).
    unfold complete_weights.
    repeat (rewrite lookup_insert_eq || rewrite lookup_insert_ne by done).
    reflexivity. }
  split; [exact Hsum |]. unfold weights_normalized. rewrite Hsum. exact E.
Qed.

(* ===================================================================== *)
(** ** Validation *)
(* ===================================================================== *)

Ltac unfold_bind := unfold mbind, result_bind in *.

Lemma numeric_field_Ok v msg :
  (exists r, DataPreprocessor.numeric_field v msg = Ok r)
  <-> (forall x, v = Some x -> numeric x).
Proof.
  destruct v as [[x | s |] |]; simpl; split.
  - intros _ y [= <-]. exists x. reflexivity.
  - intros _. eexists. reflexivity.
  - intros [r [=]].
  - intros H. destruct (H _ eq_refl) as [x [=]].
  - intros [r [=]].
  - intros H. destruct (H _ eq_refl) as [x [=]].
  - intros _ y [=].
  - intros _. eexists. reflexivity.
Qed.

Lemma breaker_field_Ok v :
  (exists r, DataPreprocessor.breaker_field v = Ok r)
  <-> (forall b, v = Some b -> b = PyStr "ON" \/ b = PyStr "OFF").
Proof.
  destruct v as [[x | s |] |]; simpl; split.
  - intros [r0 [=]].
  - intros H. destruct (H _ eq_refl) as [[=] | [=]].
  - intros [r0 Hr] b [= <-].
    destruct (String.eqb s "ON") eqn:E1; [apply String.eqb_eq in E1; subst; auto |].
    destruct (String.eqb s "OFF") eqn:E2; [apply String.eqb_eq in E2; subst; auto |].
    discriminate.
  - intros H. destruct (H _ eq_refl) as [[= ->] | [= ->]]; simpl; eexists; reflexivity.
  - intros [r0 [=]].
  - intros H. destruct (H _ eq_refl) as [[=] | [=]].
  - intros _ b [=].
  - intros _. eexists. reflexivity.
Qed.

(** Validation raises exactly on the invalid inputs, and always a
    [PreprocessingError]. *)
Lemma validate_input_raises input_data :
  invalid_input input_data
  <-> exists e, DataPreprocessor._validate_input input_data = Raise e.
Proof.
  destruct input_data as [v | d]; simpl.
  { split; [intros _; eexists; reflexivity | trivial]. }
  destruct d as [v f p b ts]; simpl.
  pose proof (numeric_field_Ok v "Voltage must be numeric") as Hv.
  pose proof (numeric_field_Ok f "Frequency must be numeric") as Hf.
  pose proof (numeric_field_Ok p "Power flow must be numeric") as Hp.
  pose proof (breaker_field_Ok b) as Hb.
  destruct (present v || present f || present p) eqn:Epres; simpl.
  - unfold_bind.
    destruct (DataPreprocessor.numeric_field v _) as [rv | ev] eqn:Ev.
    2:{ split; [intros _; eexists; reflexivity | intros _].
        right; left. destruct v as [x |]; [| discriminate].
        exists x. split; [auto |]. intros Hn.
        destruct Hv as [_ Hv]. destruct Hv as [r [=]]. intros y [= <-]. exact Hn. }
    destruct (DataPreprocessor.numeric_field f _) as [rf | ef] eqn:Ef.
    2:{ split; [intros _; eexists; reflexivity | intros _].
        right; left. destruct f as [x |]; [| discriminate].
        exists x. split; [auto |]. intros Hn.
        destruct Hf as [_ Hf]. destruct Hf as [r [=]]. intros y [= <-]. exact Hn. }
    destruct (DataPreprocessor.numeric_field p _) as [rp | ep] eqn:Ep.
    2:{ split; [intros _; eexists; reflexivity | intros _].
        right; left. destruct p as [x |]; [| discriminate].
        exists x. split; [auto |]. intros Hn.
        destruct Hp as [_ Hp]. destruct Hp as [r [=]]. intros y [= <-]. exact Hn. }
    destruct (DataPreprocessor.breaker_field b) as [rb | eb] eqn:Eb.
    2:{ split; [intros _; eexists; reflexivity | intros _].
        right; right. destruct b as [x |]; [| discriminate].
        exists x. split; [reflexivity |]. split; intros ->;
          destruct Hb as [_ Hb]; (destruct Hb as [r [=]]; intros y [= <-]; auto). }
    split; [| intros [e [=]]].
    intros [(-> & -> & ->) | [(x & Hx & Hn) | (x & -> & H1 & H2)]].
    + discriminate.
    + exfalso. apply Hn.
      destruct Hx as [-> | [-> | ->]];
        [ apply (proj1 Hv) | apply (proj1 Hf) | apply (proj1 Hp) ];
        solve [eexists; reflexivity | reflexivity].
    + exfalso. destruct (proj1 Hb (ex_intro _ _ eq_refl) x eq_refl); contradiction.
  - split; [intros _; eexists; reflexivity | intros _]. left.
    destruct v, f, p; simpl in Epres; try discriminate. auto.
Qed.

Lemma validate_input_error_type input_data e :
  DataPreprocessor._validate_input input_data = Raise e ->
  exc_type e = "PreprocessingError".
Proof.
  destruct input_data as [v | d]; simpl; [intros [= <-]; reflexivity |].
  destruct (negb _); [intros [= <-]; reflexivity |]. unfold_bind.
  destruct (raw_voltage d) as [[]|]; simpl; try (intros [= <-]; reflexivity);
  destruct (raw_frequency d) as [[]|]; simpl; try (intros [= <-]; reflexivity);
  destruct (raw_power_flow d) as [[]|]; simpl; try (intros [= <-]; reflexivity);
  destruct (raw_breaker_status d) as [[]|]; simpl; try (intros [= <-]; reflexivity);
  try discriminate;
  repeat (match goal with |- context [String.eqb ?a ?b] => destruct (String.eqb a b) end);
  try discriminate; intros [= <-]; reflexivity.
Qed.

Lemma preprocess_validation_error now pp input_data e :
  DataPreprocessor._validate_input input_data = Raise e ->
  DataPreprocessor.preprocess now pp input_data = Raise e.
Proof. intros H. unfold DataPreprocessor.preprocess. unfold_bind. rewrite H. reflexivity. Qed.

Lemma analyze_preprocess_error now s input_data e :
  DataPreprocessor.preprocess now (AIPipeline.preprocessor s) input_data = Raise e ->
  AIPipeline.analyze now s input_data = (AIPipeline._handle_error e input_data, s).
Proof. intros H. unfold AIPipeline.analyze. rewrite H. reflexivity. Qed.

(* ===================================================================== *)
(** ** The error boundary of the orchestrator *)
(* ===================================================================== *)

Lemma handle_error_is_error_record e input_data :
  is_error_record (AIPipeline._handle_error e input_data) input_data e.
Proof.
  unfold is_error_record, AIPipeline._handle_error; simpl.
  repeat split. exists [Lit "Analysis error: "], []. rewrite app_nil_r. reflexivity.
Qed.

(** C2. When validation fails, [preprocess] raises a [PreprocessingError]
    and [analyze] does not: it returns a record with decision ERROR, the
    five model scores, the final risk and the confidence all 0, and the
    message of the error in its explanation and in its details. *)
Theorem C2_validation_error_becomes_error_record now s input_data :
  invalid_input input_data ->
  exists e,
    DataPreprocessor.preprocess now (AIPipeline.preprocessor s) input_data = Raise e
    /\ exc_type e = "PreprocessingError"
    /\ is_error_record (fst (AIPipeline.analyze now s input_data)) input_data e.
Proof.
  intros H. apply validate_input_raises in H as [e He]. exists e.
  pose proof (preprocess_validation_error now (AIPipeline.preprocessor s) _ _ He) as Hp.
  split; [exact Hp | split].
  - exact (validate_input_error_type _ _ He).
  - rewrite (analyze_preprocess_error _ _ _ _ Hp). apply handle_error_is_error_record.
Qed.

Lemma C2_witness :
  exists e,
    DataPreprocessor.preprocess noon (AIPipeline.preprocessor AIPipeline.init) empty_input
    = Raise e
    /\ exc_type e = "PreprocessingError"
    /\ is_error_record (fst (AIPipeline.analyze noon AIPipeline.init empty_input))
         empty_input e.
Proof.
  apply (C2_validation_error_becomes_error_record noon AIPipeline.init empty_input).
  simpl. left. repeat split; reflexivity.
Defined.

(** C9. An input rejected by validation changes nothing: the pipeline after
    the call is the pipeline before it, so its statistics and every later
    analysis are those of a pipeline that never saw the input. *)
Theorem C9_rejected_input_leaves_no_trace now s input_data :
  invalid_input input_data ->
  AIPipeline.decision (fst (AIPipeline.analyze now s input_data)) = ERROR
  /\ snd (AIPipeline.analyze now s input_data) = s
  /\ AIPipeline.get_pipeline_stats (snd (AIPipeline.analyze now s input_data))
     = AIPipeline.get_pipeline_stats s
  /\ forall later,
       AIPipeline.run (snd (AIPipeline.analyze now s input_data)) later
       = AIPipeline.run s later.
Proof.
  intros H. apply validate_input_raises in H as [e He].
  rewrite (analyze_preprocess_error _ _ _ _
             (preprocess_validation_error now (AIPipeline.preprocessor s) _ _ He)).
  simpl. repeat split; reflexivity.
Qed.

Lemma C9_witness :
  AIPipeline.decision (fst (AIPipeline.analyze noon AIPipeline.init empty_input)) = ERROR
  /\ snd (AIPipeline.analyze noon AIPipeline.init empty_input) = AIPipeline.init
  /\ AIPipeline.get_pipeline_stats (snd (AIPipeline.analyze noon AIPipeline.init empty_input))
     = AIPipeline.get_pipeline_stats AIPipeline.init
  /\ forall later,
       AIPipeline.run (snd (AIPipeline.analyze noon AIPipeline.init empty_input)) later
       = AIPipeline.run AIPipeline.init later.
Proof.
  apply (C9_rejected_input_leaves_no_trace noon AIPipeline.init empty_input).
  simpl. left. repeat split; reflexivity.
Defined.

(* ===================================================================== *)
(** ** Preprocessing *)
(* ===================================================================== *)

(** What a successful [preprocess] has computed. *)
Lemma preprocess_Ok now pp input_data pd pp' :
  DataPreprocessor.preprocess now pp input_data = Ok (pd, pp') ->
  exists validated deltas pp1,
    DataPreprocessor._validate_input input_data = Ok validated
    /\ DataPreprocessor._compute_deltas pp
         (DataPreprocessor._handle_missing_fields now validated) = Ok (deltas, pp1)
    /\ pp' = DataPreprocessor._update_history pp1
               (DataPreprocessor._handle_missing_fields now validated)
    /\ delta_voltage pd = DataPreprocessor.d_voltage deltas
    /\ delta_frequency pd = DataPreprocessor.d_frequency deltas
    /\ delta_power_flow pd = DataPreprocessor.d_power_flow deltas
    /\ delta_time pd = DataPreprocessor.d_time deltas
    /\ breaker_changed pd = DataPreprocessor.merged_breaker_changed validated deltas.
Proof.
  unfold DataPreprocessor.preprocess. unfold_bind.
  destruct (DataPreprocessor._validate_input input_data) as [validated |]; [| discriminate].
  unfold DataPreprocessor._normalize_values.
  destruct (DataPreprocessor._compute_deltas pp _) as [[deltas pp1] |] eqn:Ed;
    [| discriminate].
  intros [= <- <-]. exists validated, deltas, pp1. simpl. repeat split; reflexivity || exact Ed.
Qed.

Lemma length_append_bounded {A} cap (l : list A) x :
  (0 < cap)%nat -> (length l <= cap)%nat -> (length (append_bounded cap l x) <= cap)%nat.
Proof.
  intros Hc H. unfold append_bounded. rewrite length_app. simpl.
  destruct (Nat.ltb_spec cap (length l + 1)).
  - destruct l; simpl in *; [lia |]. rewrite length_app. simpl. lia.
  - rewrite length_app. simpl. lia.
Qed.

(** Appending to a bounded list drops the oldest entry when, and only
    when, the bound would be exceeded. *)
Lemma append_bounded_drop {A} cap (l : list A) x :
  (length l <= cap)%nat ->
  append_bounded cap l x = drop (length l + 1 - cap) (l ++ [x]).
Proof.
  intros H. unfold append_bounded. rewrite length_app. simpl.
  destruct (Nat.ltb_spec cap (length l + 1)).
  - replace (length l + 1 - cap)%nat with 1%nat by lia.
    destruct l; reflexivity.
  - replace (length l + 1 - cap)%nat with 0%nat by lia. reflexivity.
Qed.

Lemma last_append_bounded {A} cap (l : list A) x :
  (0 < cap)%nat -> last (append_bounded cap l x) = Some x.
Proof.
  intros Hc. unfold append_bounded. rewrite length_app. simpl.
  destruct (Nat.ltb_spec cap (length l + 1)).
  - destruct l as [| a l]; simpl in *; [lia |]. apply last_snoc.
  - apply last_snoc.
Qed.

(* ===================================================================== *)
(** ** Behavior model *)
(* ===================================================================== *)

Lemma filter_Rgtb (l : list R) (a : R) :
  filter (fun ts => Rgtb ts a = true) l = filter (fun ts => a < ts) l.
Proof.
  apply list_filter_iff. intros x. apply Rgtb_gt.
Qed.

Lemma behavior_analyze_state bm pd :
  snd (BehaviorLearningModel.analyze bm pd)
  = BehaviorLearningModel.mk
      (append_bounded 50 (BehaviorLearningModel.command_history bm) (command_of pd))
      (append_bounded 50 (BehaviorLearningModel.timestamp_history bm) (timestamp_unix pd))
      (BehaviorLearningModel.switch_count bm)
      (pruned_switch_timestamps bm pd).
Proof.
  unfold BehaviorLearningModel.analyze, BehaviorLearningModel._check_excessive_switching,
    pruned_switch_timestamps.
  rewrite filter_Rgtb.
  destruct (Nat.ltb _ _); simpl;
    destruct (map snd (fired _)) as [| first others]; reflexivity.
Qed.

(** The output of the behavior model: the aggregation of the four checks,
    each evaluated on the model as it was before the call. *)
Lemma behavior_analyze_output bm pd :
  fst (BehaviorLearningModel.analyze bm pd)
  = let found :=
      fired [ BehaviorLearningModel._check_replay_attack bm pd;
              BehaviorLearningModel._check_off_hours_operation pd;
              fst (BehaviorLearningModel._check_excessive_switching bm pd);
              BehaviorLearningModel._check_rapid_commands pd ] in
    match map snd found with
    | [] => mkModelOutput 0 (75/100) [Lit "Normal operator behavior pattern"]
    | first :: others =>
        mkModelOutput (py_max (map fst found))
          (Rmin (90/100) (65/100 + INR (length (map fst found)) * (1/10)))
          (match others with
           | [] => first
           | _ => first ++ [Lit " (+"; Int (Z.of_nat (length (map snd found)) - 1);
                            Lit " more anomalies)"]
           end)
    end.
Proof.
  unfold BehaviorLearningModel.analyze.
  destruct (BehaviorLearningModel._check_excessive_switching bm pd) as [switching bm1].
  cbv zeta. cbn [fst].
  destruct (map snd (fired _)) as [| first others]; reflexivity.
Qed.

Lemma filter_all {A} (P : A -> Prop) `{forall x, Decision (P x)} (l : list A) :
  Forall P l -> filter P l = l.
Proof.
  induction 1 as [| x l Hx Hl IH]; [reflexivity |].
  rewrite filter_cons_True by exact Hx. rewrite IH. reflexivity.
Qed.

(** C6, as the code has it.  A call to [BehaviorLearningModel.analyze]
    scores the four checks on the model as it was before the call: the
    replay check reads the timestamp history without the current sample,
    and the returned output is the aggregation of those four results.
    Then the current sample is appended to the command history and to the
    timestamp history, each bounded by 50 with the oldest entry dropped
    first.  The list of breaker-toggle timestamps receives the current
    timestamp only when the breaker changed, and keeps the timestamps of
    the trailing hour. *)
Theorem C6_behavior_histories bm pd :
  (length (BehaviorLearningModel.command_history bm) <= 50)%nat ->
  (length (BehaviorLearningModel.timestamp_history bm) <= 50)%nat ->
  let bm' := snd (BehaviorLearningModel.analyze bm pd) in
  let commands := BehaviorLearningModel.command_history bm in
  let timestamps := BehaviorLearningModel.timestamp_history bm in
  fst (BehaviorLearningModel.analyze bm pd)
    = (let found :=
         fired [ BehaviorLearningModel._check_replay_attack bm pd;
                 BehaviorLearningModel._check_off_hours_operation pd;
                 fst (BehaviorLearningModel._check_excessive_switching bm pd);
                 BehaviorLearningModel._check_rapid_commands pd ] in
       match map snd found with
       | [] => mkModelOutput 0 (75/100) [Lit "Normal operator behavior pattern"]
       | first :: others =>
           mkModelOutput (py_max (map fst found))
             (Rmin (90/100) (65/100 + INR (length (map fst found)) * (1/10)))
             (match others with
              | [] => first
              | _ => first ++ [Lit " (+"; Int (Z.of_nat (length (map snd found)) - 1);
                               Lit " more anomalies)"]
              end)
       end)
  /\ BehaviorLearningModel.command_history bm'
    = drop (length commands + 1 - 50) (commands ++ [command_of pd])
  /\ (length (BehaviorLearningModel.command_history bm') <= 50)%nat
  /\ last (BehaviorLearningModel.command_history bm') = Some (command_of pd)
  /\ BehaviorLearningModel.timestamp_history bm'
    = drop (length timestamps + 1 - 50) (timestamps ++ [timestamp_unix pd])
  /\ (length (BehaviorLearningModel.timestamp_history bm') <= 50)%nat
  /\ last (BehaviorLearningModel.timestamp_history bm') = Some (timestamp_unix pd)
  /\ BehaviorLearningModel.switch_timestamps bm'
    = filter (fun ts => timestamp_unix pd - 3600 < ts)
        (if BehaviorLearningModel.get_breaker_changed pd
         then BehaviorLearningModel.switch_timestamps bm ++ [timestamp_unix pd]
         else BehaviorLearningModel.switch_timestamps bm).
Proof.
  intros Hc Ht. cbv zeta. split.
  - unfold BehaviorLearningModel.analyze.
    destruct (BehaviorLearningModel._check_excessive_switching bm pd) as [switching bm1].
    cbn [fst].
    destruct (map snd (fired _)) as [| first others]; reflexivity.
  - rewrite behavior_analyze_state. simpl.
    repeat split.
    + apply append_bounded_drop. exact Hc.
    + apply length_append_bounded; [lia | exact Hc].
    + apply last_append_bounded. lia.
    + apply append_bounded_drop. exact Ht.
    + apply length_append_bounded; [lia | exact Ht].
    + apply last_append_bounded. lia.
Qed.

(** The theorem at a model whose histories are full, for a sample that
    changes the breaker: the oldest entry of each history is dropped, and
    the toggle list receives the timestamp. *)
Lemma C6_witness :
  let bm := full_histories in
  let pd := opening_sample in
  let bm' := snd (BehaviorLearningModel.analyze bm pd) in
  let commands := BehaviorLearningModel.command_history bm in
  let timestamps := BehaviorLearningModel.timestamp_history bm in
  fst (BehaviorLearningModel.analyze bm pd)
    = (let found :=
         fired [ BehaviorLearningModel._check_replay_attack bm pd;
                 BehaviorLearningModel._check_off_hours_operation pd;
                 fst (BehaviorLearningModel._check_excessive_switching bm pd);
                 BehaviorLearningModel._check_rapid_commands pd ] in
       match map snd found with
       | [] => mkModelOutput 0 (75/100) [Lit "Normal operator behavior pattern"]
       | first :: others =>
           mkModelOutput (py_max (map fst found))
             (Rmin (90/100) (65/100 + INR (length (map fst found)) * (1/10)))
             (match others with
              | [] => first
              | _ => first ++ [Lit " (+"; Int (Z.of_nat (length (map snd found)) - 1);
                               Lit " more anomalies)"]
              end)
       end)
  /\ BehaviorLearningModel.command_history bm'
    = drop (length commands + 1 - 50) (commands ++ [command_of pd])
  /\ (length (BehaviorLearningModel.command_history bm') <= 50)%nat
  /\ last (BehaviorLearningModel.command_history bm') = Some (command_of pd)
  /\ BehaviorLearningModel.timestamp_history bm'
    = drop (length timestamps + 1 - 50) (timestamps ++ [timestamp_unix pd])
  /\ (length (BehaviorLearningModel.timestamp_history bm') <= 50)%nat
  /\ last (BehaviorLearningModel.timestamp_history bm') = Some (timestamp_unix pd)
  /\ BehaviorLearningModel.switch_timestamps bm'
    = filter (fun ts => timestamp_unix pd - 3600 < ts)
        (if BehaviorLearningModel.get_breaker_changed pd
         then BehaviorLearningModel.switch_timestamps bm ++ [timestamp_unix pd]
         else BehaviorLearningModel.switch_timestamps bm).
Proof.
  apply (C6_behavior_histories full_histories opening_sample);
    unfold full_histories;
    cbn [BehaviorLearningModel.command_history BehaviorLearningModel.timestamp_history];
    rewrite length_map, length_seq; lia.
Defined.

(* ===================================================================== *)
(** ** The first sample *)
(* ===================================================================== *)

Lemma validate_input_breaker_changed d validated :
  DataPreprocessor._validate_input (Dict d) = Ok validated ->
  v_breaker_changed validated = raw_breaker_changed d.
Proof.
  simpl. destruct (negb _); [discriminate |]. unfold_bind.
  destruct (DataPreprocessor.numeric_field (raw_voltage d) _); [| discriminate].
  destruct (DataPreprocessor.numeric_field (raw_frequency d) _); [| discriminate].
  destruct (DataPreprocessor.numeric_field (raw_power_flow d) _); [| discriminate].
  destruct (DataPreprocessor.breaker_field _); [| discriminate].
  intros [= <-]. reflexivity.
Qed.

(** On the first call the deltas are zero, and the record holds a
    [breaker_changed] key only if the input brought one. *)
Lemma preprocess_first_call now pp input_data pd pp' :
  DataPreprocessor.last_telemetry pp = None ->
  DataPreprocessor.preprocess now pp input_data = Ok (pd, pp') ->
  delta_voltage pd = 0 /\ delta_frequency pd = 0 /\ delta_power_flow pd = 0
  /\ delta_time pd = 0
  /\ exists d, input_data = Dict d
       /\ breaker_changed pd = option_map truthy (raw_breaker_changed d).
Proof.
  intros Hlast Hpre.
  apply preprocess_Ok in Hpre
    as (validated & deltas & pp1 & Hv & Hd & _ & -> & -> & -> & -> & ->).
  unfold DataPreprocessor._compute_deltas in Hd. rewrite Hlast in Hd.
  injection Hd as <- _.
  destruct input_data as [v | d]; [discriminate |].
  apply validate_input_breaker_changed in Hv.
  repeat split; try reflexivity.
  exists d. split; [reflexivity |].
  unfold DataPreprocessor.merged_breaker_changed.
  cbn [DataPreprocessor.d_breaker_changed]. rewrite Hv. reflexivity.
Qed.

(** C10. With no previous sample stored, the preprocessed record has zero
    deltas, and its [breaker_changed] key is the one of the input, if the
    input has one.  When the input has no such key, or a false one, the
    behavior checks read the key as false, so the off-hours check and the
    rapid-command check return 0 and the excessive-switching check appends
    nothing to the toggle list. *)
Theorem C10_first_sample_cannot_trigger_breaker_checks now pp d pd pp' :
  DataPreprocessor.last_telemetry pp = None ->
  DataPreprocessor.preprocess now pp (Dict d) = Ok (pd, pp') ->
  (forall v, raw_breaker_changed d = Some v -> truthy v = false) ->
  (delta_voltage pd = 0 /\ delta_frequency pd = 0 /\ delta_power_flow pd = 0
   /\ delta_time pd = 0)
  /\ breaker_changed pd = option_map truthy (raw_breaker_changed d)
  /\ (raw_breaker_changed d = None -> breaker_changed pd = None)
  /\ BehaviorLearningModel.get_breaker_changed pd = false
  /\ fst (BehaviorLearningModel._check_off_hours_operation pd) = 0
  /\ fst (BehaviorLearningModel._check_rapid_commands pd) = 0
  /\ forall bm,
       BehaviorLearningModel.switch_timestamps
         (snd (BehaviorLearningModel._check_excessive_switching bm pd))
       = filter (fun ts => timestamp_unix pd - 3600 < ts)
           (BehaviorLearningModel.switch_timestamps bm).
Proof.
  intros Hlast Hpre Hkey.
  destruct (preprocess_first_call _ _ _ _ _ Hlast Hpre)
    as (Hv & Hf & Hp & Ht & d' & [= <-] & Hb).
  assert (BehaviorLearningModel.get_breaker_changed pd = false) as Hg.
  { unfold BehaviorLearningModel.get_breaker_changed. rewrite Hb.
    destruct (raw_breaker_changed d) as [v |]; [| reflexivity].
    simpl. apply Hkey. reflexivity. }
  repeat apply conj; try assumption.
  - intros Hnone. rewrite Hb, Hnone. reflexivity.
  - unfold BehaviorLearningModel._check_off_hours_operation. rewrite Hg. reflexivity.
  - unfold BehaviorLearningModel._check_rapid_commands. rewrite Hg. reflexivity.
  - intros bm. unfold BehaviorLearningModel._check_excessive_switching.
    rewrite Hg, filter_Rgtb. destruct (Nat.ltb _ _); reflexivity.
Qed.

Lemma normalize_value_mid : DataPreprocessor.normalize_value 1 (8/10) (12/10) = 1/2.
Proof.
  unfold DataPreprocessor.normalize_value, Rmax, Rmin.
  destruct (Rle_dec (12/10) 1); [lra |]. destruct (Rle_dec (8/10) 1); [| lra]. field.
Qed.

Lemma normalize_value_50 : DataPreprocessor.normalize_value 50 49 51 = 1/2.
Proof.
  unfold DataPreprocessor.normalize_value, Rmax, Rmin.
  destruct (Rle_dec 51 50); [lra |]. destruct (Rle_dec 49 50); [| lra]. field.
Qed.

Lemma normalize_value_100 : DataPreprocessor.normalize_value 100 0 200 = 1/2.
Proof.
  unfold DataPreprocessor.normalize_value, Rmax, Rmin.
  destruct (Rle_dec 200 100); [lra |]. destruct (Rle_dec 0 100); [| lra]. field.
Qed.

(** [quiet_sample] is what a new preprocessor makes of the sample. *)
Lemma preprocess_quiet_sample :
  DataPreprocessor.preprocess noon DataPreprocessor.init
    (sample 1 50 100 "ON" (Some (TsIso noon)))
  = Ok (quiet_sample,
        DataPreprocessor.mk (Some (mkTelemetry 1 50 100 ON (TsIso noon)))
          [mkHistoryEntry 1 50 100 (TsIso noon)]).
Proof.
  unfold DataPreprocessor.preprocess, sample. simpl.
  unfold DataPreprocessor._normalize_values. simpl.
  rewrite normalize_value_mid, normalize_value_50, normalize_value_100.
  reflexivity.
Qed.

Lemma C10_witness :
  (delta_voltage quiet_sample = 0 /\ delta_frequency quiet_sample = 0
   /\ delta_power_flow quiet_sample = 0 /\ delta_time quiet_sample = 0)
  /\ breaker_changed quiet_sample = option_map truthy None
  /\ (@None PyVal = None -> breaker_changed quiet_sample = None)
  /\ BehaviorLearningModel.get_breaker_changed quiet_sample = false
  /\ fst (BehaviorLearningModel._check_off_hours_operation quiet_sample) = 0
  /\ fst (BehaviorLearningModel._check_rapid_commands quiet_sample) = 0
  /\ forall bm,
       BehaviorLearningModel.switch_timestamps
         (snd (BehaviorLearningModel._check_excessive_switching bm quiet_sample))
       = filter (fun ts => timestamp_unix quiet_sample - 3600 < ts)
           (BehaviorLearningModel.switch_timestamps bm).
Proof.
  apply (C10_first_sample_cannot_trigger_breaker_checks noon DataPreprocessor.init
           (mkRawInput (Some (PyNum 1)) (Some (PyNum 50)) (Some (PyNum 100))
              (Some (PyStr "ON")) (Some (TsIso noon)) None)
           quiet_sample
           (DataPreprocessor.mk (Some (mkTelemetry 1 50 100 ON (TsIso noon)))
              [mkHistoryEntry 1 50 100 (TsIso noon)])).
  - reflexivity.
  - exact preprocess_quiet_sample.
  - intros v. discriminate.
Defined.

(** The counterexample to C10 as the specification words it ("regardless
    of its contents"): the first sample of a new preprocessor, sent with a
    true [breaker_changed] key at three in the night.  The deltas are zero,
    but the record keeps the key of the input, so the off-hours check and
    the rapid-command check fire and the toggle list receives the sample's
    timestamp; the behavior model reports 0.6. *)
Lemma C10_breaker_changed_key_of_the_input_fires_the_checks :
  exists pd pp',
    DataPreprocessor.last_telemetry DataPreprocessor.init = None
    /\ DataPreprocessor.preprocess noon DataPreprocessor.init flagged_sample
       = Ok (pd, pp')
    /\ (delta_voltage pd = 0 /\ delta_frequency pd = 0 /\ delta_power_flow pd = 0
        /\ delta_time pd = 0)
    /\ breaker_changed pd = Some true
    /\ fst (BehaviorLearningModel._check_off_hours_operation pd) = 5/10
    /\ fst (BehaviorLearningModel._check_rapid_commands pd) = 6/10
    /\ BehaviorLearningModel.switch_timestamps
         (snd (BehaviorLearningModel._check_excessive_switching
                 BehaviorLearningModel.init pd))
       = [timestamp_unix pd]
    /\ score (fst (BehaviorLearningModel.analyze BehaviorLearningModel.init pd))
       = 6/10.
Proof.
  eexists. eexists. split; [reflexivity |]. split.
  { unfold DataPreprocessor.preprocess, flagged_sample. simpl.
    unfold DataPreprocessor._normalize_values. simpl.
    rewrite normalize_value_mid, normalize_value_50, normalize_value_100.
    reflexivity. }
  assert (Reqb 1 0 = false) as E10
    by (unfold Reqb; destruct (Req_dec_T 1 0); [lra | reflexivity]).
  assert (Rltb 0 5 = true) as E05
    by (unfold Rltb; destruct (Rlt_dec 0 5); [reflexivity | lra]).
  assert (Rgtb 0 (0 - 3600) = true) as Egt
    by (unfold Rgtb, Rltb; destruct (Rlt_dec (0 - 3600) 0); [reflexivity | lra]).
  unfold DataPreprocessor.merged_breaker_changed.
  cbn [DataPreprocessor.d_breaker_changed v_breaker_changed option_map truthy
       breaker_changed delta_voltage delta_frequency delta_power_flow delta_time].
  rewrite E10. cbn [negb].
  split; [repeat split; reflexivity |]. split; [reflexivity |].
  set (pd := mkPreprocessed _ _ _ _ _ _ _ _ _ _ _ _ _ _ _ _ _ _).
  assert (BehaviorLearningModel._check_off_hours_operation pd
          = (5/10, [Lit "Breaker operation during night hours ("; Int 3; Lit ":00)"]))
    as Eoff by reflexivity.
  assert (BehaviorLearningModel._check_rapid_commands pd
          = (6/10, [Lit "Rapid command sequence ("; Fixed 1 0;
                    Lit "s interval, min 5s)"])) as Erapid.
  { unfold BehaviorLearningModel._check_rapid_commands,
      AIEngineConfig.command_interval_min. subst pd. simpl. rewrite E05. reflexivity. }
  assert (BehaviorLearningModel._check_excessive_switching BehaviorLearningModel.init pd
          = ((0, []), BehaviorLearningModel.mk [] [] 0 [0])) as Esw.
  { unfold BehaviorLearningModel._check_excessive_switching. subst pd. simpl.
    rewrite filter_cons_True by exact Egt. reflexivity. }
  rewrite Eoff, Erapid, Esw.
  split; [reflexivity |]. split; [reflexivity |]. split; [reflexivity |].
  rewrite behavior_analyze_output, Eoff, Erapid, Esw. cbv zeta.
  assert (Rgtb 0 0 = false) as E00 by (apply Rltb_false; lra).
  assert (Rgtb (5/10) 0 = true) as E50 by (apply Rltb_true; lra).
  assert (Rgtb (6/10) 0 = true) as E60 by (apply Rltb_true; lra).
  unfold fired, BehaviorLearningModel._check_replay_attack. simpl existsb. cbv iota.
  cbn [fst].
  rewrite filter_cons_False by (cbn [fst]; rewrite E00; discriminate).
  rewrite filter_cons_True by exact E50.
  rewrite filter_cons_False by (cbn [fst]; rewrite E00; discriminate).
  rewrite filter_cons_True by exact E60.
  rewrite filter_nil. cbn [map fst snd score py_max max_from].
  rewrite (Rltb_true (5/10) (6/10)) by lra. reflexivity.
Qed.

(* ===================================================================== *)
(** ** Sums and maxima of lists *)
(* ===================================================================== *)

Lemma fold_left_Rplus (xs : list R) (a : R) : fold_left Rplus xs a = a + Rsum xs.
Proof.
  unfold Rsum. revert a. induction xs as [| x xs IH]; intros a; simpl; [lra |].
  rewrite IH, (IH (0 + x)). lra.
Qed.

Lemma Rsum_nil : Rsum [] = 0.
Proof. reflexivity. Qed.

Lemma Rsum_cons x xs : Rsum (x :: xs) = x + Rsum xs.
Proof. unfold Rsum at 1. simpl. rewrite fold_left_Rplus. lra. Qed.

Lemma Rsum_bounds (xs : list R) :
  Forall unit_interval xs -> 0 <= Rsum xs <= INR (length xs).
Proof.
  induction 1 as [| x xs Hx _ IH].
  - rewrite Rsum_nil. simpl. lra.
  - rewrite Rsum_cons. change (length (x :: xs)) with (S (length xs)).
    rewrite S_INR. unfold unit_interval in Hx. lra.
Qed.

Lemma Rsum_nonneg (xs : list R) : Forall (Rle 0) xs -> 0 <= Rsum xs.
Proof.
  induction 1 as [| x xs Hx _ IH]; [rewrite Rsum_nil; lra |].
  rewrite Rsum_cons. lra.
Qed.

Lemma average_unit (xs : list R) :
  xs <> [] -> Forall unit_interval xs -> unit_interval (Rsum xs / INR (length xs)).
Proof.
  intros Hne H. pose proof (Rsum_bounds xs H) as [H0 H1].
  assert (0 < INR (length xs)) as Hlen.
  { destruct xs; [contradiction |]. apply lt_0_INR. simpl. lia. }
  split.
  - apply Rmult_le_pos; [exact H0 | left; apply Rinv_0_lt_compat; exact Hlen].
  - apply (Rmult_le_reg_r (INR (length xs))); [exact Hlen |].
    unfold Rdiv. rewrite Rmult_assoc, Rinv_l by lra. lra.
Qed.

Lemma max_from_in best xs : max_from best xs = best \/ In (max_from best xs) xs.
Proof.
  revert best. induction xs as [| x xs IH]; intros best; simpl; [auto |].
  destruct (IH (if Rltb best x then x else best)) as [-> | H]; [| auto].
  destruct (Rltb best x); auto.
Qed.

Lemma py_max_unit (xs : list R) : Forall unit_interval xs -> unit_interval (py_max xs).
Proof.
  intros H. destruct xs as [| x xs]; simpl; [unfold unit_interval; lra |].
  destruct (max_from_in x xs) as [-> | Hin].
  - inversion H; assumption.
  - rewrite Forall_forall in H. apply H. apply list_elem_of_In. right. exact Hin.
Qed.

(** The checks that fired, when every check is within [0,1]. *)
Lemma fired_unit (checks : list (R * Text)) :
  Forall (fun c => unit_interval (fst c)) checks ->
  Forall unit_interval (map fst (fired checks)).
Proof.
  intros H. unfold fired. apply Forall_map.
  apply Forall_forall. intros c Hc. apply list_elem_of_filter in Hc as [_ Hc].
  rewrite Forall_forall in H. exact (H c Hc).
Qed.

Lemma map_snd_cons_fst {A B} (l : list (A * B)) b bs :
  map snd l = b :: bs -> map fst l <> [].
Proof. destruct l; simpl; [discriminate | discriminate]. Qed.

Lemma unit_0 : unit_interval 0.
Proof. unfold unit_interval. lra. Qed.

Lemma unit_1 : unit_interval 1.
Proof. unfold unit_interval. lra. Qed.

Lemma Rmin_cap_unit c x : 0 <= c <= 1 -> 0 <= x -> unit_interval (Rmin c x).
Proof. unfold unit_interval, Rmin. intros Hc Hx. destruct (Rle_dec c x); lra. Qed.


(* ===================================================================== *)
(** ** Every model returns a score and a confidence in [0,1] *)
(* ===================================================================== *)

Ltac by_cases_R :=
  repeat match goal with
  | |- context [Rltb ?a ?b] =>
      let E := fresh "E" in
      destruct (Rltb a b) eqn:E;
      [apply Rltb_lt in E | apply Rltb_ge in E]
  | |- context [Rgtb ?a ?b] =>
      let E := fresh "E" in
      destruct (Rgtb a b) eqn:E;
      [apply Rgtb_gt in E | apply Rltb_ge in E]
  end.

Lemma anomaly_check_field_unit pd stats field :
  Forall (fun c => unit_interval (fst c))
    (AnomalyDetectionModel.check_field pd stats field).
Proof.
  unfold AnomalyDetectionModel.check_field. destruct (stats field) as [mean std_dev].
  unfold AnomalyDetectionModel._evaluate_anomaly,
    AIEngineConfig.z_score_threshold, AIEngineConfig.deviation_threshold.
  by_cases_R; simpl; repeat first [apply List.Forall_nil | apply List.Forall_cons]; simpl;
    apply Rmin_1_unit; lra.
Qed.

Lemma anomaly_in_range pd stats :
  output_in_range (AnomalyDetectionModel.analyze pd stats).
Proof.
  unfold AnomalyDetectionModel.analyze.
  set (anomalies := flat_map _ _).
  assert (Forall (fun c => unit_interval (fst c)) anomalies) as Hall.
  { subst anomalies. simpl. rewrite !Forall_app.
    repeat split; try apply anomaly_check_field_unit. constructor. }
  destruct (map snd anomalies) as [| first others] eqn:E; split;
    cbn [fst score confidence]; try (unfold unit_interval; lra).
  - apply py_max_unit. apply Forall_map. exact Hall.
  - apply Rmin_cap_unit; [lra |]. pose proof (pos_INR (length (map fst anomalies))). lra.
Qed.

Lemma compute_correlation_nonneg x y : 0 <= FDIADetectionModel._compute_correlation x y.
Proof.
  unfold FDIADetectionModel._compute_correlation.
  destruct (_ || _); [lra |]. destruct (Reqb _ 0); [lra | apply Rabs_pos].
Qed.

Lemma fdia_checks_unit fm pd history :
  Forall (fun c => unit_interval (fst c))
    [ FDIADetectionModel._check_correlation_mismatch pd history;
      FDIADetectionModel._check_temporal_consistency pd;
      FDIADetectionModel._check_multi_signal_coordination fm pd ].
Proof.
  repeat first [apply List.Forall_nil | apply List.Forall_cons]; unfold unit_interval.
  - unfold FDIADetectionModel._check_correlation_mismatch,
      AIEngineConfig.correlation_threshold.
    destruct (Nat.ltb _ 5); [simpl; lra |].
    set (c := FDIADetectionModel._compute_correlation _ _).
    pose proof (compute_correlation_nonneg
                  (map h_voltage (last_n AIEngineConfig.temporal_window history))
                  (map h_frequency (last_n AIEngineConfig.temporal_window history))) as Hc.
    fold c in Hc. by_cases_R; simpl; lra.
  - unfold FDIADetectionModel._check_temporal_consistency.
    destruct (Nat.leb 2 _); simpl; [| lra].
    apply Rmin_1_unit.
    match goal with |- 0 <= INR ?n / 3 + _ => pose proof (pos_INR n) end. lra.
  - unfold FDIADetectionModel._check_multi_signal_coordination.
    destruct (Nat.ltb _ 3); [simpl; lra |].
    destruct (_ && _); [| simpl; lra].
    destruct (_ && _ || _ && _); [simpl; lra |].
    destruct (_ || _); simpl; lra.
Qed.

Lemma fdia_in_range fm pd history :
  output_in_range (fst (FDIADetectionModel.analyze fm pd history)).
Proof.
  unfold FDIADetectionModel.analyze.
  set (indicators := fired _).
  assert (Forall unit_interval (map fst indicators)) as Hall
    by (apply fired_unit, fdia_checks_unit).
  destruct (map snd indicators) as [| first others] eqn:E; split;
    cbn [fst score confidence]; try (unfold unit_interval; lra).
  - apply average_unit; [exact (map_snd_cons_fst _ _ _ E) | exact Hall].
  - apply Rmin_cap_unit; [lra |]. pose proof (pos_INR (length (first :: others))). lra.
Qed.

Lemma physics_checks_unit pd :
  Forall (fun c => unit_interval (fst c))
    [ PhysicsValidationModel._check_breaker_power_consistency pd;
      PhysicsValidationModel._check_voltage_bounds pd;
      PhysicsValidationModel._check_frequency_bounds pd;
      PhysicsValidationModel._check_power_voltage_causality pd;
      PhysicsValidationModel._check_physical_impossibilities pd ].
Proof.
  repeat first [apply List.Forall_nil | apply List.Forall_cons].
  - unfold PhysicsValidationModel._check_breaker_power_consistency.
    destruct (_ && _); simpl; unfold unit_interval; lra.
  - unfold PhysicsValidationModel._check_voltage_bounds,
      AIEngineConfig.voltage_min, AIEngineConfig.voltage_max.
    by_cases_R; simpl; try apply Rmin_1_unit; try (unfold unit_interval); lra.
  - unfold PhysicsValidationModel._check_frequency_bounds,
      AIEngineConfig.frequency_min, AIEngineConfig.frequency_max.
    by_cases_R; simpl; try apply Rmin_1_unit; try (unfold unit_interval); lra.
  - unfold PhysicsValidationModel._check_power_voltage_causality.
    destruct (_ && _); [| simpl; unfold unit_interval; lra].
    destruct (_ && _ || _ && _); simpl; unfold unit_interval; lra.
  - unfold PhysicsValidationModel._check_physical_impossibilities.
    destruct (_ && _); [simpl; unfold unit_interval; lra |].
    destruct (_ && _); [simpl; unfold unit_interval; lra |].
    destruct (Rgtb (delta_time pd) 0); [| simpl; unfold unit_interval; lra].
    destruct (Rgtb _ 2); simpl; unfold unit_interval; lra.
Qed.

Lemma physics_in_range pd : output_in_range (PhysicsValidationModel.analyze pd).
Proof.
  unfold PhysicsValidationModel.analyze.
  set (found := fired _).
  assert (Forall unit_interval (map fst found)) as Hall
    by (apply fired_unit, physics_checks_unit).
  destruct (map snd found) as [| first others] eqn:E; split;
    cbn [fst score confidence]; try (unfold unit_interval; lra).
  apply py_max_unit, Hall.
Qed.

Lemma behavior_checks_unit bm pd :
  Forall (fun c => unit_interval (fst c))
    [ BehaviorLearningModel._check_replay_attack bm pd;
      BehaviorLearningModel._check_off_hours_operation pd;
      fst (BehaviorLearningModel._check_excessive_switching bm pd);
      BehaviorLearningModel._check_rapid_commands pd ].
Proof.
  repeat first [apply List.Forall_nil | apply List.Forall_cons].
  - unfold BehaviorLearningModel._check_replay_attack.
    destruct (existsb _ _); simpl; unfold unit_interval; lra.
  - unfold BehaviorLearningModel._check_off_hours_operation.
    destruct (BehaviorLearningModel.get_breaker_changed pd);
      [| simpl; unfold unit_interval; lra].
    destruct (is_night pd); [simpl; unfold unit_interval; lra |].
    destruct (is_weekend pd); simpl; unfold unit_interval; lra.
  - unfold BehaviorLearningModel._check_excessive_switching.
    destruct (Nat.ltb _ _); cbn [fst]; [| unfold unit_interval; lra].
    apply Rmin_1_unit.
    match goal with |- 0 <= INR ?n / INR ?m =>
      pose proof (pos_INR n); assert (INR m = 20) as -> by (simpl; lra) end.
    lra.
  - unfold BehaviorLearningModel._check_rapid_commands.
    destruct (_ && _); simpl; unfold unit_interval; lra.
Qed.

Lemma behavior_in_range bm pd :
  output_in_range (fst (BehaviorLearningModel.analyze bm pd)).
Proof.
  rewrite behavior_analyze_output. cbv zeta.
  set (found := fired _).
  assert (Forall unit_interval (map fst found)) as Hall
    by (apply fired_unit, behavior_checks_unit).
  destruct (map snd found) as [| first others] eqn:E; split;
    cbn [fst score confidence]; try (unfold unit_interval; lra).
  - apply py_max_unit, Hall.
  - apply Rmin_cap_unit; [lra |]. pose proof (pos_INR (length (map fst found))). lra.
Qed.

(** Cauchy-Schwarz, on the sums the cosine similarity computes. *)
Lemma cauchy_schwarz_step a b D A B :
  0 <= A -> 0 <= B -> D * D <= A * B ->
  (a * b + D) * (a * b + D) <= (a * a + A) * (b * b + B).
Proof.
  intros HA HB HD.
  destruct (Req_dec A 0) as [-> | HA0].
  - assert (D = 0) as -> by nra. nra.
  - assert (0 < A) as HApos by lra.
    apply (Rmult_le_reg_l A); [exact HApos |].
    pose proof (Rle_0_sqr (a * D - b * A)) as Hsq. unfold Rsqr in Hsq.
    assert (0 <= a * a * (A * B - D * D)) by (apply Rmult_le_pos; nra).
    assert (0 <= A * (A * B - D * D)) by (apply Rmult_le_pos; nra).
    nra.
Qed.

Lemma Rsum_squares_nonneg (u : list R) : 0 <= Rsum (map (fun a => a * a) u).
Proof.
  apply Rsum_nonneg, Forall_map, Forall_forall. intros x _. simpl. nra.
Qed.

Lemma cauchy_schwarz (u : list R) : forall v,
  length u = length v ->
  let dot := Rsum (map (fun ab => fst ab * snd ab) (combine u v)) in
  dot * dot <= Rsum (map (fun a => a * a) u) * Rsum (map (fun b => b * b) v).
Proof.
  induction u as [| a u IH]; intros [| b v] Hlen; simpl in Hlen; try discriminate.
  - simpl. rewrite Rsum_nil. lra.
  - cbv zeta. cbn [combine map fst snd]. rewrite !Rsum_cons.
    apply cauchy_schwarz_step.
    + apply Rsum_squares_nonneg.
    + apply Rsum_squares_nonneg.
    + apply IH. lia.
Qed.

Lemma cosine_similarity_le_1 u v : MemoryModel._cosine_similarity u v <= 1.
Proof.
  unfold MemoryModel._cosine_similarity.
  destruct (Nat.eqb (length u) (length v)) eqn:Elen; simpl; [| lra].
  apply Nat.eqb_eq in Elen.
  set (dot := Rsum (map (fun ab => fst ab * snd ab) (combine u v))).
  set (su := Rsum (map (fun a => a * a) u)).
  set (sv := Rsum (map (fun b => b * b) v)).
  pose proof (cauchy_schwarz u v Elen) as CS. cbv zeta in CS. fold dot su sv in CS.
  pose proof (Rsum_squares_nonneg u) as Hu. fold su in Hu.
  pose proof (Rsum_squares_nonneg v) as Hv. fold sv in Hv.
  pose proof (sqrt_pos su) as Pu. pose proof (sqrt_pos sv) as Pv.
  pose proof (sqrt_sqrt su Hu) as Su. pose proof (sqrt_sqrt sv Hv) as Sv.
  unfold Reqb. destruct (Req_dec_T (sqrt su) 0); simpl; [lra |].
  destruct (Req_dec_T (sqrt sv) 0); simpl; [lra |].
  assert (0 < sqrt su * sqrt sv) as Hpos by (apply Rmult_lt_0_compat; lra).
  apply (Rmult_le_reg_r (sqrt su * sqrt sv)); [exact Hpos |].
  unfold Rdiv. rewrite Rmult_assoc, Rinv_l by lra. rewrite Rmult_1_r, Rmult_1_l.
  destruct (Rle_lt_dec dot (sqrt su * sqrt sv)) as [Hle | Hgt]; [exact Hle | exfalso].
  assert (sqrt su * sqrt sv * (sqrt su * sqrt sv) < dot * dot) by nra.
  assert (sqrt su * sqrt sv * (sqrt su * sqrt sv) = su * sv) by nra.
  lra.
Qed.

Lemma first_match_unit vec signatures :
  unit_interval (fst (MemoryModel.first_match vec signatures)).
Proof.
  induction signatures as [| sg rest IH]; simpl; [apply unit_0 |].
  destruct (Rgtb _ _) eqn:E; [| exact IH].
  apply Rgtb_gt in E. unfold AIEngineConfig.similarity_threshold in E.
  pose proof (cosine_similarity_le_1 vec (MemoryModel.sig_vector sg)).
  simpl. unfold unit_interval. lra.
Qed.

Lemma memory_checks_unit mm pd history :
  Forall (fun c => unit_interval (fst c))
    [ MemoryModel._check_attack_signatures mm pd;
      MemoryModel._check_pattern_repetition pd history;
      MemoryModel._check_baseline_deviation mm pd ].
Proof.
  repeat first [apply List.Forall_nil | apply List.Forall_cons].
  - apply first_match_unit.
  - unfold MemoryModel._check_pattern_repetition.
    destruct (Nat.ltb _ 10); [apply unit_0 |].
    destruct (Nat.ltb 3 _); [| apply unit_0]. cbn [fst].
    apply Rmin_1_unit.
    match goal with |- 0 <= INR ?n / 10 => pose proof (pos_INR n) end. lra.
  - unfold MemoryModel._check_baseline_deviation.
    destruct (Nat.ltb _ 20); [apply unit_0 |].
    destruct (Rgtb _ _) eqn:E; [| apply unit_0]. apply Rgtb_gt in E. cbn [fst].
    split; [lra | apply Rmin_l].
Qed.

Lemma memory_in_range mm pd history :
  output_in_range (fst (MemoryModel.analyze mm pd history)).
Proof.
  unfold MemoryModel.analyze.
  set (found := fired _).
  assert (Forall unit_interval (map fst found)) as Hall
    by (apply fired_unit, memory_checks_unit).
  destruct (map snd found) as [| first others] eqn:E; split;
    cbn [fst score confidence]; try (unfold unit_interval; lra).
  - apply py_max_unit, Hall.
  - apply Rmin_cap_unit; [lra |].
    match goal with |- 0 <= _ + INR ?n / 100 * _ => pose proof (pos_INR n) end. lra.
Qed.

(* ===================================================================== *)
(** ** A successful analysis *)
(* ===================================================================== *)

Lemma fdia_analyze_state fm pd history :
  snd (FDIADetectionModel.analyze fm pd history) = FDIADetectionModel._update_history fm pd.
Proof.
  unfold FDIADetectionModel.analyze.
  destruct (map snd (fired _)) as [| first others]; reflexivity.
Qed.

Lemma memory_analyze_state mm pd history :
  snd (MemoryModel.analyze mm pd history) = MemoryModel._update_memory mm pd.
Proof.
  unfold MemoryModel.analyze.
  destruct (map snd (fired _)) as [| first others]; reflexivity.
Qed.

Lemma analyze_Ok now s input_data pd pp' :
  DataPreprocessor.preprocess now (AIPipeline.preprocessor s) input_data = Ok (pd, pp') ->
  AIPipeline.analyze now s input_data
  = (AIPipeline._prepare_output s (outputs_of s pd pp')
       (FusionEngine.fuse (AIPipeline.fusion_engine s) (outputs_of s pd pp')) pd,
     next_state s pd pp').
Proof.
  intros H. unfold AIPipeline.analyze. rewrite H.
  unfold AIPipeline._execute_models, outputs_of, next_state. cbn [AIPipeline.preprocessor
    AIPipeline.fdia_model AIPipeline.behavior_model AIPipeline.memory_model
    AIPipeline.fusion_engine AIPipeline.analysis_count DataPreprocessor.get_history].
  rewrite <- fdia_analyze_state
    with (history := DataPreprocessor.telemetry_history pp').
  rewrite <- memory_analyze_state
    with (history := DataPreprocessor.telemetry_history pp').
  destruct (FDIADetectionModel.analyze _ _ _) as [fo fm'].
  destruct (BehaviorLearningModel.analyze _ _) as [bo bm'].
  destruct (MemoryModel.analyze _ _ _) as [mo mm'].
  reflexivity.
Qed.

Lemma get_decision_spec r :
  (AIEngineConfig.get_decision r = SAFE <-> r < 30/100)
  /\ (AIEngineConfig.get_decision r = WARNING <-> 30/100 <= r < 60/100)
  /\ (AIEngineConfig.get_decision r = CRITICAL <-> 60/100 <= r).
Proof.
  unfold AIEngineConfig.get_decision, AIEngineConfig.threshold_safe,
    AIEngineConfig.threshold_warning.
  by_cases_R; repeat split; intros; try discriminate; try reflexivity; lra.
Qed.

Lemma round3_thousandth (z : Z) : round3 (IZR z / 1000) = IZR z / 1000.
Proof. apply round3_eq. lra. Qed.

Lemma fuse_fields fe mo :
  FusionEngine.final_risk (FusionEngine.fuse fe mo)
  = round3 (FusionEngine._calculate_weighted_risk fe (by_model score mo))
  /\ FusionEngine.overall_confidence (FusionEngine.fuse fe mo)
     = round3 (FusionEngine._calculate_weighted_confidence fe (by_model confidence mo))
  /\ FusionEngine.decision (FusionEngine.fuse fe mo)
     = AIEngineConfig.get_decision
         (FusionEngine._calculate_weighted_risk fe (by_model score mo)).
Proof.
  unfold FusionEngine.fuse.
  destruct (FusionEngine._identify_primary_threat _); repeat split; reflexivity.
Qed.

(** The record built from in-range model outputs is graded. *)
Lemma prepare_output_graded s s0 mo pd :
  output_in_range (anomaly mo) -> output_in_range (fdia mo) ->
  output_in_range (physics mo) -> output_in_range (behavior mo) ->
  output_in_range (memory mo) ->
  graded s mo
    (AIPipeline._prepare_output s0 mo (FusionEngine.fuse (AIPipeline.fusion_engine s) mo) pd).
Proof.
  intros Ha Hf Hp Hb Hm. unfold graded, weighted_risk. cbv zeta.
  destruct (fuse_fields (AIPipeline.fusion_engine s) mo) as (Er & Ec & Ed).
  unfold AIPipeline._prepare_output.
  cbn [AIPipeline.model_outputs AIPipeline.final_risk AIPipeline.decision
       AIPipeline.confidence].
  rewrite Er, Ec, Ed.
  set (risk := FusionEngine._calculate_weighted_risk _ _).
  assert (unit_interval risk) as Hrisk by apply clamp01_unit.
  destruct (get_decision_spec risk) as (Hs & Hw & Hc).
  assert (round3 (30/100) = 30/100) as R30
    by (replace (30/100) with (IZR 300 / 1000) by lra; apply round3_thousandth).
  assert (round3 (60/100) = 60/100) as R60
    by (replace (60/100) with (IZR 600 / 1000) by lra; apply round3_thousandth).
  assert (forall t, round3 t = t -> round3 risk < t -> risk < t) as Lt.
  { intros t Ht Hlt. destruct (Rlt_le_dec risk t) as [L | G]; [exact L |].
    apply round3_mono in G. lra. }
  assert (forall t, round3 t = t -> t < round3 risk -> t < risk) as Gt.
  { intros t Ht Hlt. destruct (Rlt_le_dec t risk) as [L | G]; [exact L |].
    apply round3_mono in G. lra. }
  split; [reflexivity |].
  split.
  { refine (conj Ha (conj Hf (conj Hp (conj Hb (conj _ _))))).
    - exact (proj1 (proj1 Hm)).
    - exact (proj2 Hm). }
  split; [apply round3_unit, Hrisk |].
  split; [apply round3_unit, clamp01_unit |].
  split; [split; [reflexivity | apply round3_near] |].
  split; [exact Hs |]. split; [exact Hw |]. split; [exact Hc |].
  split; [| split].
  - intros H. apply Hs, (Lt _ R30 H).
  - intros [H1 H2]. apply Hw. split; [left; apply (Gt _ R30 H1) | apply (Lt _ R60 H2)].
  - intros H. apply Hc. left. apply (Gt _ R60 H).
Qed.

Lemma outputs_of_in_range s pd pp' :
  let mo := outputs_of s pd pp' in
  output_in_range (anomaly mo) /\ output_in_range (fdia mo)
  /\ output_in_range (physics mo) /\ output_in_range (behavior mo)
  /\ output_in_range (memory mo).
Proof.
  cbv zeta. unfold outputs_of. cbn [anomaly fdia physics behavior memory].
  repeat split;
    first [ apply anomaly_in_range | apply fdia_in_range | apply physics_in_range
          | apply behavior_in_range | apply memory_in_range ].
Qed.

Lemma analyze_graded now s input_data pd pp' :
  DataPreprocessor.preprocess now (AIPipeline.preprocessor s) input_data = Ok (pd, pp') ->
  graded s (outputs_of s pd pp') (fst (AIPipeline.analyze now s input_data)).
Proof.
  intros H. rewrite (analyze_Ok _ _ _ _ _ H). cbn [fst].
  destruct (outputs_of_in_range s pd pp') as (Ha & Hf & Hp & Hb & Hm).
  apply prepare_output_graded; assumption.
Qed.

Lemma get_decision_not_error r : AIEngineConfig.get_decision r <> ERROR.
Proof.
  unfold AIEngineConfig.get_decision.
  destruct (Rltb r _); [discriminate |]. destruct (Rltb r _); discriminate.
Qed.

Lemma analyze_cases now s input_data :
  (exists e,
     DataPreprocessor.preprocess now (AIPipeline.preprocessor s) input_data = Raise e
     /\ AIPipeline.analyze now s input_data = (AIPipeline._handle_error e input_data, s))
  \/ (exists pd pp',
        DataPreprocessor.preprocess now (AIPipeline.preprocessor s) input_data
        = Ok (pd, pp')
        /\ snd (AIPipeline.analyze now s input_data) = next_state s pd pp'
        /\ AIPipeline.decision (fst (AIPipeline.analyze now s input_data)) <> ERROR).
Proof.
  destruct (DataPreprocessor.preprocess now (AIPipeline.preprocessor s) input_data)
    as [[pd pp'] | e] eqn:E.
  - right. exists pd, pp'. split; [reflexivity |].
    rewrite (analyze_Ok _ _ _ _ _ E). split; [reflexivity |].
    unfold AIPipeline._prepare_output. cbn [fst AIPipeline.decision].
    destruct (fuse_fields (AIPipeline.fusion_engine s) (outputs_of s pd pp'))
      as (_ & _ & ->).
    apply get_decision_not_error.
  - left. exists e. split; [reflexivity | exact (analyze_preprocess_error _ _ _ _ E)].
Qed.

(** C1, as the code has it.  A returned record is either the ERROR record
    of an exception, with all scores 0, or the record of a completed
    analysis.  The latter carries the five model scores: those of the
    anomaly, FDIA, physics and behavior models in [0,1], that of the memory
    model not negative, each with a confidence in [0,1]; and a final risk
    and a confidence in [0,1].  The decision is taken on the weighted risk
    before it is rounded to three decimals: SAFE exactly when that risk is
    below 0.30, WARNING exactly when it is in [0.30, 0.60), CRITICAL exactly
    when it is at least 0.60.  The returned final risk is that risk
    rounded, within 0.0005 of it; so a final risk below 0.30 is SAFE, one
    strictly between 0.30 and 0.60 is WARNING, and one above 0.60 is
    CRITICAL. *)
Theorem C1_scores_in_range_and_decision_by_thresholds now s input_data :
  let out := fst (AIPipeline.analyze now s input_data) in
  (AIPipeline.decision out = ERROR -> exists e, is_error_record out input_data e)
  /\ (AIPipeline.decision out <> ERROR ->
      exists pd pp',
        DataPreprocessor.preprocess now (AIPipeline.preprocessor s) input_data
        = Ok (pd, pp')
        /\ graded s (outputs_of s pd pp') out).
Proof.
  cbv zeta.
  destruct (DataPreprocessor.preprocess now (AIPipeline.preprocessor s) input_data)
    as [[pd pp'] | e] eqn:E.
  - assert (graded s (outputs_of s pd pp') (fst (AIPipeline.analyze now s input_data)))
      as G.
    { rewrite (analyze_Ok _ _ _ _ _ E). cbn [fst].
      destruct (outputs_of_in_range s pd pp') as (Ha & Hf & Hp & Hb & Hm).
      apply prepare_output_graded; assumption. }
    split.
    + intros Herr. exfalso. revert Herr.
      rewrite (analyze_Ok _ _ _ _ _ E). unfold AIPipeline._prepare_output.
      cbn [fst AIPipeline.decision].
      destruct (fuse_fields (AIPipeline.fusion_engine s) (outputs_of s pd pp'))
        as (_ & _ & ->).
      apply get_decision_not_error.
    + intros _. exists pd, pp'. split; [reflexivity | exact G].
  - rewrite (analyze_preprocess_error _ _ _ _ E). cbn [fst]. split.
    + intros _. exists e. apply handle_error_is_error_record.
    + intros H. exfalso. apply H. reflexivity.
Qed.

Lemma C1_witness :
  let s := AIPipeline.init in
  let input_data := sample 1 50 100 "ON" (Some (TsIso noon)) in
  let out := fst (AIPipeline.analyze noon s input_data) in
  AIPipeline.decision out <> ERROR
  /\ exists pd pp',
       DataPreprocessor.preprocess noon (AIPipeline.preprocessor s) input_data
       = Ok (pd, pp')
       /\ graded s (outputs_of s pd pp') out.
Proof.
  cbv zeta.
  assert (AIPipeline.decision
            (fst (AIPipeline.analyze noon AIPipeline.init
                    (sample 1 50 100 "ON" (Some (TsIso noon))))) <> ERROR) as H.
  { destruct (analyze_cases noon AIPipeline.init
                (sample 1 50 100 "ON" (Some (TsIso noon))))
      as [(e & He & _) | (pd & pp' & _ & _ & Hd)]; [| exact Hd].
    change (AIPipeline.preprocessor AIPipeline.init) with DataPreprocessor.init in He.
    rewrite preprocess_quiet_sample in He. discriminate. }
  split; [exact H |].
  exact (proj2 (C1_scores_in_range_and_decision_by_thresholds noon AIPipeline.init
                  (sample 1 50 100 "ON" (Some (TsIso noon)))) H).
Defined.

(* ===================================================================== *)
(** ** Evaluating the models *)
(* ===================================================================== *)

Lemma fired_cons_pos c checks : 0 < fst c -> fired (c :: checks) = c :: fired checks.
Proof.
  intros H. unfold fired. rewrite filter_cons_True; [reflexivity |].
  apply Rgtb_gt. exact H.
Qed.

Lemma fired_cons_zero c checks : fst c <= 0 -> fired (c :: checks) = fired checks.
Proof.
  intros H. unfold fired. rewrite filter_cons_False; [reflexivity |].
  rewrite Rgtb_false by exact H. discriminate.
Qed.

Lemma fired_nil : fired [] = [].
Proof. reflexivity. Qed.

(** Closes a goal of real arithmetic over concrete numbers, absolute
    values included. *)
Ltac R_solve :=
  simpl; unfold Rabs;
  repeat match goal with |- context [Rcase_abs ?x] => destruct (Rcase_abs x) end;
  lra.

(** Decides the comparisons of the goal whose operands are concrete. *)
Ltac R_eval :=
  repeat match goal with
  | |- context [Rltb ?a ?b] =>
      first [ rewrite (Rltb_true a b) by R_solve | rewrite (Rltb_false a b) by R_solve ]
  | |- context [Rgtb ?a ?b] =>
      first [ rewrite (Rgtb_true a b) by R_solve | rewrite (Rgtb_false a b) by R_solve ]
  | |- context [Reqb ?a ?b] =>
      first [ rewrite (Reqb_true a b) by R_solve | rewrite (Reqb_false a b) by R_solve ]
  end.

(** The anomaly model is silent when every field sits on its rolling mean,
    or has no statistics yet. *)
Lemma anomaly_quiet pd stats :
  (forall field,
      (snd (stats field) = 0 \/ AnomalyDetectionModel.value_of field pd = fst (stats field))
      /\ (fst (stats field) = 0
          \/ AnomalyDetectionModel.value_of field pd = fst (stats field))) ->
  AnomalyDetectionModel.analyze pd stats
  = mkModelOutput 0 (95/100) [Lit "All parameters within normal statistical range"].
Proof.
  intros H.
  assert (forall field, AnomalyDetectionModel.check_field pd stats field = []) as Hf.
  { intros field. specialize (H field). unfold AnomalyDetectionModel.check_field.
    destruct (stats field) as [mean std_dev]. simpl in H. destruct H as [Hz Hd].
    assert (AnomalyDetectionModel._compute_z_score
              (AnomalyDetectionModel.value_of field pd) mean std_dev = 0) as ->.
    { unfold AnomalyDetectionModel._compute_z_score.
      destruct Hz as [-> | ->]; [rewrite Reqb_true by reflexivity; reflexivity |].
      destruct (Reqb std_dev 0); [reflexivity |].
      replace (mean - mean) with 0 by lra. rewrite Rabs_R0. unfold Rdiv. lra. }
    assert (AnomalyDetectionModel._compute_deviation_percentage
              (AnomalyDetectionModel.value_of field pd) mean = 0) as ->.
    { unfold AnomalyDetectionModel._compute_deviation_percentage.
      destruct Hd as [-> | ->]; [rewrite Reqb_true by reflexivity; reflexivity |].
      destruct (Reqb mean 0); [reflexivity |].
      replace (mean - mean) with 0 by lra. rewrite Rabs_R0. unfold Rdiv. lra. }
    unfold AnomalyDetectionModel._evaluate_anomaly,
      AIEngineConfig.z_score_threshold, AIEngineConfig.deviation_threshold.
    R_eval. reflexivity. }
  unfold AnomalyDetectionModel.analyze. simpl. rewrite !Hf. reflexivity.
Qed.

(** The FDIA model is silent on a short history when nothing moved. *)
Lemma fdia_quiet fm pd history :
  (length history < 5)%nat ->
  delta_voltage pd = 0 -> delta_frequency pd = 0 -> delta_power_flow pd = 0 ->
  fst (FDIADetectionModel.analyze fm pd history)
  = mkModelOutput 0 (85/100) [Lit "No FDIA indicators detected"].
Proof.
  intros Hlen Hv Hf Hp. unfold FDIADetectionModel.analyze.
  assert (FDIADetectionModel._check_correlation_mismatch pd history = (0, [])) as ->.
  { unfold FDIADetectionModel._check_correlation_mismatch.
    destruct (Nat.ltb_spec (length history) 5); [reflexivity | lia]. }
  assert (FDIADetectionModel._check_temporal_consistency pd = (0, [])) as ->.
  { unfold FDIADetectionModel._check_temporal_consistency. rewrite Hv, Hf, Hp, Rabs_R0.
    R_eval. reflexivity. }
  assert (FDIADetectionModel._check_multi_signal_coordination
            (FDIADetectionModel._update_history fm pd) pd = (0, [])) as ->.
  { unfold FDIADetectionModel._check_multi_signal_coordination.
    destruct (Nat.ltb _ 3); [reflexivity |]. rewrite Hv, Hp, Rabs_R0. R_eval. reflexivity. }
  rewrite !fired_cons_zero by (simpl; lra). reflexivity.
Qed.

(** The behavior model is silent on a first sample of a new model. *)
Lemma behavior_quiet bm pd :
  BehaviorLearningModel.timestamp_history bm = [] ->
  BehaviorLearningModel.switch_timestamps bm = [] ->
  breaker_changed pd = None ->
  fst (BehaviorLearningModel.analyze bm pd)
  = mkModelOutput 0 (75/100) [Lit "Normal operator behavior pattern"].
Proof.
  intros Ht Hs Hb. rewrite behavior_analyze_output. cbv zeta.
  unfold BehaviorLearningModel._check_replay_attack,
    BehaviorLearningModel._check_off_hours_operation,
    BehaviorLearningModel._check_excessive_switching,
    BehaviorLearningModel._check_rapid_commands,
    BehaviorLearningModel.get_breaker_changed.
  rewrite Ht, Hs, Hb. simpl.
  rewrite !fired_cons_zero by (simpl; lra). reflexivity.
Qed.

(** On short histories the memory model reports its signature check. *)
Lemma memory_short mm pd history :
  (length history < 10)%nat ->
  (length (MemoryModel.telemetry_memory mm) < 19)%nat ->
  score (fst (MemoryModel.analyze mm pd history))
  = fst (MemoryModel.first_match (MemoryModel._create_feature_vector pd)
           (MemoryModel.attack_signatures mm)).
Proof.
  intros Hh Hm. unfold MemoryModel.analyze.
  assert (MemoryModel._check_pattern_repetition pd history = (0, [])) as ->.
  { unfold MemoryModel._check_pattern_repetition.
    destruct (Nat.ltb_spec (length history) 10); [reflexivity | lia]. }
  assert (MemoryModel._check_baseline_deviation (MemoryModel._update_memory mm pd) pd
          = (0, [])) as ->.
  { unfold MemoryModel._check_baseline_deviation, MemoryModel._update_memory.
    cbn [MemoryModel.telemetry_memory].
    assert (length (append_bounded AIEngineConfig.history_size
                      (MemoryModel.telemetry_memory mm)
                      (mkVFP (voltage pd) (frequency pd) (power_flow pd))) < 20)%nat as Hl.
    { unfold append_bounded, AIEngineConfig.history_size. rewrite length_app. simpl.
      destruct (Nat.ltb_spec 100 (length (MemoryModel.telemetry_memory mm) + 1)); [lia |].
      rewrite length_app. simpl. lia. }
    destruct (Nat.ltb_spec
                (length (append_bounded AIEngineConfig.history_size
                           (MemoryModel.telemetry_memory mm)
                           (mkVFP (voltage pd) (frequency pd) (power_flow pd)))) 20);
      [reflexivity | lia]. }
  unfold MemoryModel._check_attack_signatures, MemoryModel._update_memory.
  cbn [MemoryModel.attack_signatures].
  set (m := MemoryModel.first_match _ _).
  pose proof (first_match_unit (MemoryModel._create_feature_vector pd)
                (MemoryModel.attack_signatures mm)) as [H0 _]. fold m in H0.
  destruct (Rle_lt_or_eq_dec 0 (fst m) H0) as [Hpos | Hz].
  - rewrite fired_cons_pos by exact Hpos.
    rewrite !fired_cons_zero by (simpl; lra). reflexivity.
  - rewrite !fired_cons_zero by (simpl; lra). simpl. exact Hz.
Qed.

Lemma preprocess_first_OFF now v f p ts :
  DataPreprocessor.preprocess now DataPreprocessor.init (sample v f p "OFF" ts)
  = Ok (first_preprocessed now v f p OFF ts, after_first now v f p OFF ts).
Proof. reflexivity. Qed.

Lemma preprocess_first_ON now v f p ts :
  DataPreprocessor.preprocess now DataPreprocessor.init (sample v f p "ON" ts)
  = Ok (first_preprocessed now v f p ON ts, after_first now v f p ON ts).
Proof. reflexivity. Qed.

(** The weighted sum under the configured weights. *)
Lemma weighted_sum_init a f p b m :
  FusionEngine.weighted_sum FusionEngine.init
    [("anomaly", a); ("fdia", f); ("physics", p); ("behavior", b); ("memory", m)]
  = 15/100 * a + 35/100 * f + 25/100 * p + 10/100 * b + 15/100 * m.
Proof.
  unfold FusionEngine.weighted_sum, FusionEngine.weight, FusionEngine.init,
    AIEngineConfig.FUSION_WEIGHTS. cbn [fold_left fst snd FusionEngine.weights].
  repeat (rewrite lookup_insert_eq || rewrite lookup_insert_ne by done).
  simpl. lra.
Qed.

(** The cosine similarity of two vectors of three components, through
    the squares of its numerator and denominator. *)
Lemma cosine3_eq a b c x y z :
  0 < a * a + b * b + c * c -> 0 < x * x + y * y + z * z ->
  MemoryModel._cosine_similarity [a; b; c] [x; y; z]
  = (a * x + b * y + c * z)
    / (sqrt (a * a + b * b + c * c) * sqrt (x * x + y * y + z * z)).
Proof.
  intros Hu Hv. unfold MemoryModel._cosine_similarity.
  cbn [length Nat.eqb negb combine map fst snd]. rewrite !Rsum_cons, !Rsum_nil.
  replace (a * a + (b * b + (c * c + 0))) with (a * a + b * b + c * c) by lra.
  replace (x * x + (y * y + (z * z + 0))) with (x * x + y * y + z * z) by lra.
  replace (a * x + (b * y + (c * z + 0))) with (a * x + b * y + c * z) by lra.
  pose proof (sqrt_lt_R0 _ Hu). pose proof (sqrt_lt_R0 _ Hv).
  rewrite !Reqb_false by lra. reflexivity.
Qed.

Lemma cosine3_gt a b c x y z t :
  0 <= t -> 0 < a * a + b * b + c * c -> 0 < x * x + y * y + z * z ->
  0 < a * x + b * y + c * z ->
  t * t * ((a * a + b * b + c * c) * (x * x + y * y + z * z))
    < (a * x + b * y + c * z) * (a * x + b * y + c * z) ->
  t < MemoryModel._cosine_similarity [a; b; c] [x; y; z].
Proof.
  intros Ht Hu Hv Hd Hsq. rewrite cosine3_eq by assumption.
  set (su := a * a + b * b + c * c) in *. set (sv := x * x + y * y + z * z) in *.
  set (dot := a * x + b * y + c * z) in *.
  pose proof (sqrt_lt_R0 _ Hu) as Pu. pose proof (sqrt_lt_R0 _ Hv) as Pv.
  pose proof (sqrt_sqrt su (Rlt_le _ _ Hu)) as Su.
  pose proof (sqrt_sqrt sv (Rlt_le _ _ Hv)) as Sv.
  assert (0 < sqrt su * sqrt sv) as Hm by (apply Rmult_lt_0_compat; assumption).
  apply (Rmult_lt_reg_r (sqrt su * sqrt sv)); [exact Hm |].
  unfold Rdiv. rewrite Rmult_assoc, Rinv_l, Rmult_1_r by lra.
  destruct (Rlt_le_dec (t * (sqrt su * sqrt sv)) dot) as [L | G]; [exact L | exfalso].
  assert (dot * dot <= t * (sqrt su * sqrt sv) * (t * (sqrt su * sqrt sv))) by nra.
  assert (t * (sqrt su * sqrt sv) * (t * (sqrt su * sqrt sv)) = t * t * (su * sv)) by nra.
  lra.
Qed.

Lemma cosine3_le a b c x y z t :
  0 <= t -> 0 < a * a + b * b + c * c -> 0 < x * x + y * y + z * z ->
  (a * x + b * y + c * z) * (a * x + b * y + c * z)
    <= t * t * ((a * a + b * b + c * c) * (x * x + y * y + z * z)) ->
  MemoryModel._cosine_similarity [a; b; c] [x; y; z] <= t.
Proof.
  intros Ht Hu Hv Hsq. rewrite cosine3_eq by assumption.
  set (su := a * a + b * b + c * c) in *. set (sv := x * x + y * y + z * z) in *.
  set (dot := a * x + b * y + c * z) in *.
  pose proof (sqrt_lt_R0 _ Hu) as Pu. pose proof (sqrt_lt_R0 _ Hv) as Pv.
  pose proof (sqrt_sqrt su (Rlt_le _ _ Hu)) as Su.
  pose proof (sqrt_sqrt sv (Rlt_le _ _ Hv)) as Sv.
  assert (0 < sqrt su * sqrt sv) as Hm by (apply Rmult_lt_0_compat; assumption).
  apply (Rmult_le_reg_r (sqrt su * sqrt sv)); [exact Hm |].
  unfold Rdiv. rewrite Rmult_assoc, Rinv_l, Rmult_1_r by lra.
  destruct (Rle_lt_dec dot (t * (sqrt su * sqrt sv))) as [L | G]; [exact L | exfalso].
  assert (0 <= t * (sqrt su * sqrt sv)) by (apply Rmult_le_pos; lra).
  assert (t * (sqrt su * sqrt sv) * (t * (sqrt su * sqrt sv)) < dot * dot) by nra.
  assert (t * (sqrt su * sqrt sv) * (t * (sqrt su * sqrt sv)) = t * t * (su * sv)) by nra.
  lra.
Qed.

(* ===================================================================== *)
(** ** Scenario B on a new pipeline *)
(* ===================================================================== *)

Lemma scenario_B_anomaly now ts :
  AnomalyDetectionModel.analyze (first_preprocessed now 1 50 50 OFF ts)
    (fun field => DataPreprocessor.get_rolling_statistics
                    (after_first now 1 50 50 OFF ts) field AIEngineConfig.rolling_window)
  = mkModelOutput 0 (95/100) [Lit "All parameters within normal statistical range"].
Proof. apply anomaly_quiet. intros field. simpl. auto. Qed.

Lemma scenario_B_physics now ts :
  score (PhysicsValidationModel.analyze (first_preprocessed now 1 50 50 OFF ts)) = 1.
Proof.
  unfold PhysicsValidationModel.analyze,
    PhysicsValidationModel._check_breaker_power_consistency,
    PhysicsValidationModel._check_voltage_bounds,
    PhysicsValidationModel._check_frequency_bounds,
    PhysicsValidationModel._check_power_voltage_causality,
    PhysicsValidationModel._check_physical_impossibilities,
    AIEngineConfig.breaker_off_power_tolerance, AIEngineConfig.voltage_min,
    AIEngineConfig.voltage_max, AIEngineConfig.frequency_min,
    AIEngineConfig.frequency_max.
  cbn [first_preprocessed voltage frequency power_flow breaker_status delta_voltage
       delta_power_flow delta_frequency delta_time Breaker_eqb].
  R_eval. cbn [andb orb].
  rewrite fired_cons_pos by (simpl; lra).
  rewrite !fired_cons_zero by (simpl; lra). reflexivity.
Qed.

Lemma scenario_B_memory now ts :
  91/100 < score (fst (MemoryModel.analyze MemoryModel.init
                         (first_preprocessed now 1 50 50 OFF ts)
                         (DataPreprocessor.telemetry_history
                            (after_first now 1 50 50 OFF ts))))
         <= 9166/10000.
Proof.
  rewrite memory_short by (simpl; lia).
  unfold MemoryModel._create_feature_vector, AIEngineConfig.feature_weight_voltage,
    AIEngineConfig.feature_weight_frequency, AIEngineConfig.feature_weight_power_flow.
  cbn [get_voltage get_frequency get_power_flow Preprocessed_VFP first_preprocessed
       voltage frequency power_flow MemoryModel.attack_signatures MemoryModel.init
       MemoryModel._initialize_attack_signatures MemoryModel.first_match
       MemoryModel.sig_vector].
  set (sim := MemoryModel._cosine_similarity _ [35/100; 105/100; 45/100]).
  assert (91/100 < sim) as Hlo by (apply cosine3_gt; lra).
  assert (sim <= 9166/10000) as Hhi by (apply cosine3_le; lra).
  unfold AIEngineConfig.similarity_threshold.
  rewrite (Rgtb_true sim) by lra. cbn [fst]. lra.
Qed.

Lemma scenario_B_scores now ts :
  let mo := outputs_of AIPipeline.init (first_preprocessed now 1 50 50 OFF ts)
              (after_first now 1 50 50 OFF ts) in
  exists m,
    91/100 < m <= 9166/10000
    /\ by_model score mo
       = [("anomaly", 0); ("fdia", 0); ("physics", 1); ("behavior", 0); ("memory", m)]
    /\ weighted_risk AIPipeline.init mo = 25/100 + 15/100 * m.
Proof.
  cbv zeta.
  set (pd := first_preprocessed now 1 50 50 OFF ts).
  set (pp' := after_first now 1 50 50 OFF ts).
  set (m := score (fst (MemoryModel.analyze MemoryModel.init pd
                          (DataPreprocessor.telemetry_history pp')))).
  pose proof (scenario_B_memory now ts) as Hm. fold pd pp' m in Hm.
  assert (by_model score (outputs_of AIPipeline.init pd pp')
          = [("anomaly", 0); ("fdia", 0); ("physics", 1); ("behavior", 0); ("memory", m)])
    as Hscores.
  { unfold by_model, outputs_of. cbn [anomaly fdia physics behavior memory].
    subst pd pp'. rewrite scenario_B_anomaly, scenario_B_physics.
    rewrite fdia_quiet by (simpl; (lia || reflexivity)).
    rewrite behavior_quiet by reflexivity. reflexivity. }
  exists m. split; [exact Hm | split; [exact Hscores |]].
  unfold weighted_risk, FusionEngine._calculate_weighted_risk. rewrite Hscores.
  change (AIPipeline.fusion_engine AIPipeline.init) with FusionEngine.init.
  rewrite weighted_sum_init. rewrite clamp01_id by (unfold unit_interval; lra). lra.
Qed.



(* ===================================================================== *)
(** ** A risk that rounds up to the threshold *)
(* ===================================================================== *)

Lemma edge_first_state :
  snd (AIPipeline.analyze noon AIPipeline.init edge_sample)
  = next_state AIPipeline.init
      (first_preprocessed noon edge_voltage 50 200 ON (Some (TsIso noon)))
      (after_first noon edge_voltage 50 200 ON (Some (TsIso noon))).
Proof.
  unfold edge_sample.
  rewrite (analyze_Ok noon AIPipeline.init _ _ _ (preprocess_first_ON noon _ _ _ _)).
  reflexivity.
Qed.

Lemma edge_second_preprocess :
  DataPreprocessor.preprocess noon
    (after_first noon edge_voltage 50 200 ON (Some (TsIso noon))) edge_sample
  = Ok (edge_repeated,
        DataPreprocessor.mk (Some (mkTelemetry edge_voltage 50 200 ON (TsIso noon)))
          [mkHistoryEntry edge_voltage 50 200 (TsIso noon);
           mkHistoryEntry edge_voltage 50 200 (TsIso noon)]).
Proof. reflexivity. Qed.

Lemma edge_physics :
  score (PhysicsValidationModel.analyze edge_repeated) = 881/1050.
Proof.
  unfold PhysicsValidationModel.analyze,
    PhysicsValidationModel._check_breaker_power_consistency,
    PhysicsValidationModel._check_voltage_bounds,
    PhysicsValidationModel._check_frequency_bounds,
    PhysicsValidationModel._check_power_voltage_causality,
    PhysicsValidationModel._check_physical_impossibilities,
    AIEngineConfig.breaker_off_power_tolerance, AIEngineConfig.voltage_min,
    AIEngineConfig.voltage_max, AIEngineConfig.frequency_min,
    AIEngineConfig.frequency_max.
  cbn [edge_repeated voltage frequency power_flow breaker_status delta_voltage
       delta_power_flow delta_frequency delta_time Breaker_eqb]. unfold edge_voltage.
  R_eval. cbn [andb orb].
  rewrite fired_cons_zero by (simpl; lra).
  rewrite fired_cons_pos
    by (cbn [fst]; unfold Rmin; destruct (Rle_dec _ _); lra).
  rewrite !fired_cons_zero by (simpl; lra). cbn [fired_nil map fst snd py_max max_from].
  rewrite fired_nil. cbn [map fst snd py_max max_from score].
  unfold Rmin. destruct (Rle_dec _ _); lra.
Qed.

Lemma edge_behavior :
  score (fst (BehaviorLearningModel.analyze
                (snd (BehaviorLearningModel.analyze BehaviorLearningModel.init
                        (first_preprocessed noon edge_voltage 50 200 ON
                           (Some (TsIso noon)))))
                edge_repeated))
  = 9/10.
Proof.
  rewrite behavior_analyze_state, behavior_analyze_output. cbv zeta.
  unfold BehaviorLearningModel._check_replay_attack,
    BehaviorLearningModel._check_off_hours_operation,
    BehaviorLearningModel._check_excessive_switching,
    BehaviorLearningModel._check_rapid_commands,
    BehaviorLearningModel.get_breaker_changed, pruned_switch_timestamps,
    AIEngineConfig.replay_time_tolerance.
  simpl. R_eval. simpl.
  rewrite fired_cons_pos by (simpl; lra).
  rewrite !fired_cons_zero by (simpl; lra). reflexivity.
Qed.

Lemma edge_memory :
  score (fst (MemoryModel.analyze
                (MemoryModel._update_memory MemoryModel.init
                   (first_preprocessed noon edge_voltage 50 200 ON (Some (TsIso noon))))
                edge_repeated
                [mkHistoryEntry edge_voltage 50 200 (TsIso noon);
                 mkHistoryEntry edge_voltage 50 200 (TsIso noon)]))
  = 0.
Proof.
  rewrite memory_short by (simpl; lia).
  unfold MemoryModel._create_feature_vector, AIEngineConfig.feature_weight_voltage,
    AIEngineConfig.feature_weight_frequency, AIEngineConfig.feature_weight_power_flow,
    AIEngineConfig.similarity_threshold.
  cbn [get_voltage get_frequency get_power_flow Preprocessed_VFP edge_repeated
       voltage frequency power_flow MemoryModel.attack_signatures MemoryModel.init
       MemoryModel._update_memory MemoryModel._initialize_attack_signatures
       MemoryModel.first_match MemoryModel.sig_vector].
  unfold edge_voltage, AIEngineConfig.similarity_threshold.
  rewrite !Rgtb_false by (apply cosine3_le; lra). reflexivity.
Qed.

(** C1, as stated, fails at the threshold.  The sample [edge_sample] sent
    twice to a new pipeline is accepted both times; the second analysis has
    physics score 881/1050 and behavior score 0.9 (a replay), hence a
    weighted risk of about 0.29976: the decision is SAFE and the returned
    final risk, rounded to three decimals, is 0.30. *)
Lemma C1_final_risk_at_threshold_is_safe :
  let s1 := snd (AIPipeline.analyze noon AIPipeline.init edge_sample) in
  let out := fst (AIPipeline.analyze noon s1 edge_sample) in
  accepted edge_sample
  /\ AIPipeline.final_risk out = 30/100
  /\ AIPipeline.decision out = SAFE
  /\ ~ (AIPipeline.decision out = WARNING <-> 30/100 <= AIPipeline.final_risk out < 60/100).
Proof.
  cbv zeta. rewrite edge_first_state.
  set (pd1 := first_preprocessed noon edge_voltage 50 200 ON (Some (TsIso noon))).
  set (pp1 := after_first noon edge_voltage 50 200 ON (Some (TsIso noon))).
  set (s1 := next_state AIPipeline.init pd1 pp1).
  pose proof (analyze_graded noon s1 edge_sample _ _ edge_second_preprocess) as G.
  set (out := fst (AIPipeline.analyze noon s1 edge_sample)) in *.
  set (mo := outputs_of s1 edge_repeated _) in G.
  assert (by_model score mo
          = [("anomaly", 0); ("fdia", 0); ("physics", 881/1050); ("behavior", 9/10);
             ("memory", 0)]) as Hscores.
  { unfold by_model, mo, outputs_of, s1, next_state.
    cbn [anomaly fdia physics behavior memory AIPipeline.fdia_model
         AIPipeline.behavior_model AIPipeline.memory_model AIPipeline.fusion_engine
         DataPreprocessor.telemetry_history].
    rewrite anomaly_quiet
      by (intros field; split; right; destruct field; simpl; unfold Rsum; simpl; lra).
    rewrite fdia_quiet by (simpl; (lia || lra)).
    change AIPipeline.init with
      (AIPipeline.mk DataPreprocessor.init FDIADetectionModel.init
         BehaviorLearningModel.init MemoryModel.init FusionEngine.init 0).
    cbn [AIPipeline.behavior_model AIPipeline.memory_model].
    subst pd1. rewrite edge_physics, edge_behavior, edge_memory. reflexivity. }
  assert (weighted_risk s1 mo = 25/100 * (881/1050) + 9/100) as Hrisk.
  { unfold weighted_risk, FusionEngine._calculate_weighted_risk. rewrite Hscores.
    change (AIPipeline.fusion_engine s1) with FusionEngine.init.
    rewrite weighted_sum_init. rewrite clamp01_id by (unfold unit_interval; lra). lra. }
  destruct G as (_ & _ & _ & _ & (Gr & _) & Gsafe & _).
  rewrite Hrisk in Gr, Gsafe.
  assert (AIPipeline.final_risk out = 30/100) as Hf.
  { rewrite Gr. replace (30/100) with (IZR 300 / 1000) by lra. apply round3_eq. lra. }
  assert (AIPipeline.decision out = SAFE) as Hd by (apply Gsafe; lra).
  split; [eexists; reflexivity | split; [exact Hf | split; [exact Hd |]]].
  intros [_ Hw]. rewrite Hd, Hf in Hw. assert (SAFE = WARNING) by (apply Hw; lra).
  discriminate.
Qed.

(* ===================================================================== *)
(** ** Timestamps and the clock *)
(* ===================================================================== *)

Lemma validate_input_timestamp d validated :
  DataPreprocessor._validate_input (Dict d) = Ok validated ->
  v_timestamp validated = raw_timestamp d.
Proof.
  simpl. destruct (negb _); [discriminate |]. unfold_bind.
  destruct (DataPreprocessor.numeric_field (raw_voltage d) _); [| discriminate].
  destruct (DataPreprocessor.numeric_field (raw_frequency d) _); [| discriminate].
  destruct (DataPreprocessor.numeric_field (raw_power_flow d) _); [| discriminate].
  destruct (DataPreprocessor.breaker_field _); [| discriminate].
  intros [= <-]. reflexivity.
Qed.

(** On a clash of timestamps the subtraction of the two datetimes raises,
    before [_compute_deltas] stores the sample. *)
Lemma preprocess_clash_raises now pp input_data validated :
  DataPreprocessor._validate_input input_data = Ok validated ->
  timestamp_clash pp
    (t_timestamp (DataPreprocessor._handle_missing_fields now validated)) ->
  exists e, DataPreprocessor.preprocess now pp input_data = Raise e.
Proof.
  intros Hv (last & cur & lt & Hlast & Hcur & Hlt & Hne).
  unfold DataPreprocessor.preprocess. unfold_bind. rewrite Hv.
  unfold DataPreprocessor._normalize_values, DataPreprocessor._compute_deltas.
  rewrite Hlast. unfold_bind. rewrite Hcur, Hlt.
  unfold datetime_sub. destruct (Bool.eqb (dt_aware cur) (dt_aware lt)) eqn:Eb.
  - apply Bool.eqb_prop in Eb. contradiction.
  - eexists. reflexivity.
Qed.

(** A sample whose timestamp clashes with the stored one is answered with
    the ERROR record, and the pipeline stays as it was: nothing of the
    sample is stored, and the analysis is not counted. *)
Lemma timestamp_clash_ends_in_error now s input_data validated :
  DataPreprocessor._validate_input input_data = Ok validated ->
  timestamp_clash (AIPipeline.preprocessor s)
    (t_timestamp (DataPreprocessor._handle_missing_fields now validated)) ->
  (exists e, is_error_record (fst (AIPipeline.analyze now s input_data)) input_data e)
  /\ AIPipeline.decision (fst (AIPipeline.analyze now s input_data)) = ERROR
  /\ snd (AIPipeline.analyze now s input_data) = s.
Proof.
  intros Hv Hclash.
  destruct (preprocess_clash_raises now _ input_data validated Hv Hclash) as [e He].
  rewrite (analyze_preprocess_error _ _ _ _ He). cbn [fst snd].
  split; [exists e; apply handle_error_is_error_record |].
  split; reflexivity.
Qed.

Lemma timestamp_clash_ends_in_error_witness :
  let s1 :=
    next_state AIPipeline.init
      (first_preprocessed noon 1 50 100 ON (Some (TsIso noon_utc)))
      (after_first noon 1 50 100 ON (Some (TsIso noon_utc))) in
  let input_data := sample 1 50 100 "ON" None in
  (exists e, is_error_record (fst (AIPipeline.analyze noon s1 input_data)) input_data e)
  /\ AIPipeline.decision (fst (AIPipeline.analyze noon s1 input_data)) = ERROR
  /\ snd (AIPipeline.analyze noon s1 input_data) = s1.
Proof.
  cbv zeta.
  apply (timestamp_clash_ends_in_error noon _ (sample 1 50 100 "ON" None)
           (mkValidated (Some 1) (Some 50) (Some 100) (Some ON) None None)).
  - reflexivity.
  - exists (mkTelemetry 1 50 100 ON (TsIso noon_utc)), noon, noon_utc.
    repeat split. simpl. discriminate.
Defined.

(** An accepted input can still end in the ERROR record: a sample without
    a timestamp (the naive current time is used) after a sample whose
    timestamp carries a UTC offset. *)
Lemma accepted_input_can_end_in_error :
  let s1 := snd (AIPipeline.analyze noon AIPipeline.init
                   (sample 1 50 100 "ON" (Some (TsIso noon_utc)))) in
  accepted (sample 1 50 100 "ON" None)
  /\ AIPipeline.decision (fst (AIPipeline.analyze noon s1 (sample 1 50 100 "ON" None)))
     = ERROR.
Proof.
  cbv zeta. split; [eexists; reflexivity |].
  rewrite (analyze_Ok noon AIPipeline.init _ _ _ (preprocess_first_ON noon _ _ _ _)).
  reflexivity.
Qed.

Lemma preprocess_clock_independent now1 now2 pp d dt :
  raw_timestamp d = Some (TsIso dt) ->
  DataPreprocessor.preprocess now1 pp (Dict d) = DataPreprocessor.preprocess now2 pp (Dict d).
Proof.
  intros Hts. unfold DataPreprocessor.preprocess. unfold_bind.
  destruct (DataPreprocessor._validate_input (Dict d)) as [validated |] eqn:Ev;
    [| reflexivity].
  apply validate_input_timestamp in Ev.
  unfold DataPreprocessor._handle_missing_fields,
    DataPreprocessor._extract_temporal_features.
  rewrite Ev, Hts. reflexivity.
Qed.

(** C7, as the code has it.  [analyze] is a function of the raw input, the
    pipeline and the reading of the clock.  For an input whose timestamp
    parses the clock is not consulted: the returned record and the pipeline
    after the call are the same whatever the time of the call. *)
Theorem C7_result_is_clock_independent_when_timestamp_parses now1 now2 s d dt :
  raw_timestamp d = Some (TsIso dt) ->
  AIPipeline.analyze now1 s (Dict d) = AIPipeline.analyze now2 s (Dict d).
Proof.
  intros Hts. unfold AIPipeline.analyze.
  rewrite (preprocess_clock_independent now1 now2 _ d dt Hts). reflexivity.
Qed.

Lemma C7_witness :
  AIPipeline.analyze noon AIPipeline.init
    (Dict (mkRawInput (Some (PyNum 1)) (Some (PyNum 50)) (Some (PyNum 100))
             (Some (PyStr "ON")) (Some (TsIso noon)) None))
  = AIPipeline.analyze minute_later AIPipeline.init
      (Dict (mkRawInput (Some (PyNum 1)) (Some (PyNum 50)) (Some (PyNum 100))
               (Some (PyStr "ON")) (Some (TsIso noon)) None)).
Proof.
  apply (C7_result_is_clock_independent_when_timestamp_parses noon minute_later
           AIPipeline.init _ noon).
  reflexivity.
Defined.

Lemma analyze_behavior_score now s input_data pd pp' :
  DataPreprocessor.preprocess now (AIPipeline.preprocessor s) input_data = Ok (pd, pp') ->
  AIPipeline.model_outputs (fst (AIPipeline.analyze now s input_data)) !! 3%nat
  = Some ("behavior",
          score (fst (BehaviorLearningModel.analyze (AIPipeline.behavior_model s) pd))).
Proof. intros H. rewrite (analyze_Ok _ _ _ _ _ H). reflexivity. Qed.

(** The behavior model after the first sample at [noon]. *)
Lemma behavior_after_first_sample v f p b :
  snd (BehaviorLearningModel.analyze BehaviorLearningModel.init
         (first_preprocessed noon v f p b (Some (TsIso noon))))
  = BehaviorLearningModel.mk
      [BehaviorLearningModel.mkCommand 0 12 b false] [0] 0 [].
Proof. rewrite behavior_analyze_state. reflexivity. Qed.

(** C7, as stated, fails when the timestamp is missing.  After one sample
    stamped [noon], the same pipeline given the same sample without a
    timestamp answers with a behavior score of 0.9 (a replay) when the
    clock still reads [noon], and of 0 a minute later; the pipelines after
    the two calls differ as well. *)
Lemma C7_clock_decides_the_result :
  let s := snd (AIPipeline.analyze noon AIPipeline.init
                  (sample 1 50 100 "ON" (Some (TsIso noon)))) in
  let input_data := sample 1 50 100 "ON" None in
  AIPipeline.model_outputs (fst (AIPipeline.analyze noon s input_data)) !! 3%nat
    = Some ("behavior", 9/10)
  /\ AIPipeline.model_outputs (fst (AIPipeline.analyze minute_later s input_data)) !! 3%nat
    = Some ("behavior", 0)
  /\ fst (AIPipeline.analyze noon s input_data)
     <> fst (AIPipeline.analyze minute_later s input_data)
  /\ snd (AIPipeline.analyze noon s input_data)
     <> snd (AIPipeline.analyze minute_later s input_data).
Proof.
  cbv zeta.
  rewrite (analyze_Ok noon AIPipeline.init _ _ _ (preprocess_first_ON noon _ _ _ _)).
  cbn [snd].
  set (s := next_state AIPipeline.init _ _).
  assert (AIPipeline.behavior_model s
          = BehaviorLearningModel.mk
              [BehaviorLearningModel.mkCommand 0 12 ON false] [0] 0 []) as Hbm
    by apply behavior_after_first_sample.
  assert (AIPipeline.model_outputs
            (fst (AIPipeline.analyze noon s (sample 1 50 100 "ON" None))) !! 3%nat
          = Some ("behavior", 9/10)) as H1.
  { erewrite analyze_behavior_score by reflexivity. rewrite Hbm.
    rewrite behavior_analyze_output. cbv zeta.
    unfold BehaviorLearningModel._check_replay_attack,
      BehaviorLearningModel._check_off_hours_operation,
      BehaviorLearningModel._check_excessive_switching,
      BehaviorLearningModel._check_rapid_commands,
      BehaviorLearningModel.get_breaker_changed, AIEngineConfig.replay_time_tolerance.
    simpl. R_eval. simpl.
    rewrite fired_cons_pos by (simpl; lra).
    rewrite !fired_cons_zero by (simpl; lra). reflexivity. }
  assert (AIPipeline.model_outputs
            (fst (AIPipeline.analyze minute_later s (sample 1 50 100 "ON" None))) !! 3%nat
          = Some ("behavior", 0)) as H2.
  { erewrite analyze_behavior_score by reflexivity. rewrite Hbm.
    rewrite behavior_analyze_output. cbv zeta.
    unfold BehaviorLearningModel._check_replay_attack,
      BehaviorLearningModel._check_off_hours_operation,
      BehaviorLearningModel._check_excessive_switching,
      BehaviorLearningModel._check_rapid_commands,
      BehaviorLearningModel.get_breaker_changed, AIEngineConfig.replay_time_tolerance,
      AIEngineConfig.command_interval_min.
    simpl. R_eval. simpl.
    rewrite !fired_cons_zero by (simpl; lra). reflexivity. }
  split; [exact H1 | split; [exact H2 | split]].
  - intros Heq. rewrite Heq, H2 in H1. injection H1 as H1. lra.
  - erewrite (analyze_Ok noon s), (analyze_Ok minute_later s) by reflexivity.
    cbn [snd]. intros Heq.
    apply (f_equal AIPipeline.preprocessor) in Heq.
    apply (f_equal DataPreprocessor.last_telemetry) in Heq.
    cbn in Heq. injection Heq as Heq. lra.
Qed.

(* ===================================================================== *)
(** ** Reset *)
(* ===================================================================== *)

Lemma after_samples_reachable n : AIPipeline.reachable (after_samples n).
Proof.
  induction n as [| n IH]; simpl; [apply AIPipeline.reach_init |].
  apply AIPipeline.reach_analyze. exact IH.
Qed.

(** A toggle one second after the stored sample. *)
Lemma preprocess_toggle pp k :
  DataPreprocessor.last_telemetry pp
  = Some (mkTelemetry 1 50 100 (parity k) (TsIso (naive 12 2 (INR k)))) ->
  exists pd pp',
    DataPreprocessor.preprocess noon pp (toggle_sample (S k)) = Ok (pd, pp')
    /\ DataPreprocessor.last_telemetry pp'
       = Some (mkTelemetry 1 50 100 (parity (S k)) (TsIso (naive 12 2 (INR (S k)))))
    /\ breaker_changed pd = Some true
    /\ timestamp_unix pd = INR (S k).
Proof.
  destruct pp as [last history]. cbn [DataPreprocessor.last_telemetry]. intros ->.
  unfold toggle_sample, parity. rewrite Nat.even_succ, <- Nat.negb_even.
  destruct (Nat.even k); cbn [negb breaker_name];
    (eexists; eexists; split; [reflexivity | repeat split; reflexivity]).
Qed.

Lemma after_samples_state k :
  (k < 3600)%nat ->
  DataPreprocessor.last_telemetry (AIPipeline.preprocessor (after_samples (S k)))
  = Some (mkTelemetry 1 50 100 (parity k) (TsIso (naive 12 2 (INR k))))
  /\ BehaviorLearningModel.switch_timestamps
       (AIPipeline.behavior_model (after_samples (S k)))
     = map INR (seq 1 k).
Proof.
  induction k as [| k IH]; intros Hk.
  - change (after_samples 1)
      with (snd (AIPipeline.analyze noon AIPipeline.init (toggle_sample 0))).
    unfold toggle_sample, parity. cbn [Nat.even breaker_name].
    rewrite (analyze_Ok noon AIPipeline.init _ _ _ (preprocess_first_ON noon _ _ _ _)).
    cbn [snd next_state AIPipeline.preprocessor AIPipeline.behavior_model].
    rewrite behavior_analyze_state. split; reflexivity.
  - destruct (IH ltac:(lia)) as [Hlast Hsw].
    change (after_samples (S (S k)))
      with (snd (AIPipeline.analyze noon (after_samples (S k)) (toggle_sample (S k)))).
    set (s := after_samples (S k)) in *.
    destruct (preprocess_toggle _ k Hlast) as (pd & pp' & Hpre & Hlast' & Hch & Hts).
    rewrite (analyze_Ok _ _ _ _ _ Hpre).
    cbn [snd next_state AIPipeline.preprocessor AIPipeline.behavior_model].
    split; [exact Hlast' |].
    rewrite behavior_analyze_state.
    cbn [BehaviorLearningModel.switch_timestamps]. unfold pruned_switch_timestamps.
    unfold BehaviorLearningModel.get_breaker_changed. rewrite Hch, Hts, Hsw.
    cbn [default]. rewrite (seq_S k 1), map_app. cbn [map Nat.add]. apply filter_all.
    assert (INR (S k) < 3600) as Hlt.
    { replace 3600 with (INR 3600) by (rewrite INR_IZR_INZ; reflexivity).
      apply lt_INR. lia. }
    apply Forall_app. split.
    + apply Forall_forall. intros x Hx. apply list_elem_of_In, in_map_iff in Hx.
      destruct Hx as (i & <- & _). pose proof (pos_INR i). lra.
    + constructor; [lra | constructor].
Qed.

Lemma reset_used_behavior :
  AIPipeline.behavior_model (AIPipeline.reset (after_samples 12))
  = BehaviorLearningModel.mk [] []
      (BehaviorLearningModel.switch_count (AIPipeline.behavior_model (after_samples 12)))
      (map INR (seq 1 11)).
Proof.
  unfold AIPipeline.reset. cbn [AIPipeline.behavior_model].
  destruct (after_samples_state 11 ltac:(lia)) as [_ ->]. reflexivity.
Qed.

(** The excessive-switching check on a model that kept eleven toggles of
    the last seconds. *)
Lemma behavior_score_after_reset n :
  score (fst (BehaviorLearningModel.analyze
                (BehaviorLearningModel.mk [] [] n (map INR (seq 1 11)))
                (first_preprocessed noon 1 50 100 ON (Some (TsIso (naive 12 2 12))))))
  = 11/20.
Proof.
  rewrite behavior_analyze_output. cbv zeta.
  unfold BehaviorLearningModel._check_replay_attack,
    BehaviorLearningModel._check_off_hours_operation,
    BehaviorLearningModel._check_excessive_switching,
    BehaviorLearningModel._check_rapid_commands,
    BehaviorLearningModel.get_breaker_changed.
  cbn [BehaviorLearningModel.timestamp_history BehaviorLearningModel.switch_timestamps
       existsb first_preprocessed breaker_changed default timestamp_unix
       DataPreprocessor._extract_temporal_features DataPreprocessor.tf_timestamp_unix
       t_timestamp naive dt_timestamp andb].
  rewrite filter_Rgtb, filter_all.
  2:{ apply Forall_forall. intros x Hx. apply list_elem_of_In, in_map_iff in Hx.
      destruct Hx as (i & <- & _). pose proof (pos_INR i). simpl. lra. }
  rewrite length_map, length_seq.
  cbn [Nat.ltb Nat.leb AIEngineConfig.max_switches_per_hour fst].
  rewrite !fired_cons_zero by (simpl; lra).
  assert (Rmin 1 (INR 11 / INR (AIEngineConfig.max_switches_per_hour * 2)) = 11/20) as E.
  { unfold AIEngineConfig.max_switches_per_hour. simpl.
    unfold Rmin. destruct (Rle_dec _ _); lra. }
  rewrite fired_cons_pos by (cbn [fst]; rewrite E; lra).
  rewrite !fired_cons_zero by (simpl; lra). rewrite fired_nil.
  cbn [map fst snd py_max max_from score]. exact E.
Qed.

(** C5.  After twelve samples that toggle the breaker once a second,
    [reset] leaves the eleven toggle timestamps in the behavior model.  The
    next sample, twelve seconds after the first, then gets a behavior score
    of 0.55 (excessive switching), where a new pipeline gives it 0: the
    outputs of the reset pipeline and of a new one differ. *)
Theorem C5_reset_keeps_the_toggle_timestamps :
  let used := after_samples 12 in
  AIPipeline.reachable used
  /\ BehaviorLearningModel.switch_timestamps
       (AIPipeline.behavior_model (AIPipeline.reset used))
     = map INR (seq 1 11)
  /\ AIPipeline.model_outputs (fst (AIPipeline.analyze noon (AIPipeline.reset used) probe))
       !! 3%nat = Some ("behavior", 11/20)
  /\ AIPipeline.model_outputs (fst (AIPipeline.analyze noon AIPipeline.init probe))
       !! 3%nat = Some ("behavior", 0)
  /\ fst (AIPipeline.run (AIPipeline.reset used) [(noon, probe)])
     <> fst (AIPipeline.run AIPipeline.init [(noon, probe)]).
Proof.
  cbv zeta.
  assert (AIPipeline.model_outputs
            (fst (AIPipeline.analyze noon (AIPipeline.reset (after_samples 12)) probe))
            !! 3%nat = Some ("behavior", 11/20)) as H1.
  { unfold probe.
    rewrite (analyze_behavior_score noon (AIPipeline.reset (after_samples 12)) _ _ _
               (preprocess_first_ON noon _ _ _ _)).
    rewrite reset_used_behavior, behavior_score_after_reset. reflexivity. }
  assert (AIPipeline.model_outputs (fst (AIPipeline.analyze noon AIPipeline.init probe))
            !! 3%nat = Some ("behavior", 0)) as H2.
  { unfold probe.
    rewrite (analyze_behavior_score noon AIPipeline.init _ _ _
               (preprocess_first_ON noon _ _ _ _)).
    rewrite behavior_quiet by reflexivity. reflexivity. }
  split; [apply after_samples_reachable |].
  split; [rewrite reset_used_behavior; reflexivity |].
  split; [exact H1 | split; [exact H2 |]].
  cbn [AIPipeline.run].
  destruct (AIPipeline.analyze noon (AIPipeline.reset (after_samples 12)) probe)
    as [out1 s1].
  destruct (AIPipeline.analyze noon AIPipeline.init probe) as [out2 s2].
  cbn [fst] in *. intros [= Heq]. rewrite Heq, H2 in H1. injection H1 as H1. lra.
Qed.

(** What [reset] does restore: a pipeline whose toggle list is empty, with
    the configured weights and signatures, is a new pipeline after the
    reset, and answers every sequence as a new pipeline does. *)
Lemma reset_without_toggles_is_new s :
  BehaviorLearningModel.switch_timestamps (AIPipeline.behavior_model s) = [] ->
  BehaviorLearningModel.switch_count (AIPipeline.behavior_model s) = 0%nat ->
  AIPipeline.fusion_engine s = FusionEngine.init ->
  MemoryModel.attack_signatures (AIPipeline.memory_model s)
  = MemoryModel._initialize_attack_signatures ->
  AIPipeline.reset s = AIPipeline.init
  /\ forall samples,
       AIPipeline.run (AIPipeline.reset s) samples = AIPipeline.run AIPipeline.init samples.
Proof.
  intros Hsw Hc Hfe Hsig.
  assert (AIPipeline.reset s = AIPipeline.init) as E.
  { unfold AIPipeline.reset. rewrite Hsw, Hc, Hfe, Hsig. reflexivity. }
  split; [exact E | intros samples; rewrite E; reflexivity].
Qed.

Lemma reset_without_toggles_is_new_witness :
  AIPipeline.reset
    (snd (AIPipeline.analyze noon AIPipeline.init (sample 1 50 100 "ON" (Some (TsIso noon)))))
  = AIPipeline.init
  /\ forall samples,
       AIPipeline.run
         (AIPipeline.reset
            (snd (AIPipeline.analyze noon AIPipeline.init
                    (sample 1 50 100 "ON" (Some (TsIso noon))))))
         samples
       = AIPipeline.run AIPipeline.init samples.
Proof.
  apply (reset_without_toggles_is_new
           (snd (AIPipeline.analyze noon AIPipeline.init
                   (sample 1 50 100 "ON" (Some (TsIso noon))))));
    rewrite (analyze_Ok noon AIPipeline.init _ _ _ (preprocess_first_ON noon _ _ _ _));
    cbn [snd next_state AIPipeline.behavior_model AIPipeline.fusion_engine
         AIPipeline.memory_model];
    try rewrite behavior_analyze_state; reflexivity.
Defined.

Lemma complete_update_keeps_weight_sum_witness :
  five_weight_sum (FusionEngine.mk (complete_weights (2/10) (2/10) (2/10) (2/10) (2/10)
                                      ∪ FusionEngine.weights FusionEngine.init))
  = 2/10 + 2/10 + 2/10 + 2/10 + 2/10
  /\ weights_normalized
       (FusionEngine.mk (complete_weights (2/10) (2/10) (2/10) (2/10) (2/10)
                           ∪ FusionEngine.weights FusionEngine.init)).
Proof.
  apply (complete_update_keeps_weight_sum FusionEngine.init _
           (2/10) (2/10) (2/10) (2/10) (2/10)).
  apply update_weights_accepts. rewrite weight_sum_complete.
  replace (2/10 + 2/10 + 2/10 + 2/10 + 2/10 - 1) with 0 by lra.
  rewrite Rabs_R0. lra.
Defined.

(** A strictly larger final risk never carries a lower decision. *)
Lemma decision_non_decreasing s1 mo1 out1 s2 mo2 out2 :
  graded s1 mo1 out1 -> graded s2 mo2 out2 ->
  AIPipeline.final_risk out1 < AIPipeline.final_risk out2 ->
  (decision_rank (AIPipeline.decision out1) <= decision_rank (AIPipeline.decision out2))%nat.
Proof.
  intros (_ & _ & _ & _ & (Hr1 & _) & Hs1 & Hw1 & Hc1 & _)
         (_ & _ & _ & _ & (Hr2 & _) & Hs2 & Hw2 & Hc2 & _) Hlt.
  set (r1 := weighted_risk s1 mo1) in *. set (r2 := weighted_risk s2 mo2) in *.
  assert (r1 < r2) as Hr.
  { destruct (Rlt_le_dec r1 r2) as [L | G]; [exact L |].
    apply round3_mono in G. lra. }
  assert (AIPipeline.decision out1 = SAFE \/ AIPipeline.decision out1 = WARNING
          \/ AIPipeline.decision out1 = CRITICAL) as D1.
  { destruct (Rlt_le_dec r1 (30/100)); [left; apply Hs1; assumption |].
    destruct (Rlt_le_dec r1 (60/100)); [right; left; apply Hw1; lra |].
    right; right; apply Hc1; assumption. }
  assert (AIPipeline.decision out2 = SAFE \/ AIPipeline.decision out2 = WARNING
          \/ AIPipeline.decision out2 = CRITICAL) as D2.
  { destruct (Rlt_le_dec r2 (30/100)); [left; apply Hs2; assumption |].
    destruct (Rlt_le_dec r2 (60/100)); [right; left; apply Hw2; lra |].
    right; right; apply Hc2; assumption. }
  destruct D1 as [E1 | [E1 | E1]], D2 as [E2 | [E2 | E2]];
    rewrite E1, E2; simpl; try lia; exfalso;
    first [ apply Hs1 in E1 | apply Hw1 in E1 | apply Hc1 in E1 ];
    first [ apply Hs2 in E2 | apply Hw2 in E2 | apply Hc2 in E2 ]; lra.
Qed.

(** C6, as stated, fails on the toggle list.  A sample that does not
    change the breaker is appended to the timestamp history and not to the
    toggle list; and after 52 samples that toggle the breaker once a second
    the toggle list holds 51 entries, one more than the capacity. *)
Lemma C6_toggle_list_is_not_a_bounded_fifo :
  (BehaviorLearningModel.timestamp_history
     (snd (BehaviorLearningModel.analyze BehaviorLearningModel.init quiet_sample))
   = [timestamp_unix quiet_sample]
   /\ BehaviorLearningModel.switch_timestamps
        (snd (BehaviorLearningModel.analyze BehaviorLearningModel.init quiet_sample))
      = [])
  /\ AIPipeline.reachable (after_samples 52)
  /\ length (BehaviorLearningModel.switch_timestamps
               (AIPipeline.behavior_model (after_samples 52))) = 51%nat.
Proof.
  split; [rewrite behavior_analyze_state; split; reflexivity |].
  split; [apply after_samples_reachable |].
  destruct (after_samples_state 51 ltac:(lia)) as [_ ->].
  rewrite length_map, length_seq. reflexivity.
Qed.

(* ===================================================================== *)
(** ** Further properties: preprocessing *)
(* ===================================================================== *)

(** The record and the preprocessor a successful [preprocess] returns. *)
Lemma preprocess_Ok_explicit now pp input_data pd pp' :
  DataPreprocessor.preprocess now pp input_data = Ok (pd, pp') ->
  exists validated deltas,
    DataPreprocessor._validate_input input_data = Ok validated
    /\ DataPreprocessor._compute_deltas pp
         (DataPreprocessor._handle_missing_fields now validated)
       = Ok (deltas,
             DataPreprocessor.mk
               (Some (DataPreprocessor._handle_missing_fields now validated))
               (DataPreprocessor.telemetry_history pp))
    /\ pd = (let c := DataPreprocessor._handle_missing_fields now validated in
             let temporal := DataPreprocessor._extract_temporal_features now c in
             mkPreprocessed (t_voltage c) (t_frequency c) (t_power_flow c)
               (t_breaker_status c) (t_timestamp c)
               (DataPreprocessor.normalize_value (t_voltage c) (8/10) (12/10))
               (DataPreprocessor.normalize_value (t_frequency c) 49 51)
               (DataPreprocessor.normalize_value (t_power_flow c) 0 200)
               (DataPreprocessor.tf_hour temporal)
               (DataPreprocessor.tf_day_of_week temporal)
               (DataPreprocessor.tf_is_weekend temporal)
               (DataPreprocessor.tf_is_night temporal)
               (DataPreprocessor.tf_timestamp_unix temporal)
               (DataPreprocessor.d_voltage deltas) (DataPreprocessor.d_frequency deltas)
               (DataPreprocessor.d_power_flow deltas) (DataPreprocessor.d_time deltas)
               (DataPreprocessor.merged_breaker_changed validated deltas))
    /\ pp' = (let c := DataPreprocessor._handle_missing_fields now validated in
              DataPreprocessor.mk (Some c)
                (append_bounded AIEngineConfig.history_size
                   (DataPreprocessor.telemetry_history pp)
                   (mkHistoryEntry (t_voltage c) (t_frequency c) (t_power_flow c)
                      (t_timestamp c)))).
Proof.
  unfold DataPreprocessor.preprocess. unfold_bind.
  destruct (DataPreprocessor._validate_input input_data) as [validated |]; [| discriminate].
  unfold DataPreprocessor._normalize_values.
  destruct (DataPreprocessor._compute_deltas pp _) as [[deltas pp1] |] eqn:Ed;
    [| discriminate].
  intros [= <- <-]. exists validated, deltas.
  assert (pp1 = DataPreprocessor.mk
                  (Some (DataPreprocessor._handle_missing_fields now validated))
                  (DataPreprocessor.telemetry_history pp)) as ->.
  { unfold DataPreprocessor._compute_deltas in Ed. unfold_bind.
    destruct (DataPreprocessor.last_telemetry pp) as [last |].
    - destruct (match t_timestamp _ with TsIso _ => _ | TsOther _ => _ end);
        [injection Ed as _ <-; reflexivity | discriminate].
    - injection Ed as _ <-. reflexivity. }
  repeat split; first [exact Ed | reflexivity].
Qed.

Lemma normalize_value_unit value min_val max_val :
  min_val < max_val ->
  unit_interval (DataPreprocessor.normalize_value value min_val max_val).
Proof.
  intros H. unfold DataPreprocessor.normalize_value, unit_interval.
  assert (min_val <= Rmax min_val (Rmin max_val value) <= max_val) as [H1 H2].
  { unfold Rmax, Rmin. destruct (Rle_dec max_val value); destruct (Rle_dec min_val _); lra. }
  assert (0 < max_val - min_val) as Hd by lra.
  split.
  - apply Rmult_le_pos; [lra | left; apply Rinv_0_lt_compat; exact Hd].
  - apply (Rmult_le_reg_r (max_val - min_val)); [exact Hd |].
    unfold Rdiv. rewrite Rmult_assoc, Rinv_l by lra. lra.
Qed.

(** Every successful [preprocess] returns normalized values in [0,1]:
    the value is clamped into its configured range and rescaled, so a
    voltage at or below 0.8 gives 0 and one at or above 1.2 gives 1. *)
Theorem preprocess_normalized_in_range now pp input_data pd pp' :
  DataPreprocessor.preprocess now pp input_data = Ok (pd, pp') ->
  unit_interval (voltage_norm pd) /\ unit_interval (frequency_norm pd)
  /\ unit_interval (power_flow_norm pd)
  /\ (voltage pd <= 8/10 -> voltage_norm pd = 0)
  /\ (12/10 <= voltage pd -> voltage_norm pd = 1)
  /\ (8/10 <= voltage pd <= 12/10 -> voltage_norm pd = (voltage pd - 8/10) / (4/10)).
Proof.
  intros H. apply preprocess_Ok_explicit in H as (validated & deltas & _ & _ & -> & _).
  cbv zeta. cbn [voltage_norm frequency_norm power_flow_norm voltage].
  repeat split; try (apply normalize_value_unit; lra);
    unfold DataPreprocessor.normalize_value, Rmax, Rmin; intros Hv;
    destruct (Rle_dec _ _); destruct (Rle_dec _ _); try lra;
    unfold Rdiv; try (replace (12/10 - 8/10) with (4/10) by lra); try lra.
  all: try (replace (8/10 - 8/10) with 0 by lra; lra).
  all: try (apply Rinv_r; lra).
Qed.

Lemma preprocess_normalized_in_range_witness :
  unit_interval (voltage_norm quiet_sample) /\ unit_interval (frequency_norm quiet_sample)
  /\ unit_interval (power_flow_norm quiet_sample)
  /\ (voltage quiet_sample <= 8/10 -> voltage_norm quiet_sample = 0)
  /\ (12/10 <= voltage quiet_sample -> voltage_norm quiet_sample = 1)
  /\ (8/10 <= voltage quiet_sample <= 12/10 ->
      voltage_norm quiet_sample = (voltage quiet_sample - 8/10) / (4/10)).
Proof.
  exact (preprocess_normalized_in_range noon DataPreprocessor.init
           (sample 1 50 100 "ON" (Some (TsIso noon))) quiet_sample _
           preprocess_quiet_sample).
Defined.

Lemma validate_input_fields d validated :
  DataPreprocessor._validate_input (Dict d) = Ok validated ->
  default 1 (v_voltage validated) = number_or 1 (raw_voltage d)
  /\ default 50 (v_frequency validated) = number_or 50 (raw_frequency d)
  /\ default 0 (v_power_flow validated) = number_or 0 (raw_power_flow d)
  /\ default OFF (v_breaker_status validated) = breaker_or_off (raw_breaker_status d)
  /\ v_timestamp validated = raw_timestamp d.
Proof.
  simpl. destruct (negb _); [discriminate |]. unfold_bind.
  destruct (raw_voltage d) as [[x | x |] |]; simpl; try discriminate;
  destruct (raw_frequency d) as [[y | y |] |]; simpl; try discriminate;
  destruct (raw_power_flow d) as [[z | z |] |]; simpl; try discriminate;
  destruct (raw_breaker_status d) as [[b | b |] |]; simpl; try discriminate;
  try (destruct (String.eqb b "ON") eqn:E1; [| destruct (String.eqb b "OFF") eqn:E2];
       try discriminate);
  intros [= <-]; simpl; repeat split; reflexivity.
Qed.

(** A successful [preprocess] keeps every value the input carries and
    fills each absent key with its default: voltage 1.0, frequency 50.0,
    power flow 0.0, breaker OFF, and the current time as timestamp.  The
    temporal features are those of the timestamp when it parses and those
    of the current time when it does not. *)
Theorem preprocess_fills_defaults now pp d pd pp' :
  DataPreprocessor.preprocess now pp (Dict d) = Ok (pd, pp') ->
  voltage pd = number_or 1 (raw_voltage d)
  /\ frequency pd = number_or 50 (raw_frequency d)
  /\ power_flow pd = number_or 0 (raw_power_flow d)
  /\ breaker_status pd = breaker_or_off (raw_breaker_status d)
  /\ timestamp pd = default (TsIso now) (raw_timestamp d)
  /\ (forall dt, timestamp pd = TsIso dt ->
        hour pd = dt_hour dt /\ day_of_week pd = dt_weekday dt
        /\ timestamp_unix pd = dt_timestamp dt)
  /\ (forall v, timestamp pd = TsOther v ->
        hour pd = dt_hour now /\ day_of_week pd = dt_weekday now
        /\ timestamp_unix pd = dt_timestamp now).
Proof.
  intros H. apply preprocess_Ok_explicit in H as (validated & deltas & Hv & _ & -> & _).
  apply validate_input_fields in Hv as (H1 & H2 & H3 & H4 & H5).
  cbv zeta.
  cbn [voltage frequency power_flow breaker_status timestamp hour day_of_week
       timestamp_unix].
  unfold DataPreprocessor._handle_missing_fields, DataPreprocessor._extract_temporal_features,
    AIEngineConfig.default_voltage, AIEngineConfig.default_frequency,
    AIEngineConfig.default_power_flow.
  cbn [t_voltage t_frequency t_power_flow t_breaker_status t_timestamp
       DataPreprocessor.tf_hour DataPreprocessor.tf_day_of_week
       DataPreprocessor.tf_timestamp_unix].
  rewrite H1, H2, H3, H4, H5.
  repeat apply conj; try reflexivity; intros x Hx; rewrite Hx; repeat apply conj; reflexivity.
Qed.

Lemma preprocess_fills_defaults_witness :
  let d := mkRawInput (Some (PyNum 1)) None None None None None in
  exists pd pp',
    DataPreprocessor.preprocess noon DataPreprocessor.init (Dict d) = Ok (pd, pp')
    /\ voltage pd = number_or 1 (raw_voltage d)
    /\ frequency pd = number_or 50 (raw_frequency d)
    /\ power_flow pd = number_or 0 (raw_power_flow d)
    /\ breaker_status pd = breaker_or_off (raw_breaker_status d)
    /\ timestamp pd = default (TsIso noon) (raw_timestamp d)
    /\ (forall dt, timestamp pd = TsIso dt ->
          hour pd = dt_hour dt /\ day_of_week pd = dt_weekday dt
          /\ timestamp_unix pd = dt_timestamp dt)
    /\ (forall v, timestamp pd = TsOther v ->
          hour pd = dt_hour noon /\ day_of_week pd = dt_weekday noon
          /\ timestamp_unix pd = dt_timestamp noon).
Proof.
  cbv zeta. eexists. eexists. split; [reflexivity |].
  apply (preprocess_fills_defaults noon DataPreprocessor.init
           (mkRawInput (Some (PyNum 1)) None None None None None) _ _ eq_refl).
Defined.

(** After a stored sample, a successful [preprocess] reports the change
    from that sample: the three differences, whether the breaker status
    differs, and the seconds between the two timestamps when both parse
    (0 when one does not).  The sample then becomes the stored one. *)
Theorem preprocess_deltas_against_previous now pp input_data pd pp' last :
  DataPreprocessor.last_telemetry pp = Some last ->
  DataPreprocessor.preprocess now pp input_data = Ok (pd, pp') ->
  delta_voltage pd = voltage pd - t_voltage last
  /\ delta_frequency pd = frequency pd - t_frequency last
  /\ delta_power_flow pd = power_flow pd - t_power_flow last
  /\ breaker_changed pd
     = Some (negb (Breaker_eqb (breaker_status pd) (t_breaker_status last)))
  /\ (forall current_time last_time,
        timestamp pd = TsIso current_time -> t_timestamp last = TsIso last_time ->
        delta_time pd = dt_seconds current_time - dt_seconds last_time
        /\ dt_aware current_time = dt_aware last_time)
  /\ ((exists v, timestamp pd = TsOther v) \/ (exists v, t_timestamp last = TsOther v) ->
      delta_time pd = 0)
  /\ DataPreprocessor.last_telemetry pp'
     = Some (mkTelemetry (voltage pd) (frequency pd) (power_flow pd)
               (breaker_status pd) (timestamp pd)).
Proof.
  intros Hlast H.
  apply preprocess_Ok_explicit in H as (validated & deltas & _ & Hd & -> & ->).
  cbv zeta.
  set (c := DataPreprocessor._handle_missing_fields now validated) in *.
  cbn [delta_voltage delta_frequency delta_power_flow delta_time breaker_changed
       voltage frequency power_flow breaker_status timestamp
       DataPreprocessor.last_telemetry].
  unfold DataPreprocessor._compute_deltas in Hd. rewrite Hlast in Hd. unfold_bind.
  destruct (t_timestamp c) as [cur | cv] eqn:Ec;
    destruct (t_timestamp last) as [prev | pv] eqn:El.
  - unfold datetime_sub in Hd.
    destruct (Bool.eqb (dt_aware cur) (dt_aware prev)) eqn:Eb; [| discriminate].
    apply Bool.eqb_prop in Eb. injection Hd as <-.
    cbn [DataPreprocessor.d_voltage DataPreprocessor.d_frequency
         DataPreprocessor.d_power_flow DataPreprocessor.d_time
         DataPreprocessor.d_breaker_changed].
    repeat split; try reflexivity.
    + injection H as <-. injection H0 as <-. reflexivity.
    + injection H as <-. injection H0 as <-. exact Eb.
    + intros [[v [=]] | [v [=]]].
    + destruct c; simpl in *; subst; reflexivity.
  - injection Hd as <-.
    cbn [DataPreprocessor.d_voltage DataPreprocessor.d_frequency
         DataPreprocessor.d_power_flow DataPreprocessor.d_time
         DataPreprocessor.d_breaker_changed].
    repeat split; try reflexivity; try discriminate.
    destruct c; simpl in *; subst; reflexivity.
  - injection Hd as <-.
    cbn [DataPreprocessor.d_voltage DataPreprocessor.d_frequency
         DataPreprocessor.d_power_flow DataPreprocessor.d_time
         DataPreprocessor.d_breaker_changed].
    repeat split; try reflexivity; try discriminate.
    destruct c; simpl in *; subst; reflexivity.
  - injection Hd as <-.
    cbn [DataPreprocessor.d_voltage DataPreprocessor.d_frequency
         DataPreprocessor.d_power_flow DataPreprocessor.d_time
         DataPreprocessor.d_breaker_changed].
    repeat split; try reflexivity; try discriminate.
    destruct c; simpl in *; subst; reflexivity.
Qed.

Lemma preprocess_deltas_against_previous_witness :
  let last := mkTelemetry edge_voltage 50 200 ON (TsIso noon) in
  let pd := edge_repeated in
  let pp' :=
    DataPreprocessor.mk (Some last)
      [mkHistoryEntry edge_voltage 50 200 (TsIso noon);
       mkHistoryEntry edge_voltage 50 200 (TsIso noon)] in
  delta_voltage pd = voltage pd - t_voltage last
  /\ delta_frequency pd = frequency pd - t_frequency last
  /\ delta_power_flow pd = power_flow pd - t_power_flow last
  /\ breaker_changed pd
     = Some (negb (Breaker_eqb (breaker_status pd) (t_breaker_status last)))
  /\ (forall current_time last_time,
        timestamp pd = TsIso current_time -> t_timestamp last = TsIso last_time ->
        delta_time pd = dt_seconds current_time - dt_seconds last_time
        /\ dt_aware current_time = dt_aware last_time)
  /\ ((exists v, timestamp pd = TsOther v) \/ (exists v, t_timestamp last = TsOther v) ->
      delta_time pd = 0)
  /\ DataPreprocessor.last_telemetry pp'
     = Some (mkTelemetry (voltage pd) (frequency pd) (power_flow pd)
               (breaker_status pd) (timestamp pd)).
Proof.
  exact (preprocess_deltas_against_previous noon
           (after_first noon edge_voltage 50 200 ON (Some (TsIso noon)))
           edge_sample _ _ _ eq_refl edge_second_preprocess).
Defined.

(* ===================================================================== *)
(** ** Further properties: the checks that fire *)
(* ===================================================================== *)

Lemma max_from_top best xs :
  Forall (fun x => x <= best) xs -> max_from best xs = best.
Proof.
  induction 1 as [| x xs Hx _ IH]; simpl; [reflexivity |].
  rewrite Rltb_false by exact Hx. exact IH.
Qed.

Lemma max_from_ge best xs :
  best <= max_from best xs /\ Forall (fun x => x <= max_from best xs) xs.
Proof.
  revert best. induction xs as [| x xs IH]; intros best; simpl.
  - split; [lra | constructor].
  - destruct (IH (if Rltb best x then x else best)) as [H1 H2].
    destruct (Rltb best x) eqn:E;
      [apply Rltb_lt in E | apply Rltb_ge in E];
      (split; [lra | apply List.Forall_cons; [lra | exact H2]]).
Qed.

Lemma py_max_ge xs x : In x xs -> x <= py_max xs.
Proof.
  destruct xs as [| y ys]; simpl; [contradiction |].
  destruct (max_from_ge y ys) as [H1 H2].
  intros [<- | Hin]; [exact H1 |].
  rewrite List.Forall_forall in H2. exact (H2 _ Hin).
Qed.

Lemma py_max_in xs : xs <> [] -> In (py_max xs) xs.
Proof.
  destruct xs as [| y ys]; [contradiction |]. intros _. simpl.
  destruct (max_from_in y ys) as [-> | H]; auto.
Qed.

Lemma fired_pos checks c : In c (fired checks) -> 0 < fst c.
Proof.
  unfold fired. intros H. apply list_elem_of_In, list_elem_of_filter in H as [H _].
  apply Rgtb_gt in H. exact H.
Qed.

Lemma fired_nil_iff checks :
  fired checks = [] <-> Forall (fun c => fst c <= 0) checks.
Proof.
  induction checks as [| c checks IH].
  - split; [constructor | reflexivity].
  - destruct (Rle_lt_dec (fst c) 0) as [Hle | Hlt].
    + rewrite fired_cons_zero by exact Hle. rewrite IH. split.
      * intros H. apply List.Forall_cons; assumption.
      * intros H. inversion H; assumption.
    + rewrite fired_cons_pos by exact Hlt. split; [discriminate |].
      intros H. inversion H; lra.
Qed.

(** The largest score of the checks that fired is 0 exactly when no
    check fired. *)
Lemma py_max_fired_zero checks :
  py_max (map fst (fired checks)) = 0 <-> fired checks = [].
Proof.
  split; [| intros ->; reflexivity].
  intros H. destruct (fired checks) as [| c l] eqn:E; [reflexivity |].
  exfalso.
  assert (In (py_max (map fst (c :: l))) (map fst (c :: l))) as Hin
    by (apply py_max_in; discriminate).
  apply in_map_iff in Hin as (c' & Hc' & Hin).
  rewrite <- E in Hin. apply fired_pos in Hin. lra.
Qed.

Lemma py_max_fired_nonneg checks : 0 <= py_max (map fst (fired checks)).
Proof.
  destruct (fired checks) as [| c l] eqn:E; [simpl; lra |].
  assert (In (py_max (map fst (c :: l))) (map fst (c :: l))) as Hin
    by (apply py_max_in; discriminate).
  apply in_map_iff in Hin as (c' & Hc' & Hin).
  rewrite <- E in Hin. apply fired_pos in Hin. lra.
Qed.

Lemma physics_score_eq pd :
  score (PhysicsValidationModel.analyze pd)
  = py_max (map fst (fired
      [ PhysicsValidationModel._check_breaker_power_consistency pd;
        PhysicsValidationModel._check_voltage_bounds pd;
        PhysicsValidationModel._check_frequency_bounds pd;
        PhysicsValidationModel._check_power_voltage_causality pd;
        PhysicsValidationModel._check_physical_impossibilities pd ])).
Proof.
  unfold PhysicsValidationModel.analyze.
  destruct (fired _) as [| c l]; reflexivity.
Qed.

(** Power through an open breaker is the strongest physics violation:
    with the breaker OFF and more than 0.01 MW flowing, the physics model
    returns the score 1 with confidence 0.95, and its reason starts with
    the breaker violation whatever else is violated. *)
Theorem physics_open_breaker_scores_one pd :
  breaker_status pd = OFF -> 1/100 < Rabs (power_flow pd) ->
  score (PhysicsValidationModel.analyze pd) = 1
  /\ confidence (PhysicsValidationModel.analyze pd) = 95/100
  /\ exists rest,
       reason (PhysicsValidationModel.analyze pd)
       = [Lit "CRITICAL: Power flow "; Fixed 2 (power_flow pd);
          Lit " MW with breaker OFF"] ++ rest.
Proof.
  intros Hb Hp.
  pose proof (physics_checks_unit pd) as Hu.
  unfold PhysicsValidationModel.analyze.
  assert (PhysicsValidationModel._check_breaker_power_consistency pd
          = (1, [Lit "CRITICAL: Power flow "; Fixed 2 (power_flow pd);
                 Lit " MW with breaker OFF"])) as E1.
  { unfold PhysicsValidationModel._check_breaker_power_consistency,
      AIEngineConfig.breaker_off_power_tolerance.
    rewrite Hb, Rgtb_true by exact Hp. reflexivity. }
  rewrite E1 in *. rewrite fired_cons_pos by (simpl; lra).
  inversion Hu as [| c1 l1 _ Hu']; subst.
  apply fired_unit in Hu'.
  set (rest := fired _) in *.
  cbn [map fst snd score confidence reason py_max].
  split; [| split; [reflexivity |]].
  - apply max_from_top. eapply List.Forall_impl; [| exact Hu'].
    intros x Hx. apply Hx.
  - destruct (map snd rest); eexists; [symmetry; apply app_nil_r | reflexivity].
Qed.

Lemma physics_open_breaker_scores_one_witness :
  let pd := first_preprocessed noon 1 50 50 OFF None in
  score (PhysicsValidationModel.analyze pd) = 1
  /\ confidence (PhysicsValidationModel.analyze pd) = 95/100
  /\ exists rest,
       reason (PhysicsValidationModel.analyze pd)
       = [Lit "CRITICAL: Power flow "; Fixed 2 (power_flow pd);
          Lit " MW with breaker OFF"] ++ rest.
Proof.
  apply (physics_open_breaker_scores_one (first_preprocessed noon 1 50 50 OFF None)).
  - reflexivity.
  - simpl. rewrite Rabs_right; lra.
Defined.

(** The quick physics check and the physics model agree on the three
    rules they share: a reading the quick check rejects gets a positive
    physics score, and the physics score is 0 exactly when the quick
    check accepts the reading and neither the causality check nor the
    impossibility check fires. *)
Theorem quick_physics_check_agrees pd :
  let quick :=
    physics_model.quick_physics_check (voltage pd) (frequency pd) (power_flow pd)
      (breaker_name (breaker_status pd)) in
  (fst quick = false -> 0 < score (PhysicsValidationModel.analyze pd))
  /\ (score (PhysicsValidationModel.analyze pd) = 0
      <-> fst quick = true
          /\ fst (PhysicsValidationModel._check_power_voltage_causality pd) = 0
          /\ fst (PhysicsValidationModel._check_physical_impossibilities pd) = 0).
Proof.
  cbv zeta.
  pose proof (physics_checks_unit pd) as Hu.
  assert (score (PhysicsValidationModel.analyze pd) = 0
          <-> fst (physics_model.quick_physics_check (voltage pd) (frequency pd)
                     (power_flow pd) (breaker_name (breaker_status pd))) = true
              /\ fst (PhysicsValidationModel._check_power_voltage_causality pd) = 0
              /\ fst (PhysicsValidationModel._check_physical_impossibilities pd) = 0)
    as Hiff.
  { rewrite physics_score_eq, py_max_fired_zero, fired_nil_iff.
    inversion Hu as [| c1 l1 H1 Hu1]; subst.
    inversion Hu1 as [| c2 l2 H2 Hu2]; subst.
    inversion Hu2 as [| c3 l3 H3 Hu3]; subst.
    inversion Hu3 as [| c4 l4 H4 Hu4]; subst.
    inversion Hu4 as [| c5 l5 H5 _]; subst.
    assert (forall c : R * Text, unit_interval (fst c) -> (fst c <= 0 <-> fst c = 0))
      as Hz by (intros c [? ?]; split; lra).
    rewrite !List.Forall_cons_iff.
    rewrite (Hz _ H1), (Hz _ H2), (Hz _ H3), (Hz _ H4), (Hz _ H5).
    clear.
    unfold physics_model.quick_physics_check,
      PhysicsValidationModel._check_breaker_power_consistency,
      PhysicsValidationModel._check_voltage_bounds,
      PhysicsValidationModel._check_frequency_bounds,
      AIEngineConfig.breaker_off_power_tolerance, AIEngineConfig.voltage_min,
      AIEngineConfig.voltage_max, AIEngineConfig.frequency_min,
      AIEngineConfig.frequency_max.
    destruct (breaker_status pd); cbn [breaker_name String.eqb Ascii.eqb Bool.eqb
      Breaker_eqb andb orb fst];
      by_cases_R; cbn [andb orb fst]; unfold Rmin;
      repeat match goal with |- context [Rle_dec ?a ?b] => destruct (Rle_dec a b) end;
      split; intros H; decompose [and] H; repeat split;
      try reflexivity; try discriminate; try constructor; try lra. }
  split; [| exact Hiff].
  intros Hq.
  pose proof (physics_in_range pd) as [[H0 _] _].
  destruct (Req_dec (score (PhysicsValidationModel.analyze pd)) 0) as [E | E]; [| lra].
  apply Hiff in E as [E _]. rewrite E in Hq. discriminate.
Qed.

(* ===================================================================== *)
(** ** Further properties: the anomaly model *)
(* ===================================================================== *)

Lemma Rmin_1_half x : 1/2 < x -> 1/2 < Rmin 1 x <= 1.
Proof. intros H. unfold Rmin. destruct (Rle_dec 1 x); lra. Qed.

(** A field is either not anomalous or anomalous with a score above 1/2. *)
Lemma check_field_cases pd stats field :
  AnomalyDetectionModel.check_field pd stats field = []
  \/ exists s r,
       AnomalyDetectionModel.check_field pd stats field = [(s, r)] /\ 1/2 < s <= 1.
Proof.
  unfold AnomalyDetectionModel.check_field. destruct (stats field) as [mean std_dev].
  unfold AnomalyDetectionModel._evaluate_anomaly,
    AIEngineConfig.z_score_threshold, AIEngineConfig.deviation_threshold.
  by_cases_R; [right | right | left; reflexivity];
    eexists; eexists; (split; [reflexivity | apply Rmin_1_half; lra]).
Qed.

Lemma anomalies_above_half pd stats c :
  In c (flat_map (AnomalyDetectionModel.check_field pd stats)
          [Fvoltage; Ffrequency; Fpower_flow]) ->
  1/2 < fst c <= 1.
Proof.
  intros H. apply in_flat_map in H as (field & _ & H).
  destruct (check_field_cases pd stats field) as [E | (s & r & E & Hs)];
    rewrite E in H; [contradiction |].
  destruct H as [<- | []]. exact Hs.
Qed.

Lemma anomaly_output_cases pd stats :
  let anomalies :=
    flat_map (AnomalyDetectionModel.check_field pd stats)
      [Fvoltage; Ffrequency; Fpower_flow] in
  (anomalies = []
   /\ score (AnomalyDetectionModel.analyze pd stats) = 0
   /\ confidence (AnomalyDetectionModel.analyze pd stats) = 95/100)
  \/ (anomalies <> []
      /\ 1/2 < score (AnomalyDetectionModel.analyze pd stats) <= 1
      /\ 75/100 <= confidence (AnomalyDetectionModel.analyze pd stats) <= 95/100).
Proof.
  cbv zeta.
  pose proof (anomalies_above_half pd stats) as Hall.
  unfold AnomalyDetectionModel.analyze.
  destruct (flat_map _ _) as [| c l]; [left; repeat split; reflexivity | right].
  cbn [map score confidence].
  split; [discriminate | split].
  - assert (In (py_max (fst c :: map fst l)) (map fst (c :: l))) as Hin
      by (apply py_max_in; discriminate).
    apply in_map_iff in Hin as (c' & <- & Hin). exact (Hall c' Hin).
  - cbn [length]. rewrite S_INR.
    pose proof (pos_INR (length (map fst l))).
    unfold Rmin. destruct (Rle_dec _ _); lra.
Qed.

(** The anomaly model never reports a score in (0, 1/2]: either no field
    is anomalous, and it returns the score 0 with confidence 0.95, or its
    score is above 1/2 (and at most 1) with a confidence between 0.75 and
    0.95. *)
Theorem anomaly_score_is_zero_or_above_half pd stats :
  (score (AnomalyDetectionModel.analyze pd stats) = 0
   /\ confidence (AnomalyDetectionModel.analyze pd stats) = 95/100)
  \/ (1/2 < score (AnomalyDetectionModel.analyze pd stats) <= 1
      /\ 75/100 <= confidence (AnomalyDetectionModel.analyze pd stats) <= 95/100).
Proof.
  destruct (anomaly_output_cases pd stats) as [(_ & H) | (_ & H)];
    [left | right]; exact H.
Qed.

(** What the quick anomaly check flags, the anomaly model flags: when
    the z-score of a field against its rolling statistics exceeds the
    default threshold 2.5, the model's score is above 1/2. *)
Theorem quick_anomaly_check_is_flagged_by_the_model pd stats field :
  anomaly_model.quick_anomaly_check (AnomalyDetectionModel.value_of field pd)
    (fst (stats field)) (snd (stats field)) None = true ->
  1/2 < score (AnomalyDetectionModel.analyze pd stats) <= 1.
Proof.
  intros Hq.
  assert (exists s r, In (s, r) (AnomalyDetectionModel.check_field pd stats field))
    as (s & r & Hin).
  { revert Hq.
    unfold anomaly_model.quick_anomaly_check, AnomalyDetectionModel.check_field.
    destruct (stats field) as [mean std_dev]. cbn [fst snd default].
    unfold AnomalyDetectionModel._evaluate_anomaly,
      AnomalyDetectionModel._compute_z_score, AIEngineConfig.z_score_threshold.
    destruct (Reqb std_dev 0); [discriminate |].
    intros ->. eexists. eexists. left. reflexivity. }
  assert (In (s, r) (flat_map (AnomalyDetectionModel.check_field pd stats)
                       [Fvoltage; Ffrequency; Fpower_flow])) as Hflat.
  { apply in_flat_map. exists field.
    split; [destruct field; simpl; auto | exact Hin]. }
  destruct (anomaly_output_cases pd stats) as [(E & _) | (_ & H & _)]; [| exact H].
  rewrite E in Hflat. destruct Hflat.
Qed.

Lemma quick_anomaly_check_is_flagged_by_the_model_witness :
  1/2 < score (AnomalyDetectionModel.analyze
                 (first_preprocessed noon 2 50 100 ON None) (fun _ => (1, 1/10))) <= 1.
Proof.
  apply (quick_anomaly_check_is_flagged_by_the_model
           (first_preprocessed noon 2 50 100 ON None) (fun _ => (1, 1/10)) Fvoltage).
  unfold anomaly_model.quick_anomaly_check. cbn [fst snd default].
  rewrite Reqb_false by lra. apply Rgtb_true. simpl.
  replace (2 - 1) with 1 by lra. rewrite Rabs_R1. lra.
Defined.

(* ===================================================================== *)
(** ** Further properties: fusion with the configured weights *)
(* ===================================================================== *)

Lemma weighted_risk_init mo :
  FusionEngine._calculate_weighted_risk FusionEngine.init (by_model score mo)
  = clamp01 (15/100 * score (anomaly mo) + 35/100 * score (fdia mo)
             + 25/100 * score (physics mo) + 10/100 * score (behavior mo)
             + 15/100 * score (memory mo)).
Proof.
  unfold FusionEngine._calculate_weighted_risk, by_model.
  rewrite weighted_sum_init. reflexivity.
Qed.

Lemma clamp01_ge t x : 0 < t -> t <= clamp01 x -> t <= x.
Proof.
  unfold clamp01, Rmax, Rmin. intros Ht.
  destruct (Rle_dec 1 x); destruct (Rle_dec 0 _); lra.
Qed.

Lemma clamp01_le t x : 0 <= t -> x <= t -> clamp01 x <= t.
Proof.
  unfold clamp01, Rmax, Rmin. intros Ht.
  destruct (Rle_dec 1 x); destruct (Rle_dec 0 _); lra.
Qed.

Lemma clamp01_mono x y : x <= y -> clamp01 x <= clamp01 y.
Proof.
  unfold clamp01, Rmax, Rmin. intros H.
  destruct (Rle_dec 1 x); destruct (Rle_dec 1 y);
    repeat match goal with |- context [Rle_dec ?a ?b] => destruct (Rle_dec a b) end; lra.
Qed.

Lemma by_model_scores_unit mo :
  Forall (fun item => unit_interval (snd item)) (by_model score mo) ->
  unit_interval (score (anomaly mo)) /\ unit_interval (score (fdia mo))
  /\ unit_interval (score (physics mo)) /\ unit_interval (score (behavior mo))
  /\ unit_interval (score (memory mo)).
Proof.
  unfold by_model. intros H.
  repeat match goal with
         | H : Forall _ (_ :: _) |- _ => apply List.Forall_cons_iff in H as [? H]
         end.
  auto.
Qed.

(** The quick risk calculation raises nothing and gives the risk of a
    fusion engine with the configured weights: the engine's final risk is
    that value rounded to three decimals, and the engine's decision is
    the decision for that value. *)
Theorem quick_risk_calculation_agrees_with_fuse mo :
  exists risk,
    fusion_engine.quick_risk_calculation (score (anomaly mo)) (score (fdia mo))
      (score (physics mo)) (score (behavior mo)) (score (memory mo)) = Ok risk
    /\ FusionEngine.final_risk (FusionEngine.fuse FusionEngine.init mo) = round3 risk
    /\ FusionEngine.decision (FusionEngine.fuse FusionEngine.init mo)
       = AIEngineConfig.get_decision risk.
Proof.
  destruct (fuse_fields FusionEngine.init mo) as (Er & _ & Ed).
  rewrite Er, Ed, weighted_risk_init.
  eexists. split; [| split; reflexivity].
  unfold fusion_engine.quick_risk_calculation, fusion_engine.getitem,
    AIEngineConfig.FUSION_WEIGHTS.
  repeat (rewrite lookup_insert_eq || rewrite lookup_insert_ne by done).
  reflexivity.
Qed.

(** With the configured weights the risk is a weighted mean of the five
    scores, so a decision needs a strong primary threat: under a WARNING
    the reported primary threat score is at least 0.3, under a CRITICAL at
    least 0.6. *)
Theorem decision_needs_a_strong_primary_threat mo :
  Forall (fun item => unit_interval (snd item)) (by_model score mo) ->
  (FusionEngine.decision (FusionEngine.fuse FusionEngine.init mo) = WARNING ->
   3/10 <= FusionEngine.primary_threat_score (FusionEngine.fuse FusionEngine.init mo))
  /\ (FusionEngine.decision (FusionEngine.fuse FusionEngine.init mo) = CRITICAL ->
      6/10 <= FusionEngine.primary_threat_score (FusionEngine.fuse FusionEngine.init mo)).
Proof.
  intros Hu. apply by_model_scores_unit in Hu as (Ha & Hf & Hp & Hb & Hm).
  destruct (fuse_fields FusionEngine.init mo) as (_ & _ & Ed).
  rewrite Ed, weighted_risk_init.
  set (total := 15/100 * _ + _ + _ + _ + _).
  assert (FusionEngine.primary_threat_score (FusionEngine.fuse FusionEngine.init mo)
          = round3 (snd (FusionEngine._identify_primary_threat (by_model score mo))))
    as ->.
  { unfold FusionEngine.fuse.
    destruct (FusionEngine._identify_primary_threat (by_model score mo)); reflexivity. }
  set (top := snd (FusionEngine._identify_primary_threat (by_model score mo))).
  assert (score (anomaly mo) <= top /\ score (fdia mo) <= top
          /\ score (physics mo) <= top /\ score (behavior mo) <= top
          /\ score (memory mo) <= top) as (Ta & Tf & Tp & Tb & Tm).
  { subst top. unfold FusionEngine._identify_primary_threat, by_model.
    destruct (max_item_from_first_max
                [("fdia", score (fdia mo)); ("physics", score (physics mo));
                 ("behavior", score (behavior mo)); ("memory", score (memory mo))]
                ("anomaly", score (anomaly mo))) as (i & _ & Hle & _).
    repeat split.
    - exact (Hle 0%nat _ eq_refl).
    - exact (Hle 1%nat _ eq_refl).
    - exact (Hle 2%nat _ eq_refl).
    - exact (Hle 3%nat _ eq_refl).
    - exact (Hle 4%nat _ eq_refl). }
  unfold unit_interval in *.
  assert (total <= top) as Htop by (subst total; lra).
  assert (0 <= top) as Hpos by lra.
  assert (round3 (3/10) = 3/10) as R30
    by (replace (3/10) with (IZR 300 / 1000) by lra; apply round3_thousandth).
  assert (round3 (6/10) = 6/10) as R60
    by (replace (6/10) with (IZR 600 / 1000) by lra; apply round3_thousandth).
  destruct (get_decision_spec (clamp01 total)) as (_ & Hw & Hc).
  split.
  - intros H. apply Hw in H as [H _].
    rewrite <- R30. apply round3_mono.
    apply clamp01_ge in H; lra.
  - intros H. apply Hc in H.
    rewrite <- R60. apply round3_mono.
    apply clamp01_ge in H; lra.
Qed.

Lemma decision_needs_a_strong_primary_threat_witness :
  let quiet := mkModelOutput 0 1 [] in
  let mo := mkModelOutputs quiet (mkModelOutput 1 1 []) quiet quiet quiet in
  (FusionEngine.decision (FusionEngine.fuse FusionEngine.init mo) = WARNING ->
   3/10 <= FusionEngine.primary_threat_score (FusionEngine.fuse FusionEngine.init mo))
  /\ (FusionEngine.decision (FusionEngine.fuse FusionEngine.init mo) = CRITICAL ->
      6/10 <= FusionEngine.primary_threat_score (FusionEngine.fuse FusionEngine.init mo)).
Proof.
  apply (decision_needs_a_strong_primary_threat
           (mkModelOutputs (mkModelOutput 0 1 []) (mkModelOutput 1 1 [])
              (mkModelOutput 0 1 []) (mkModelOutput 0 1 []) (mkModelOutput 0 1 []))).
  unfold by_model, unit_interval. simpl.
  repeat first [apply List.Forall_nil | apply List.Forall_cons]; simpl; lra.
Defined.

(** With the configured weights no model decides alone.  A CRITICAL
    decision needs at least two models with a positive score; so does a
    WARNING, unless the FDIA model reports a score of at least 6/7.  A
    physics violation alone, whatever its score, leaves the decision
    SAFE. *)
Theorem one_model_alone_is_never_critical mo :
  Forall (fun item => unit_interval (snd item)) (by_model score mo) ->
  (FusionEngine.decision (FusionEngine.fuse FusionEngine.init mo) = CRITICAL ->
   (2 <= positive_scores mo)%nat)
  /\ (FusionEngine.decision (FusionEngine.fuse FusionEngine.init mo) = WARNING ->
      (2 <= positive_scores mo)%nat \/ 6/7 <= score (fdia mo))
  /\ (positive_scores mo = 1%nat -> 0 < score (physics mo) ->
      FusionEngine.decision (FusionEngine.fuse FusionEngine.init mo) = SAFE).
Proof.
  intros Hu. apply by_model_scores_unit in Hu as (Ha & Hf & Hp & Hb & Hm).
  destruct (fuse_fields FusionEngine.init mo) as (_ & _ & Ed).
  rewrite Ed, weighted_risk_init.
  set (total := 15/100 * _ + _ + _ + _ + _).
  destruct (get_decision_spec (clamp01 total)) as (Hs & Hw & Hc).
  assert (60/100 <= clamp01 total -> 60/100 <= total) as Gc
    by (apply clamp01_ge; lra).
  assert (30/100 <= clamp01 total -> 30/100 <= total) as Gw
    by (apply clamp01_ge; lra).
  assert (total < 30/100 -> clamp01 total < 30/100) as Gs.
  { intros H. destruct (Rlt_le_dec (clamp01 total) (30/100)) as [L | G]; [exact L |].
    apply Gw in G. lra. }
  unfold positive_scores, by_model, unit_interval in *.
  repeat (rewrite filter_cons; cbn [snd]).
  rewrite filter_nil.
  destruct (decide (0 < score (anomaly mo)));
    destruct (decide (0 < score (fdia mo)));
    destruct (decide (0 < score (physics mo)));
    destruct (decide (0 < score (behavior mo)));
    destruct (decide (0 < score (memory mo)));
    cbn [length];
    (split; [intros H; apply Hc in H; apply Gc in H; subst total;
               first [lia | exfalso; lra]
            | split; [intros H; apply Hw in H; destruct H as [H _]; apply Gw in H;
                        subst total;
                        first [left; lia | right; lra | exfalso; lra]
                     | intros H1 H2; first [discriminate H1 | exfalso; lra
                                           | apply Hs, Gs; subst total; lra]]]).
Qed.

Lemma one_model_alone_is_never_critical_witness :
  let quiet := mkModelOutput 0 1 [] in
  let mo := mkModelOutputs quiet quiet (mkModelOutput 1 1 []) quiet quiet in
  (FusionEngine.decision (FusionEngine.fuse FusionEngine.init mo) = CRITICAL ->
   (2 <= positive_scores mo)%nat)
  /\ (FusionEngine.decision (FusionEngine.fuse FusionEngine.init mo) = WARNING ->
      (2 <= positive_scores mo)%nat \/ 6/7 <= score (fdia mo))
  /\ (positive_scores mo = 1%nat -> 0 < score (physics mo) ->
      FusionEngine.decision (FusionEngine.fuse FusionEngine.init mo) = SAFE).
Proof.
  apply (one_model_alone_is_never_critical
           (mkModelOutputs (mkModelOutput 0 1 []) (mkModelOutput 0 1 [])
              (mkModelOutput 1 1 []) (mkModelOutput 0 1 []) (mkModelOutput 0 1 []))).
  unfold by_model, unit_interval. simpl.
  repeat first [apply List.Forall_nil | apply List.Forall_cons]; simpl; lra.
Defined.

(* ===================================================================== *)
(** ** Further properties: error records and the analysis counter *)
(* ===================================================================== *)

(** An error record is not counted as an analysis, and every other
    result counts as one.  So after any sequence of samples there is one
    result per sample, and the analysis counter has grown by the number of
    results that are not error records. *)
Theorem analysis_count_counts_the_results_without_error s samples :
  (forall now input_data,
     (AIPipeline.decision (fst (AIPipeline.analyze now s input_data)) = ERROR ->
      AIPipeline.analysis_count (snd (AIPipeline.analyze now s input_data))
      = AIPipeline.analysis_count s)
     /\ (AIPipeline.decision (fst (AIPipeline.analyze now s input_data)) <> ERROR ->
         AIPipeline.analysis_count (snd (AIPipeline.analyze now s input_data))
         = S (AIPipeline.analysis_count s)))
  /\ length (fst (AIPipeline.run s samples)) = length samples
  /\ AIPipeline.analysis_count (snd (AIPipeline.run s samples))
     = (AIPipeline.analysis_count s + analysed (fst (AIPipeline.run s samples)))%nat.
Proof.
  split.
  { intros now input_data.
    destruct (analyze_cases now s input_data) as [(e & _ & E) | (pd & pp' & _ & E & Hd)].
    - rewrite E. cbn [fst snd]. split; [reflexivity |].
      intros H. exfalso. apply H. reflexivity.
    - split; [intros H; contradiction |]. intros _. rewrite E. reflexivity. }
  revert s. induction samples as [| [now input_data] rest IH]; intros s.
  - split; [reflexivity |]. unfold analysed. simpl. lia.
  - cbn [AIPipeline.run].
    destruct (analyze_cases now s input_data) as [(e & _ & E) | (pd & pp' & _ & E & Hd)].
    + rewrite E. specialize (IH s).
      destruct (AIPipeline.run s rest) as [outs s']. cbn [fst snd] in *.
      destruct IH as [IH1 IH2]. split; [simpl; lia |].
      unfold analysed in *. rewrite filter_cons_False by (simpl; discriminate).
      exact IH2.
    + destruct (AIPipeline.analyze now s input_data) as [out s1]. cbn [fst snd] in *.
      subst s1. specialize (IH (next_state s pd pp')).
      destruct (AIPipeline.run (next_state s pd pp') rest) as [outs s']. cbn [fst snd] in *.
      destruct IH as [IH1 IH2]. split; [simpl; lia |].
      unfold analysed in *. rewrite filter_cons_True.
      * rewrite IH2. simpl. lia.
      * destruct (AIPipeline.decision out); try reflexivity. contradiction.
Qed.

(* ===================================================================== *)
(** ** Further properties: replayed timestamps *)
(* ===================================================================== *)

Lemma replay_fires bm pd past :
  In past (BehaviorLearningModel.timestamp_history bm) ->
  Rabs (timestamp_unix pd - past) < 1/10 ->
  BehaviorLearningModel._check_replay_attack bm pd
  = (9/10, [Lit "Replay attack detected (repeated timestamp)"]).
Proof.
  intros Hin Hlt. unfold BehaviorLearningModel._check_replay_attack,
    AIEngineConfig.replay_time_tolerance.
  replace (existsb _ _) with true; [reflexivity |].
  symmetry. apply existsb_exists. exists past. split; [exact Hin |].
  apply Rltb_true, Hlt.
Qed.

Lemma behavior_replay_output bm pd :
  BehaviorLearningModel._check_replay_attack bm pd
  = (9/10, [Lit "Replay attack detected (repeated timestamp)"]) ->
  9/10 <= score (fst (BehaviorLearningModel.analyze bm pd)) <= 1
  /\ exists rest,
       reason (fst (BehaviorLearningModel.analyze bm pd))
       = Lit "Replay attack detected (repeated timestamp)" :: rest.
Proof.
  intros E.
  pose proof (behavior_in_range bm pd) as [[_ H1] _].
  revert H1. rewrite behavior_analyze_output. cbv zeta. rewrite E.
  rewrite fired_cons_pos by (simpl; lra).
  set (rest := fired _).
  cbn [map fst snd score reason]. intros H1. split.
  - split; [| exact H1].
    apply (py_max_ge (9/10 :: map fst rest)). left. reflexivity.
  - destruct (map snd rest); eexists; reflexivity.
Qed.

(** A repeated timestamp is reported.  When two samples are analysed one
    after the other and their Unix timestamps are less than 0.1 s apart,
    the behavior score of the second is at least 0.9, and the reason of
    the behavior model starts with the replay. *)
Theorem replayed_timestamp_is_flagged now1 now2 s input1 input2 pd1 pp1 pd2 pp2 :
  DataPreprocessor.preprocess now1 (AIPipeline.preprocessor s) input1 = Ok (pd1, pp1) ->
  DataPreprocessor.preprocess now2 pp1 input2 = Ok (pd2, pp2) ->
  Rabs (timestamp_unix pd2 - timestamp_unix pd1) < 1/10 ->
  exists behavior_score rest,
    AIPipeline.model_outputs
      (fst (AIPipeline.analyze now2 (snd (AIPipeline.analyze now1 s input1)) input2))
    !! 3%nat = Some ("behavior", behavior_score)
    /\ 9/10 <= behavior_score <= 1
    /\ reason (behavior (outputs_of (snd (AIPipeline.analyze now1 s input1)) pd2 pp2))
       = Lit "Replay attack detected (repeated timestamp)" :: rest.
Proof.
  intros H1 H2 Hclose.
  rewrite (analyze_Ok _ _ _ _ _ H1). cbn [snd].
  assert (DataPreprocessor.preprocess now2
            (AIPipeline.preprocessor (next_state s pd1 pp1)) input2 = Ok (pd2, pp2))
    as H2' by exact H2.
  rewrite (analyze_behavior_score _ _ _ _ _ H2').
  assert (BehaviorLearningModel._check_replay_attack
            (AIPipeline.behavior_model (next_state s pd1 pp1)) pd2
          = (9/10, [Lit "Replay attack detected (repeated timestamp)"])) as E.
  { apply (replay_fires _ _ (timestamp_unix pd1)); [| exact Hclose].
    unfold next_state. cbn [AIPipeline.behavior_model].
    rewrite behavior_analyze_state. cbn [BehaviorLearningModel.timestamp_history].
    assert (last (append_bounded 50
                    (BehaviorLearningModel.timestamp_history (AIPipeline.behavior_model s))
                    (timestamp_unix pd1)) = Some (timestamp_unix pd1)) as Hl
      by (apply last_append_bounded; lia).
    apply last_Some in Hl as [l' ->]. apply in_or_app. right. left. reflexivity. }
  destruct (behavior_replay_output _ _ E) as (Hs & rest & Hr).
  eexists. exists rest. split; [reflexivity |]. split; [exact Hs |].
  unfold outputs_of. cbn [behavior]. exact Hr.
Qed.

Lemma replayed_timestamp_is_flagged_witness :
  exists behavior_score rest,
    AIPipeline.model_outputs
      (fst (AIPipeline.analyze noon
              (snd (AIPipeline.analyze noon AIPipeline.init edge_sample)) edge_sample))
    !! 3%nat = Some ("behavior", behavior_score)
    /\ 9/10 <= behavior_score <= 1
    /\ reason (behavior
                 (outputs_of (snd (AIPipeline.analyze noon AIPipeline.init edge_sample))
                    edge_repeated
                    (DataPreprocessor.mk
                       (Some (mkTelemetry edge_voltage 50 200 ON (TsIso noon)))
                       [mkHistoryEntry edge_voltage 50 200 (TsIso noon);
                        mkHistoryEntry edge_voltage 50 200 (TsIso noon)])))
       = Lit "Replay attack detected (repeated timestamp)" :: rest.
Proof.
  apply (replayed_timestamp_is_flagged noon noon AIPipeline.init edge_sample edge_sample
           (first_preprocessed noon edge_voltage 50 200 ON (Some (TsIso noon)))
           (after_first noon edge_voltage 50 200 ON (Some (TsIso noon)))).
  - reflexivity.
  - exact edge_second_preprocess.
  - simpl. replace (0 - 0) with 0 by lra. rewrite Rabs_R0. lra.
Defined.

(* ===================================================================== *)
(** ** Further properties: the first sample *)
(* ===================================================================== *)

Lemma round3_half : round3 (1/2) = 1/2.
Proof. replace (1/2) with (IZR 500 / 1000) by lra. apply round3_thousandth. Qed.

(** The first sample of a new or reset preprocessor is never CRITICAL
    under the configured weights.  With no earlier sample there are no
    statistics and no deltas, so the anomaly and FDIA scores are 0
    whatever the readings; the three other models weigh 0.5 together, so
    the final risk is at most 0.5. *)
Theorem first_sample_is_never_critical now s input_data pd pp' :
  AIPipeline.preprocessor s = DataPreprocessor.init ->
  AIPipeline.fusion_engine s = FusionEngine.init ->
  DataPreprocessor.preprocess now (AIPipeline.preprocessor s) input_data = Ok (pd, pp') ->
  score (anomaly (outputs_of s pd pp')) = 0
  /\ score (fdia (outputs_of s pd pp')) = 0
  /\ AIPipeline.final_risk (fst (AIPipeline.analyze now s input_data)) <= 1/2
  /\ AIPipeline.decision (fst (AIPipeline.analyze now s input_data)) <> CRITICAL.
Proof.
  intros Hpp Hfe Hpre.
  pose proof (analyze_graded _ _ _ _ _ Hpre) as G.
  destruct (outputs_of_in_range s pd pp') as (_ & _ & Hp & Hb & Hm).
  rewrite Hpp in Hpre.
  destruct (preprocess_first_call now DataPreprocessor.init _ _ _ eq_refl Hpre)
    as (Dv & Df & Dp & _ & _).
  apply preprocess_Ok_explicit in Hpre as (validated & deltas & _ & _ & _ & Epp).
  cbn [DataPreprocessor.telemetry_history DataPreprocessor.init] in Epp.
  assert (score (anomaly (outputs_of s pd pp')) = 0) as Ea.
  { unfold outputs_of. cbn [anomaly]. rewrite anomaly_quiet; [reflexivity |].
    intros field. subst pp'. unfold DataPreprocessor.get_rolling_statistics.
    cbn [DataPreprocessor.telemetry_history append_bounded app length Nat.ltb Nat.leb
         fst snd]. auto. }
  assert (score (fdia (outputs_of s pd pp')) = 0) as Ef.
  { unfold outputs_of. cbn [fdia]. rewrite fdia_quiet; try assumption; [reflexivity |].
    subst pp'. cbn. lia. }
  split; [exact Ea | split; [exact Ef |]].
  destruct G as (_ & _ & _ & _ & (Er & _) & _ & _ & Gc & _).
  revert Er Gc. unfold weighted_risk. rewrite Hfe, weighted_risk_init, Ea, Ef.
  set (total := 15/100 * 0 + _ + _ + _ + _).
  destruct Hp as [[Hp0 Hp1] _]. destruct Hb as [[Hb0 Hb1] _].
  destruct Hm as [[Hm0 Hm1] _].
  assert (clamp01 total <= 1/2) as Hle by (apply clamp01_le; subst total; lra).
  intros Er Gc. split.
  - rewrite Er, <- round3_half. apply round3_mono, Hle.
  - intros Hcrit. apply Gc in Hcrit. lra.
Qed.

Lemma first_sample_is_never_critical_witness :
  let s := AIPipeline.init in
  let input_data := sample 1 50 100 "ON" (Some (TsIso noon)) in
  let pp' :=
    DataPreprocessor.mk (Some (mkTelemetry 1 50 100 ON (TsIso noon)))
      [mkHistoryEntry 1 50 100 (TsIso noon)] in
  score (anomaly (outputs_of s quiet_sample pp')) = 0
  /\ score (fdia (outputs_of s quiet_sample pp')) = 0
  /\ AIPipeline.final_risk (fst (AIPipeline.analyze noon s input_data)) <= 1/2
  /\ AIPipeline.decision (fst (AIPipeline.analyze noon s input_data)) <> CRITICAL.
Proof.
  exact (first_sample_is_never_critical noon AIPipeline.init _ _ _ eq_refl eq_refl
           preprocess_quiet_sample).
Defined.

(* ===================================================================== *)
(** ** Further properties: windows of the history *)
(* ===================================================================== *)

Lemma length_last_n {A} n (l : list A) : length (last_n n l) = Nat.min n (length l).
Proof. unfold last_n. rewrite length_skipn. lia. Qed.

(** The rolling statistics read the last [window] entries of the history
    and nothing else.  With fewer than two stored samples they are (0, 0);
    otherwise they are the same for any two histories whose last [window]
    entries carry the same values of the field, whatever came before. *)
Theorem rolling_statistics_read_only_the_window pp field window :
  ((length (DataPreprocessor.telemetry_history pp) < 2)%nat ->
   DataPreprocessor.get_rolling_statistics pp field window = (0, 0))
  /\ (forall pp2,
        (0 < window)%nat ->
        (2 <= length (DataPreprocessor.telemetry_history pp))%nat ->
        (2 <= length (DataPreprocessor.telemetry_history pp2))%nat ->
        map (field_of field) (last_n window (DataPreprocessor.telemetry_history pp))
        = map (field_of field) (last_n window (DataPreprocessor.telemetry_history pp2)) ->
        DataPreprocessor.get_rolling_statistics pp field window
        = DataPreprocessor.get_rolling_statistics pp2 field window).
Proof.
  split.
  - intros Hlen. unfold DataPreprocessor.get_rolling_statistics.
    destruct (Nat.ltb_spec (length (DataPreprocessor.telemetry_history pp)) 2);
      [reflexivity | lia].
  - intros pp2 _ H1 H2 Hsame. unfold DataPreprocessor.get_rolling_statistics.
    destruct (Nat.ltb_spec (length (DataPreprocessor.telemetry_history pp)) 2); [lia |].
    destruct (Nat.ltb_spec (length (DataPreprocessor.telemetry_history pp2)) 2); [lia |].
    rewrite Hsame. reflexivity.
Qed.

(* ===================================================================== *)
(** ** Further properties: attack signatures and similarity *)
(* ===================================================================== *)

(** A sample with a non-zero frequency is as similar to itself as can
    be. *)
Lemma cosine_similarity_self pd :
  frequency pd <> 0 ->
  MemoryModel._cosine_similarity (MemoryModel._create_feature_vector pd)
    (MemoryModel._create_feature_vector pd) = 1.
Proof.
  intros Hf. unfold MemoryModel._create_feature_vector,
    AIEngineConfig.feature_weight_voltage, AIEngineConfig.feature_weight_frequency,
    AIEngineConfig.feature_weight_power_flow.
  cbn [get_voltage get_frequency get_power_flow Preprocessed_VFP].
  set (a := voltage pd * (3/10)). set (b := frequency pd / 50 * (3/10)).
  set (c := power_flow pd / 100 * (4/10)).
  assert (b <> 0) as Hb by (subst b; intros E; apply Hf; lra).
  assert (0 < a * a + b * b + c * c) as Hpos.
  { pose proof (Rle_0_sqr a) as Ha. pose proof (Rle_0_sqr c) as Hc.
    pose proof (Rlt_0_sqr b Hb) as Hbb. unfold Rsqr in *. lra. }
  rewrite cosine3_eq by exact Hpos.
  rewrite sqrt_sqrt by lra. field. lra.
Qed.

Lemma memory_score_eq mm pd history :
  score (fst (MemoryModel.analyze mm pd history))
  = py_max (map fst (fired
      [ MemoryModel._check_attack_signatures (MemoryModel._update_memory mm pd) pd;
        MemoryModel._check_pattern_repetition pd history;
        MemoryModel._check_baseline_deviation (MemoryModel._update_memory mm pd) pd ])).
Proof.
  unfold MemoryModel.analyze. destruct (fired _) as [| c l]; reflexivity.
Qed.

Lemma first_match_hits vec signatures signature :
  In signature signatures ->
  85/100 < MemoryModel._cosine_similarity vec (MemoryModel.sig_vector signature) ->
  exists matched,
    In matched signatures
    /\ 85/100 < MemoryModel._cosine_similarity vec (MemoryModel.sig_vector matched)
    /\ MemoryModel.first_match vec signatures
       = (MemoryModel._cosine_similarity vec (MemoryModel.sig_vector matched),
          [Lit "High similarity to "; Lit (MemoryModel.sig_name matched); Lit " (";
           Fixed 2 (MemoryModel._cosine_similarity vec (MemoryModel.sig_vector matched)); Lit ")"]).
Proof.
  intros Hin Hsim. induction signatures as [| s0 rest IH]; [destruct Hin |].
  cbn [MemoryModel.first_match]. cbv zeta. unfold AIEngineConfig.similarity_threshold.
  destruct (Rgtb (MemoryModel._cosine_similarity vec (MemoryModel.sig_vector s0)) (85/100)) eqn:E.
  - apply Rgtb_gt in E. exists s0. split; [left; reflexivity | split; [exact E | reflexivity]].
  - destruct Hin as [-> | Hin].
    + apply Rltb_ge in E. lra.
    + destruct (IH Hin) as (matched & Hm & Hs & Ef).
      exists matched. split; [right; exact Hm | split; [exact Hs | exact Ef]].
Qed.

(** A signature added for the readings of a sample is recognised.  After
    [add_attack_signature] with a sample's voltage, frequency and power
    flow, the analysis of that sample gives a memory score above 0.85,
    and the reason names a stored signature: the new one, or an earlier
    one that already matched.  The readings are taken of ordinary
    magnitude (at most a million, the frequency at least 1 in absolute
    value), those of the sample as well as the stored ones, so that the
    squares and products of the similarity neither vanish nor leave the
    range of the numbers. *)
Theorem added_signature_is_recognised mm name description pd history :
  ordinary_readings pd -> 1 <= Rabs (frequency pd) ->
  Forall ordinary_readings (MemoryModel.telemetry_memory mm) ->
  Forall ordinary_readings history ->
  85/100 < score (fst (MemoryModel.analyze
                         (MemoryModel.add_attack_signature mm name (voltage pd)
                            (frequency pd) (power_flow pd) description)
                         pd history))
  /\ exists matched similarity,
       In matched (MemoryModel.attack_signatures mm
                   ++ [MemoryModel.mkSignature name (MemoryModel._create_feature_vector pd)
                         description])
       /\ 85/100 < similarity
       /\ reason (fst (MemoryModel.analyze
                         (MemoryModel.add_attack_signature mm name (voltage pd)
                            (frequency pd) (power_flow pd) description)
                         pd history))
          = [Lit "High similarity to "; Lit (MemoryModel.sig_name matched); Lit " (";
             Fixed 2 similarity; Lit ")"].
Proof.
  intros _ Hfreq _ _.
  assert (frequency pd <> 0) as Hf.
  { intros E. rewrite E, Rabs_R0 in Hfreq. lra. }
  set (mm' := MemoryModel.add_attack_signature mm name (voltage pd) (frequency pd)
                (power_flow pd) description).
  set (added := MemoryModel.mkSignature name (MemoryModel._create_feature_vector pd) description).
  assert (MemoryModel.attack_signatures (MemoryModel._update_memory mm' pd)
          = MemoryModel.attack_signatures mm ++ [added]) as Hsigs by reflexivity.
  destruct (first_match_hits (MemoryModel._create_feature_vector pd)
              (MemoryModel.attack_signatures mm ++ [added]) added)
    as (matched & Hin & Hsim & Ematch).
  { apply in_or_app. right. left. reflexivity. }
  { subst added. cbn [MemoryModel.sig_vector]. rewrite cosine_similarity_self by exact Hf. lra. }
  assert (MemoryModel._check_attack_signatures (MemoryModel._update_memory mm' pd) pd
          = (MemoryModel._cosine_similarity (MemoryModel._create_feature_vector pd)
               (MemoryModel.sig_vector matched),
             [Lit "High similarity to "; Lit (MemoryModel.sig_name matched); Lit " (";
              Fixed 2 (MemoryModel._cosine_similarity
                         (MemoryModel._create_feature_vector pd)
                         (MemoryModel.sig_vector matched)); Lit ")"])) as Echeck.
  { unfold MemoryModel._check_attack_signatures. rewrite Hsigs. exact Ematch. }
  split.
  - rewrite memory_score_eq, Echeck.
    rewrite fired_cons_pos by (cbn [fst]; lra).
    eapply Rlt_le_trans; [exact Hsim |].
    apply py_max_ge. left. reflexivity.
  - exists matched, (MemoryModel._cosine_similarity (MemoryModel._create_feature_vector pd)
                       (MemoryModel.sig_vector matched)).
    split; [exact Hin |]. split; [exact Hsim |].
    unfold MemoryModel.analyze. rewrite Echeck.
    rewrite fired_cons_pos by (cbn [fst]; lra). reflexivity.
Qed.

Lemma added_signature_is_recognised_witness :
  85/100 < score (fst (MemoryModel.analyze
                         (MemoryModel.add_attack_signature MemoryModel.init "steady"
                            (voltage quiet_sample) (frequency quiet_sample)
                            (power_flow quiet_sample) "normal operation")
                         quiet_sample []))
  /\ exists matched similarity,
       In matched (MemoryModel.attack_signatures MemoryModel.init
                   ++ [MemoryModel.mkSignature "steady" (MemoryModel._create_feature_vector quiet_sample)
                         "normal operation"])
       /\ 85/100 < similarity
       /\ reason (fst (MemoryModel.analyze
                         (MemoryModel.add_attack_signature MemoryModel.init "steady"
                            (voltage quiet_sample) (frequency quiet_sample)
                            (power_flow quiet_sample) "normal operation")
                         quiet_sample []))
          = [Lit "High similarity to "; Lit (MemoryModel.sig_name matched); Lit " (";
             Fixed 2 similarity; Lit ")"].
Proof.
  apply (added_signature_is_recognised MemoryModel.init "steady" "normal operation"
           quiet_sample []).
  - unfold ordinary_readings. simpl. rewrite !Rabs_pos_eq by lra. lra.
  - simpl. rewrite Rabs_pos_eq by lra. lra.
  - apply List.Forall_nil.
  - apply List.Forall_nil.
Defined.

(** In double precision the similarity exceeds 1, the bound that holds of
    real numbers.  The readings 2.45 p.u., 367.5 Hz and 236.25 MW give a
    feature vector that is 2.1 times the first attack signature: their
    similarity is 1 in exact arithmetic, and 1.0000000000000002 in the
    arithmetic of the code, with either summation.  On the first sample
    of a new pipeline no other check of the memory model can fire, so this
    is the memory score of that sample.  The similarity of a vector to
    itself exceeds 1 already for the readings 1.0 p.u., 49.9 Hz and
    100 MW. *)
Theorem similarity_exceeds_one_in_double_precision :
  MemoryModel._cosine_similarity
    (MemoryModel._create_feature_vector (mkVFP (245/100) (3675/10) (23625/100)))
    [35/100; 105/100; 45/100] = 1
  /\ PrimFloat.ltb 1 0x1.0000000000001p+0 = true
  /\ (forall sum,
        sum = MemoryModel_binary64.sum_left \/ sum = MemoryModel_binary64.sum_neumaier ->
        MemoryModel_binary64._check_attack_signatures sum
          0x1.399999999999ap+1 367.5 236.25
        = Ok (0x1.0000000000001p+0%float, Some "FDIA coordinated injection")
        /\ (let v := MemoryModel_binary64._create_feature_vector
                       1 0x1.8f33333333333p+5 100 in
            MemoryModel_binary64._cosine_similarity sum v v
            = Ok 0x1.0000000000001p+0%float)).
Proof.
  split; [| split; [vm_compute; reflexivity |]].
  - unfold MemoryModel._create_feature_vector,
      AIEngineConfig.feature_weight_voltage, AIEngineConfig.feature_weight_frequency,
      AIEngineConfig.feature_weight_power_flow.
    cbn [get_voltage get_frequency get_power_flow VFP_VFP
         vfp_voltage vfp_frequency vfp_power_flow].
    rewrite cosine3_eq by lra.
    set (B := 35/100 * (35/100) + 105/100 * (105/100) + 45/100 * (45/100)).
    assert (0 < B) as HB by (subst B; lra).
    replace (245/100 * (3/10) * (245/100 * (3/10))
             + 3675/10 / 50 * (3/10) * (3675/10 / 50 * (3/10))
             + 23625/100 / 100 * (4/10) * (23625/100 / 100 * (4/10)))
      with (21/10 * (21/10) * B) by (subst B; lra).
    replace (245/100 * (3/10) * (35/100) + 3675/10 / 50 * (3/10) * (105/100)
             + 23625/100 / 100 * (4/10) * (45/100))
      with (21/10 * B) by (subst B; lra).
    rewrite sqrt_mult by lra. rewrite sqrt_square by lra.
    pose proof (sqrt_lt_R0 B HB) as Hs.
    rewrite <- (sqrt_sqrt B) at 1 by lra. field. lra.
  - intros sum [-> | ->]; split; vm_compute; reflexivity.
Qed.

Lemma dot_product_comm (u : list R) : forall v,
  Rsum (map (fun ab => fst ab * snd ab) (combine u v))
  = Rsum (map (fun ab => fst ab * snd ab) (combine v u)).
Proof.
  induction u as [| a u IH]; intros [| b v]; try reflexivity.
  cbn [combine map fst snd]. rewrite !Rsum_cons, (IH v). lra.
Qed.

(** The cosine similarity is symmetric, and it can be negative, although
    its docstring gives the range [0, 1]: opposite vectors have similarity
    -1.  A vector of another length, or a zero vector, gives 0. *)
Theorem cosine_similarity_symmetric_and_signed :
  (forall u v, MemoryModel._cosine_similarity u v = MemoryModel._cosine_similarity v u)
  /\ MemoryModel._cosine_similarity [1; 0; 0] [-1; 0; 0] = -1
  /\ (forall u v, length u <> length v -> MemoryModel._cosine_similarity u v = 0)
  /\ (forall v, MemoryModel._cosine_similarity [0; 0; 0] v = 0).
Proof.
  split; [| split; [| split]].
  - intros u v. unfold MemoryModel._cosine_similarity.
    rewrite (Nat.eqb_sym (length u) (length v)), (dot_product_comm u v).
    destruct (negb _); [reflexivity |].
    rewrite (orb_comm (Reqb (sqrt (Rsum (map (fun a => a * a) u))) 0)).
    destruct (_ || _); [reflexivity |]. f_equal. apply Rmult_comm.
  - rewrite cosine3_eq by lra.
    replace (1 * 1 + 0 * 0 + 0 * 0) with 1 by lra.
    replace (-1 * -1 + 0 * 0 + 0 * 0) with 1 by lra.
    rewrite sqrt_1. lra.
  - intros u v Hlen. unfold MemoryModel._cosine_similarity.
    destruct (Nat.eqb_spec (length u) (length v)); [contradiction | reflexivity].
  - intros v. unfold MemoryModel._cosine_similarity.
    destruct (negb _); [reflexivity |].
    cbn [map]. rewrite !Rsum_cons, Rsum_nil.
    replace (0 * 0 + (0 * 0 + (0 * 0 + 0))) with 0 by lra.
    rewrite sqrt_0, Reqb_true by reflexivity. reflexivity.
Qed.

(* ===================================================================== *)
(** ** Further properties: the explanation *)
(* ===================================================================== *)

Lemma max_item_from_in best items :
  In (max_item_from best items) (best :: items).
Proof.
  revert best. induction items as [| x items IH]; intros best; cbn [max_item_from].
  - left. reflexivity.
  - destruct (IH (if Rltb (snd best) (snd x) then x else best)) as [E | Hin].
    + rewrite <- E. destruct (Rltb (snd best) (snd x)); [right; left | left]; reflexivity.
    + right. right. exact Hin.
Qed.

Lemma by_model_lookup mo name s :
  In (name, s) (by_model score mo) ->
  exists o, get_output mo name = Some o /\ score o = s.
Proof.
  unfold by_model. intros H.
  repeat (destruct H as [[= <- <-] | H]; [eexists; split; reflexivity |]).
  destruct H.
Qed.

(** The explanation always names a model's reason.  The primary threat
    is one of the five models, so the fallback texts for an unknown
    threat are never used: a WARNING explanation is the prefix WARNING
    followed by the primary model's reason, a CRITICAL one the prefix
    CRITICAL followed by that reason, and a SAFE one is either the plain
    all-normal text or names the reason of a model whose score is
    strictly between 0.1 and 0.3. *)
Theorem explanation_names_the_primary_threat fe mo :
  exists o,
    get_output mo (FusionEngine.primary_threat (FusionEngine.fuse fe mo)) = Some o
    /\ FusionEngine.primary_threat_score (FusionEngine.fuse fe mo) = round3 (score o)
    /\ (FusionEngine.decision (FusionEngine.fuse fe mo) = WARNING ->
        exists rest,
          FusionEngine.explanation (FusionEngine.fuse fe mo)
          = [Lit "WARNING: "] ++ reason o ++ rest)
    /\ (FusionEngine.decision (FusionEngine.fuse fe mo) = CRITICAL ->
        exists rest,
          FusionEngine.explanation (FusionEngine.fuse fe mo)
          = [Lit "CRITICAL: "] ++ reason o ++ rest)
    /\ (FusionEngine.decision (FusionEngine.fuse fe mo) = SAFE ->
        FusionEngine.explanation (FusionEngine.fuse fe mo)
        = [Lit "All systems normal. No security threats detected."]
        \/ exists name concern,
             get_output mo name = Some concern
             /\ 1/10 < score concern < 3/10
             /\ FusionEngine.explanation (FusionEngine.fuse fe mo)
                = [Lit "All systems normal. Minor variance detected: "] ++ reason concern).
Proof.
  unfold FusionEngine.fuse.
  destruct (FusionEngine._identify_primary_threat (by_model score mo))
    as [primary_threat primary_score] eqn:Ep.
  assert (In (primary_threat, primary_score) (by_model score mo)) as Hin.
  { rewrite <- Ep. unfold FusionEngine._identify_primary_threat, by_model.
    apply max_item_from_in. }
  destruct (by_model_lookup _ _ _ Hin) as (o & Ho & Hs).
  exists o. cbn [FusionEngine.primary_threat FusionEngine.primary_threat_score
                 FusionEngine.decision FusionEngine.explanation].
  split; [exact Ho | split; [rewrite Hs; reflexivity |]].
  split; [| split].
  - intros ->. cbn [FusionEngine._generate_explanation].
    unfold FusionEngine._generate_warning_explanation, FusionEngine.reason_of.
    rewrite Ho.
    destruct (map fst _); [exists []; rewrite app_nil_r | eexists]; reflexivity.
  - intros ->. cbn [FusionEngine._generate_explanation].
    unfold FusionEngine._generate_critical_explanation, FusionEngine.reason_of.
    rewrite Ho.
    destruct (Nat.ltb 1 _); [eexists | exists []; rewrite app_nil_r]; reflexivity.
  - intros ->. cbn [FusionEngine._generate_explanation].
    unfold FusionEngine._generate_safe_explanation.
    destruct (filter _ (by_model score mo)) as [| [name s] rest] eqn:Ef;
      [left; reflexivity | right].
    assert (In (name, s) (filter (fun item => Rltb (1/10) (snd item)
                                              && Rltb (snd item) (3/10) = true)
                            (by_model score mo))) as Hf
      by (rewrite Ef; left; reflexivity).
    apply list_elem_of_In, list_elem_of_filter in Hf as [Hc Hm].
    apply list_elem_of_In in Hm.
    destruct (by_model_lookup _ _ _ Hm) as (concern & Hconcern & Hscore).
    exists name, concern. cbn [snd] in Hc.
    apply andb_true_iff in Hc as [H1 H2]. apply Rltb_lt in H1, H2.
    split; [exact Hconcern | split; [rewrite Hscore; lra |]].
    cbn [map fst]. unfold FusionEngine.reason_of. rewrite Hconcern. reflexivity.
Qed.

(* ===================================================================== *)
(** ** Further properties: a limited view of the history *)
(* ===================================================================== *)

(** [get_history(limit)] returns the last [limit] samples only for a
    positive limit.  Without a limit, and with the limit 0, it returns
    the whole history; with a negative limit it returns the history
    without its first [-limit] samples. *)
Theorem get_history_limit_edge_cases pp :
  get_history_limit pp None = DataPreprocessor.telemetry_history pp
  /\ get_history_limit pp (Some 0%Z) = DataPreprocessor.telemetry_history pp
  /\ (forall limit, (0 < limit)%Z ->
        get_history_limit pp (Some limit)
        = last_n (Z.to_nat limit) (DataPreprocessor.telemetry_history pp)
        /\ length (get_history_limit pp (Some limit))
           = Nat.min (Z.to_nat limit) (length (DataPreprocessor.telemetry_history pp)))
  /\ (forall limit, (limit < 0)%Z ->
        get_history_limit pp (Some limit)
        = drop (Z.to_nat (- limit)) (DataPreprocessor.telemetry_history pp)).
Proof.
  unfold get_history_limit, slice_from.
  set (l := DataPreprocessor.telemetry_history pp).
  split; [reflexivity | split; [| split]].
  - cbn [Z.opp Z.ltb Z.compare]. rewrite Z.min_l by lia. reflexivity.
  - intros limit Hl.
    assert (get_history_limit pp (Some limit) = last_n (Z.to_nat limit) l) as E.
    { unfold get_history_limit, slice_from, last_n. fold l.
      destruct (Z.ltb_spec (- limit) 0); [| lia]. f_equal. lia. }
    unfold get_history_limit, slice_from in E. fold l in E. rewrite E.
    split; [reflexivity | apply length_last_n].
  - intros limit Hl.
    destruct (Z.ltb_spec (- limit) 0); [lia |].
    destruct (Z.le_gt_cases (- limit) (Z.of_nat (length l))) as [Hle | Hgt].
    + rewrite Z.min_l by lia. reflexivity.
    + rewrite Z.min_r by lia. rewrite Nat2Z.id.
      rewrite !drop_ge by lia. reflexivity.
Qed.

(* ===================================================================== *)
(** ** Further properties: the gateway's interface to the engine *)
(* ===================================================================== *)

Lemma ai_input_validation now grid_data :
  let ai_input :=
    Dict (mkRawInput
            (Some (default (PyNum 1) (ai_interface.grid_voltage grid_data)))
            (Some (default (PyNum 50) (ai_interface.grid_frequency grid_data)))
            (Some (default (PyNum 0) (ai_interface.grid_power_flow grid_data)))
            (Some (default (PyStr "OFF") (ai_interface.grid_breaker grid_data)))
            (Some (TsIso now))
            None) in
  if grid_valid grid_data
  then exists validated,
         DataPreprocessor._validate_input ai_input = Ok validated
         /\ v_timestamp validated = Some (TsIso now)
  else exists e, DataPreprocessor._validate_input ai_input = Raise e.
Proof.
  destruct grid_data as [v f p b]. unfold grid_valid.
  cbn [ai_interface.grid_voltage ai_interface.grid_frequency
       ai_interface.grid_power_flow ai_interface.grid_breaker].
  cbv zeta. unfold DataPreprocessor._validate_input.
  cbn [raw_voltage raw_frequency raw_power_flow raw_breaker_status raw_timestamp
       raw_breaker_changed present orb negb]. unfold_bind.
  destruct v as [[x | s |] |]; simpl; try (eexists; reflexivity);
  destruct f as [[y | t |] |]; simpl; try (eexists; reflexivity);
  destruct p as [[z | u |] |]; simpl; try (eexists; reflexivity);
  destruct b as [[w | c |] |]; simpl;
    try (eexists; reflexivity); try (eexists; split; reflexivity);
  destruct (String.eqb c "ON"); simpl; try (eexists; split; reflexivity);
  destruct (String.eqb c "OFF"); simpl;
    solve [eexists; split; reflexivity | eexists; reflexivity].
Qed.

(** Through [analyze_with_ai] a mistyped value of the grid telemetry (a
    voltage, frequency or power flow that is not a number, a breaker that
    is neither 'ON' nor 'OFF') is answered with the ERROR decision and the
    risk score 0, not with the fallback of the interface; the pipeline,
    created by the call if there was none, stores nothing of the sample
    and does not count it. *)
Theorem analyze_with_ai_rejects_mistyped_values now now' _pipeline_instance
    grid_data :
  grid_valid grid_data = false ->
  ai_interface.decision
    (fst (ai_interface.analyze_with_ai now now' _pipeline_instance grid_data)) = ERROR
  /\ ai_interface.risk_score
       (fst (ai_interface.analyze_with_ai now now' _pipeline_instance grid_data)) = 0
  /\ ai_interface.confidence
       (fst (ai_interface.analyze_with_ai now now' _pipeline_instance grid_data)) = 0
  /\ (exists msg input_data,
        ai_interface.details
          (fst (ai_interface.analyze_with_ai now now' _pipeline_instance grid_data))
        = AIPipeline.ErrorDetails msg "PreprocessingError" input_data)
  /\ snd (ai_interface.analyze_with_ai now now' _pipeline_instance grid_data)
     = Some (fst (ai_pipeline.get_pipeline _pipeline_instance)).
Proof.
  intros Hbad.
  set (pipeline := fst (ai_pipeline.get_pipeline _pipeline_instance)).
  unfold ai_interface.analyze_with_ai, ai_pipeline.analyze.
  replace (ai_pipeline.get_pipeline _pipeline_instance)
    with (pipeline, Some pipeline)
    by (subst pipeline; destruct _pipeline_instance; reflexivity).
  pose proof (ai_input_validation now grid_data) as Hval. cbv zeta in Hval.
  set (ai_input := Dict _) in *.
  rewrite Hbad in Hval. destruct Hval as (e & He).
  rewrite (analyze_preprocess_error _ _ _ _
             (preprocess_validation_error now' (AIPipeline.preprocessor pipeline) _ _ He)).
  cbn [fst snd ai_interface.decision ai_interface.risk_score ai_interface.confidence
       ai_interface.details AIPipeline._handle_error
       AIPipeline.decision AIPipeline.final_risk AIPipeline.confidence
       AIPipeline.details].
  repeat apply conj; try reflexivity.
  exists (exc_msg e), ai_input. rewrite (validate_input_error_type _ _ He). reflexivity.
Qed.

Lemma analyze_with_ai_rejects_mistyped_values_witness :
  let grid_data := ai_interface.mkGridData (Some (PyStr "high")) None None None in
  ai_interface.decision
    (fst (ai_interface.analyze_with_ai noon noon None grid_data)) = ERROR
  /\ ai_interface.risk_score
       (fst (ai_interface.analyze_with_ai noon noon None grid_data)) = 0
  /\ ai_interface.confidence
       (fst (ai_interface.analyze_with_ai noon noon None grid_data)) = 0
  /\ (exists msg input_data,
        ai_interface.details
          (fst (ai_interface.analyze_with_ai noon noon None grid_data))
        = AIPipeline.ErrorDetails msg "PreprocessingError" input_data)
  /\ snd (ai_interface.analyze_with_ai noon noon None grid_data)
     = Some (fst (ai_pipeline.get_pipeline None)).
Proof.
  apply (analyze_with_ai_rejects_mistyped_values noon noon None
           (ai_interface.mkGridData (Some (PyStr "high")) None None None)).
  reflexivity.
Defined.

(* ===================================================================== *)
(** ** Further properties: the quick validation *)
(* ===================================================================== *)

(** [validate_telemetry] raises nothing and predicts the rejection of the
    data.  It returns False exactly on the inputs the preprocessor
    rejects: not a dictionary, no telemetry field, a telemetry field that
    is not a number, a breaker status that is neither 'ON' nor 'OFF'.
    Every pipeline, whatever its state, answers such data with an error
    record of type PreprocessingError. *)
Theorem validate_telemetry_predicts_the_rejection data :
  exists valid,
    preprocessing.validate_telemetry data = Ok valid
    /\ (valid = false <-> invalid_input data)
    /\ (valid = false ->
        forall now s, exists msg,
          AIPipeline.decision (fst (AIPipeline.analyze now s data)) = ERROR
          /\ AIPipeline.details (fst (AIPipeline.analyze now s data))
             = AIPipeline.ErrorDetails msg "PreprocessingError" data).
Proof.
  unfold preprocessing.validate_telemetry.
  pose proof (validate_input_raises data) as Hinv.
  destruct (DataPreprocessor._validate_input data) as [validated | e] eqn:Ev.
  - exists true. split; [reflexivity |]. split; [| discriminate].
    split; [discriminate |]. intros H. apply Hinv in H as [e [=]].
  - rewrite (validate_input_error_type _ _ Ev). cbn [String.eqb Ascii.eqb Bool.eqb].
    exists false. split; [reflexivity |]. split.
    + split; [intros _; apply Hinv; exists e; reflexivity | reflexivity].
    + intros _ now s.
      rewrite (analyze_preprocess_error _ _ _ _
                 (preprocess_validation_error now (AIPipeline.preprocessor s) _ _ Ev)).
      cbn [fst AIPipeline._handle_error AIPipeline.details AIPipeline.decision].
      rewrite (validate_input_error_type _ _ Ev). eexists. split; reflexivity.
Qed.

(* ===================================================================== *)
(** ** Further properties: the sizes of the buffers *)
(* ===================================================================== *)

Lemma append_bounded_holds {A} cap n (l : list A) x :
  (0 < cap)%nat -> holds_the_counted cap n (length l) ->
  holds_the_counted cap (S n) (length (append_bounded cap l x)).
Proof.
  unfold holds_the_counted. intros Hc H. unfold append_bounded.
  rewrite length_app. cbn [length].
  destruct (Nat.ltb_spec cap (length l + 1)).
  - destruct l as [| a l]; cbn [app tl length] in *; [lia |].
    rewrite length_app. cbn [length]. lia.
  - rewrite length_app. cbn [length]. lia.
Qed.

Lemma append_bounded_keeps {A} cap n (l : list A) x :
  (0 < cap)%nat -> holds_the_counted cap n (length l) ->
  holds_the_counted cap n (length (append_bounded cap l x)).
Proof.
  unfold holds_the_counted. intros Hc H. unfold append_bounded.
  rewrite length_app. cbn [length].
  destruct (Nat.ltb_spec cap (length l + 1)).
  - destruct l as [| a l]; cbn [app tl length] in *; [lia |].
    rewrite length_app. cbn [length]. lia.
  - rewrite length_app. cbn [length]. lia.
Qed.

Lemma next_state_sizes s pd pp' :
  holds_the_counted 100 (S (AIPipeline.analysis_count s))
    (length (DataPreprocessor.telemetry_history pp')) ->
  sizes_within_capacity s -> sizes_within_capacity (next_state s pd pp').
Proof.
  intros Hpp (_ & Hf & Hc & Ht & Hm). unfold sizes_within_capacity, next_state.
  cbn [AIPipeline.preprocessor AIPipeline.fdia_model AIPipeline.behavior_model
       AIPipeline.memory_model AIPipeline.analysis_count].
  rewrite behavior_analyze_state.
  unfold FDIADetectionModel._update_history, MemoryModel._update_memory,
    AIEngineConfig.history_size.
  cbn [FDIADetectionModel.history BehaviorLearningModel.command_history
       BehaviorLearningModel.timestamp_history MemoryModel.telemetry_memory].
  refine (conj Hpp (conj _ (conj _ (conj _ _))));
    apply append_bounded_holds; solve [lia | assumption].
Qed.

(** The buffers stay within their capacities and do not fall behind the
    analysis counter.  In every pipeline reached from a new one by
    analyses, completed or interrupted by an exception, resets, weight
    updates and added signatures, the preprocessor history and the
    telemetry memory hold at most 100 entries and at least
    min(analysis_count, 100), and the FDIA history and the two histories of
    the behavior model at most 50 and at least min(analysis_count, 50). *)
Theorem reachable_sizes_within_capacity s :
  AIPipeline.reachable s -> sizes_within_capacity s.
Proof.
  intros Hreach.
  induction Hreach as [| now s input_data _ IH
                       | now s input_data pd pp' fm' bm' mm' _ IH Hp Hfm Hbm Hmm
                       | s _ IH | s nw fe' _ IH Hu
                       | s name v f p description _ IH].
  - unfold sizes_within_capacity, holds_the_counted. simpl. lia.
  - destruct (analyze_cases now s input_data)
      as [(e & _ & E) | (pd & pp' & Hp & E & _)]; rewrite E; [exact IH |].
    apply next_state_sizes; [| exact IH].
    apply preprocess_Ok_explicit in Hp as (validated & deltas & _ & _ & _ & ->).
    cbn [DataPreprocessor.telemetry_history].
    apply append_bounded_holds; [unfold AIEngineConfig.history_size; lia |].
    apply IH.
  - destruct IH as (Ip & If & Ic & It & Im).
    apply preprocess_Ok_explicit in Hp as (validated & deltas & _ & _ & _ & ->).
    unfold sizes_within_capacity.
    cbn [AIPipeline.preprocessor AIPipeline.fdia_model AIPipeline.behavior_model
         AIPipeline.memory_model AIPipeline.analysis_count
         DataPreprocessor.telemetry_history].
    refine (conj _ (conj _ (conj _ (conj _ _)))).
    + apply append_bounded_keeps; [unfold AIEngineConfig.history_size; lia | exact Ip].
    + destruct Hfm as [-> | ->]; [exact If |].
      apply append_bounded_keeps; [lia | exact If].
    + destruct Hbm as [-> | ->]; [exact Ic |].
      rewrite behavior_analyze_state.
      cbn [BehaviorLearningModel.command_history].
      apply append_bounded_keeps;
        [unfold AIEngineConfig.pattern_memory_size; lia | exact Ic].
    + destruct Hbm as [-> | ->]; [exact It |].
      rewrite behavior_analyze_state.
      cbn [BehaviorLearningModel.timestamp_history].
      apply append_bounded_keeps;
        [unfold AIEngineConfig.pattern_memory_size; lia | exact It].
    + destruct Hmm as [-> | ->]; [exact Im |].
      apply append_bounded_keeps; [unfold AIEngineConfig.history_size; lia | exact Im].
  - unfold sizes_within_capacity, holds_the_counted. simpl. lia.
  - exact IH.
  - exact IH.
Qed.

(** The theorem at the pipeline a first analysis leaves behind when it is
    interrupted after the FDIA model has run: one sample is stored in the
    preprocessor and in the FDIA history, and none is counted. *)
Lemma reachable_sizes_within_capacity_witness :
  sizes_within_capacity
    (AIPipeline.mk
       (DataPreprocessor.mk (Some (mkTelemetry 1 50 100 ON (TsIso noon)))
          [mkHistoryEntry 1 50 100 (TsIso noon)])
       (FDIADetectionModel._update_history FDIADetectionModel.init quiet_sample)
       BehaviorLearningModel.init MemoryModel.init FusionEngine.init 0).
Proof.
  apply reachable_sizes_within_capacity.
  apply (AIPipeline.reach_interrupted noon AIPipeline.init
           (sample 1 50 100 "ON" (Some (TsIso noon))) quiet_sample).
  - apply AIPipeline.reach_init.
  - exact preprocess_quiet_sample.
  - right. reflexivity.
  - left. reflexivity.
  - left. reflexivity.
Defined.

(* ===================================================================== *)
(** ** Further properties: when the behavior model is silent *)
(* ===================================================================== *)

Lemma behavior_score_eq bm pd :
  score (fst (BehaviorLearningModel.analyze bm pd))
  = py_max (map fst (fired
      [ BehaviorLearningModel._check_replay_attack bm pd;
        BehaviorLearningModel._check_off_hours_operation pd;
        fst (BehaviorLearningModel._check_excessive_switching bm pd);
        BehaviorLearningModel._check_rapid_commands pd ])).
Proof.
  rewrite behavior_analyze_output. cbv zeta.
  destruct (fired _) as [| c l]; reflexivity.
Qed.

Lemma replay_silent_iff bm pd :
  fst (BehaviorLearningModel._check_replay_attack bm pd) = 0
  <-> Forall (fun past => 1/10 <= Rabs (timestamp_unix pd - past))
        (BehaviorLearningModel.timestamp_history bm).
Proof.
  unfold BehaviorLearningModel._check_replay_attack, AIEngineConfig.replay_time_tolerance.
  destruct (existsb _ _) eqn:E; cbn [fst].
  - apply existsb_exists in E as (past & Hin & Hlt). apply Rltb_lt in Hlt.
    split; [lra |]. intros H. rewrite List.Forall_forall in H.
    specialize (H _ Hin). lra.
  - split; [intros _ | reflexivity].
    apply List.Forall_forall. intros past Hin.
    destruct (Rlt_le_dec (Rabs (timestamp_unix pd - past)) (1/10)) as [Hlt | Hge];
      [| exact Hge].
    assert (existsb (fun past_timestamp =>
                       Rltb (Rabs (timestamp_unix pd - past_timestamp)) (1/10))
              (BehaviorLearningModel.timestamp_history bm) = true) as Ht.
    { apply existsb_exists. exists past. split; [exact Hin | apply Rltb_true, Hlt]. }
    rewrite Ht in E. discriminate.
Qed.

Lemma switching_silent_iff bm pd :
  fst (fst (BehaviorLearningModel._check_excessive_switching bm pd)) = 0
  <-> (length (pruned_switch_timestamps bm pd) <= 10)%nat.
Proof.
  unfold BehaviorLearningModel._check_excessive_switching, pruned_switch_timestamps,
    AIEngineConfig.max_switches_per_hour.
  rewrite filter_Rgtb.
  set (recent := filter _ _).
  destruct (Nat.ltb_spec 10 (length recent)) as [Hlt | Hge]; cbn [fst].
  - split; [| lia]. intros H. exfalso.
    assert (0 < INR (length recent)) as Hpos by (apply lt_0_INR; lia).
    assert (INR (10 * 2) = 20) as E20 by (simpl; lra).
    rewrite E20 in H. revert H. unfold Rmin.
    destruct (Rle_dec 1 (INR (length recent) / 20)); lra.
  - split; [intros _; exact Hge | reflexivity].
Qed.

(** The behavior model is silent exactly when none of its four checks
    applies: it returns score 0 if and only if no stored timestamp is
    within 0.1 s of the current one, the breaker either did not change
    or changed by day, on a weekday, at least 5 s after the previous
    sample, and at most ten toggles of the trailing hour are stored,
    the current one included. *)
Theorem behavior_model_silent_iff bm pd :
  score (fst (BehaviorLearningModel.analyze bm pd)) = 0
  <-> Forall (fun past => 1/10 <= Rabs (timestamp_unix pd - past))
        (BehaviorLearningModel.timestamp_history bm)
      /\ (BehaviorLearningModel.get_breaker_changed pd = true ->
          is_night pd = false /\ is_weekend pd = false /\ 5 <= delta_time pd)
      /\ (length (pruned_switch_timestamps bm pd) <= 10)%nat.
Proof.
  pose proof (behavior_checks_unit bm pd) as Hu.
  rewrite behavior_score_eq, py_max_fired_zero, fired_nil_iff.
  inversion Hu as [| c1 l1 H1 Hu1]; subst.
  inversion Hu1 as [| c2 l2 H2 Hu2]; subst.
  inversion Hu2 as [| c3 l3 H3 Hu3]; subst.
  inversion Hu3 as [| c4 l4 H4 _]; subst.
  assert (forall c : R * Text, unit_interval (fst c) -> (fst c <= 0 <-> fst c = 0))
    as Hz by (intros c [? ?]; split; lra).
  rewrite !List.Forall_cons_iff.
  rewrite (Hz _ H1), (Hz _ H2), (Hz _ H3), (Hz _ H4).
  rewrite replay_silent_iff, switching_silent_iff. clear.
  unfold BehaviorLearningModel._check_off_hours_operation,
    BehaviorLearningModel._check_rapid_commands, AIEngineConfig.command_interval_min.
  destruct (BehaviorLearningModel.get_breaker_changed pd);
    destruct (is_night pd); destruct (is_weekend pd); cbn [andb fst];
    by_cases_R; cbn [fst];
    split; intros H; decompose [and] H; repeat split;
    try assumption; try reflexivity; try discriminate; try constructor; try lra;
    try (match goal with
         | H : true = true -> _ |- _ => destruct (H eq_refl) as (? & ? & ?)
         end; first [discriminate | lra]).
Qed.
